(** * A shallow embedding of the go-dns-resolver wire codec

    The Go package [dns] (files [dns/dns.go], [dns/records.go] and the
    record formatter) and the printing functions of the command line tool
    ([cmd/dsn-resolver/main.go]) are embedded as executable Rocq functions:

    - a Go [[]byte] is a [list byte], a Go [string] a [string], a Go [int]
      or [uintN] a [Z];
    - a Go function returning [(T, error)] returns an [outcome T], which
      also records a run-time panic (slice index out of range) and the
      exhaustion of the fuel that bounds the recursion of
      [DecodeDomainName] (Go itself has no such bound);
    - the [for] loops become recursive functions carrying the loop
      variables;
    - offsets and lengths stay far below 2^63, so the arithmetic on [int]
      is that of [Z]. *)

From Stdlib Require Import ZArith List String Ascii Bool Lia.
From Stdlib Require Import Strings.Byte DecimalString HexadecimalString.
From Stdlib Require DecimalPos DecimalN.
From Equations Require Import Equations.
Import ListNotations.

Local Open Scope Z_scope.

(** ** Bytes, slices and strings *)

Definition byte_to_Z (b : byte) : Z := Z.of_N (Byte.to_N b).

(** Go's conversion [byte(n)] keeps the low eight bits of [n]. *)
Definition byte_of_Z (z : Z) : byte :=
  match Byte.of_N (Z.to_N (z mod 256)) with
  | Some b => b
  | None => x00
  end.

Definition len {A : Type} (s : list A) : Z := Z.of_nat (List.length s).

Definition strlen (s : string) : Z := Z.of_nat (String.length s).

(** [s[i]]: [None] stands for the index-out-of-range panic. *)
Definition index {A : Type} (s : list A) (i : Z) : option A :=
  if i <? 0 then None else nth_error s (Z.to_nat i).

(** [s[lo:hi]] on a slice whose capacity is its length: [None] stands for
    the slice-bounds-out-of-range panic. *)
Definition slice {A : Type} (s : list A) (lo hi : Z) : option (list A) :=
  if (0 <=? lo) && (lo <=? hi) && (hi <=? len s)
  then Some (firstn (Z.to_nat (hi - lo)) (skipn (Z.to_nat lo) s))
  else None.

(** [binary.BigEndian.Uint16(b)] is [uint16(b[1]) | uint16(b[0])<<8]. *)
Definition Uint16 (b : list byte) : option Z :=
  match index b 1, index b 0 with
  | Some b1, Some b0 => Some (Z.lor (byte_to_Z b1) (Z.shiftl (byte_to_Z b0) 8))
  | _, _ => None
  end.

(** [binary.BigEndian.Uint32(b)]. *)
Definition Uint32 (b : list byte) : option Z :=
  match index b 3, index b 2, index b 1, index b 0 with
  | Some b3, Some b2, Some b1, Some b0 =>
      Some (Z.lor (Z.lor (Z.lor (byte_to_Z b3) (Z.shiftl (byte_to_Z b2) 8))
                         (Z.shiftl (byte_to_Z b1) 16))
                  (Z.shiftl (byte_to_Z b0) 24))
  | _, _, _, _ => None
  end.

(** [binary.BigEndian.PutUint16]. *)
Definition PutUint16 (v : Z) : list byte :=
  [byte_of_Z (Z.shiftr v 8); byte_of_Z v].

(** [strings.Split(s, sep)] for a separator of one byte. *)
Fixpoint Split (s : string) (sep : ascii) : list string :=
  match s with
  | EmptyString => [EmptyString]
  | String c rest =>
      if Ascii.eqb c sep then EmptyString :: Split rest sep
      else match Split rest sep with
           | seg :: segs => String c seg :: segs
           | [] => [String c EmptyString]
           end
  end.

(** [strings.Join(elems, sep)]. *)
Fixpoint Join (elems : list string) (sep : string) : string :=
  match elems with
  | [] => EmptyString
  | x :: rest =>
      match rest with
      | [] => x
      | _ :: _ => (x ++ sep ++ Join rest sep)%string
      end
  end.

(** ** Errors and outcomes *)

(** One constructor per error value or [fmt.Errorf] format of the package;
    a [%w] verb becomes a constructor argument. *)
Inductive error : Type :=
| ErrNameNotFound                       (* domain name not found (NXDOMAIN) *)
| ErrServerFailed                       (* server failure (SERVFAIL) *)
| ErrBuildQuery (e : error)             (* failed to build query: %w *)
| ErrSendQuery (e : error)              (* failed to send query: %w *)
| ErrParseResponse (e : error)          (* failed to parse response: %w *)
| ErrIDMismatch (response query : Z)    (* response ID %d does not match query ID %d *)
| ErrRandomID (e : error)               (* failed to generate random ID: %w *)
| ErrConnect (e : error)                (* failed to connect to DNS server: %w *)
| ErrWrite (e : error)                  (* failed to send query: %w (sendQuery) *)
| ErrRead (e : error)                   (* failed to read response: %w *)
| ErrParseQuestion (i : Z) (e : error)  (* failed to parse question %d: %w *)
| ErrParseAnswer (i : Z) (e : error)    (* failed to parse answer %d: %w *)
| ErrQuestionTooShort                   (* message too short for question type/class *)
| ErrHeaderTooShort                     (* header data too short to unpack *)
| ErrSegmentTooLong (segment : string)  (* domain segment '%s' is longer than 63 characters *)
| ErrOffsetOutOfBounds (offset : Z)     (* offset %d out of bounds *)
| ErrMalformedPointer (offset : Z)      (* malformed pointer at offset %d *)
| ErrPointedName (e : error)            (* failed to decode pointed name: %w *)
| ErrLabelBeyondBoundary (length : Z)   (* label length %d extends beyond message boundary *)
| ErrRRName (e : error)                 (* failed to parse RR name: %w *)
| ErrRRHeaderTooShort                   (* message too short for RR header fields *)
| ErrRRDataLength                       (* RR data length exceeds message boundary *)
| ErrOS (msg : string).                 (* an error of the operating system *)

Inductive outcome (A : Type) : Type :=
| Ok (a : A)          (* the function returned, with a nil error *)
| Err (e : error)     (* the function returned a non-nil error *)
| Panic               (* a run-time panic *)
| OutOfFuel.          (* the recursion did not end within the fuel *)

Arguments Ok {A} a.
Arguments Err {A} e.
Arguments Panic {A}.
Arguments OutOfFuel {A}.

Definition bind {A B : Type} (o : outcome A) (k : A -> outcome B) : outcome B :=
  match o with
  | Ok a => k a
  | Err e => Err e
  | Panic => Panic
  | OutOfFuel => OutOfFuel
  end.

(** [if err != nil { return ..., fmt.Errorf("...: %w", err) }]. *)
Definition wrap {A : Type} (w : error -> error) (o : outcome A) : outcome A :=
  match o with
  | Err e => Err (w e)
  | _ => o
  end.

(** An index or slice expression that panics when out of range. *)
Definition must {A : Type} (o : option A) : outcome A :=
  match o with
  | Some a => Ok a
  | None => Panic
  end.

Declare Scope outcome_scope.
Delimit Scope outcome_scope with outcome.
Notation "x <- c ;; k" := (bind c (fun x => k))
  (at level 61, c at next level, right associativity) : outcome_scope.
Notation "' p <- c ;; k" := (bind c (fun x => match x with p => k end))
  (at level 61, p pattern, c at next level, right associativity) : outcome_scope.
Local Open Scope outcome_scope.

Definition is_Ok {A : Type} (o : outcome A) : bool :=
  match o with Ok _ => true | _ => false end.

Definition is_Err {A : Type} (o : outcome A) : bool :=
  match o with Err _ => true | _ => false end.

(** ** Name codec ([dns/dns.go]) *)

(** The body of the [for _, segment := range segments] loop of
    [EncodeDomainName], with the buffer written so far. *)
Fixpoint EncodeDomainName_segments (segments : list string) (buf : list byte)
  : outcome (list byte) :=
  match segments with
  | [] => Ok buf
  | segment :: rest =>
      if strlen segment >? 63 then Err (ErrSegmentTooLong segment)
      else EncodeDomainName_segments rest
             (buf ++ [byte_of_Z (strlen segment)] ++ list_byte_of_string segment)
  end.

Definition EncodeDomainName (domain : string) : outcome (list byte) :=
  buf <- EncodeDomainName_segments (Split domain ".") [] ;;
  Ok (buf ++ [x00]).

(** The [for] loop of [DecodeDomainName] with its local variables; one unit
    of fuel is spent per iteration, and the recursive call
    [DecodeDomainName(fullMessage, pointer)] at a compression pointer, which
    starts the loop again with fresh locals, runs on what is left.  In the
    pointer case [jumped = true] is assigned just before the [return] and
    is not read again. *)
Fixpoint DecodeDomainName_loop (fuel : nat) (fullMessage : list byte)
    (startOffset : Z) (labels : list string) (offset : Z)
    (bytesRead : Z) (jumped : bool) {struct fuel} : outcome (string * Z) :=
  match fuel with
  | O => OutOfFuel
  | S fuel' =>
      if offset >=? len fullMessage then Err (ErrOffsetOutOfBounds offset)
      else
        b <- must (index fullMessage offset) ;;
        let length := byte_to_Z b in
        let offset := offset + 1 in
        if length =? 0 then
          (* break, then the statements after the loop *)
          let bytesRead := if negb jumped then offset - startOffset else bytesRead in
          let bytesRead := if negb jumped then offset - startOffset else bytesRead in
          Ok (Join labels ".", bytesRead)
        else if Z.land length 0xC0 =? 0xC0 then
          if offset >=? len fullMessage then Err (ErrMalformedPointer (offset - 1))
          else
            bs <- must (slice fullMessage (offset - 1) (offset + 1)) ;;
            u <- must (Uint16 bs) ;;
            let pointer := Z.land u 0x3FFF in
            '(pointedName, _) <-
               wrap ErrPointedName
                 (DecodeDomainName_loop fuel' fullMessage pointer [] pointer 0 false) ;;
            let labels := labels ++ [pointedName] in
            let bytesRead := if negb jumped then offset - startOffset + 1 else bytesRead in
            Ok (Join labels ".", bytesRead)
        else if offset + length >? len fullMessage then
          Err (ErrLabelBeyondBoundary length)
        else
          bs <- must (slice fullMessage offset (offset + length)) ;;
          DecodeDomainName_loop fuel' fullMessage startOffset
            (labels ++ [string_of_list_byte bs]) (offset + length) bytesRead jumped
  end.

Definition DecodeDomainName (fuel : nat) (fullMessage : list byte) (offset : Z)
  : outcome (string * Z) :=
  DecodeDomainName_loop fuel fullMessage offset [] offset 0 false.

(** ** Message codec ([dns/dns.go]) *)

Definition RecordType : Type := Z.

Definition TypeA : RecordType := 1.
Definition TypeAAAA : RecordType := 28.
Definition TypeCNAME : RecordType := 5.
Definition TypeMX : RecordType := 15.
Definition TypeTXT : RecordType := 16.
Definition TypeNS : RecordType := 2.

Record Header : Type := mkHeader {
  ID : Z;
  Flags : Z;
  QDCOUNT : Z;
  ANCOUNT : Z;
  NSCOUNT : Z;
  ARCOUNT : Z
}.

Record Question : Type := mkQuestion {
  QName : string;
  QType : RecordType;
  QClass : Z
}.

Record ResourceRecord : Type := mkResourceRecord {
  RRName : string;
  RRType : RecordType;
  RRClass : Z;
  TTL : Z;
  RDLength : Z;
  RData : list byte
}.

Record DNSMessage : Type := mkDNSMessage {
  MsgHeader : Header;
  Questions : list Question;
  Answers : list ResourceRecord;
  Authority : list ResourceRecord;
  Additional : list ResourceRecord
}.

(** [binary.BigEndian.Uint16(message[off : off+2])]. *)
Definition u16_at (message : list byte) (off : Z) : outcome Z :=
  bs <- must (slice message off (off + 2)) ;;
  must (Uint16 bs).

(** [binary.BigEndian.Uint32(message[off : off+4])]. *)
Definition u32_at (message : list byte) (off : Z) : outcome Z :=
  bs <- must (slice message off (off + 4)) ;;
  must (Uint32 bs).

(** [binary.Write(buf, binary.BigEndian, h)] on the six [uint16] fields. *)
Definition Header_Pack (h : Header) : outcome (list byte) :=
  Ok (PutUint16 h.(ID) ++ PutUint16 h.(Flags) ++ PutUint16 h.(QDCOUNT)
      ++ PutUint16 h.(ANCOUNT) ++ PutUint16 h.(NSCOUNT) ++ PutUint16 h.(ARCOUNT)).

Definition Question_Pack (q : Question) : outcome (list byte) :=
  encodedName <- EncodeDomainName q.(QName) ;;
  Ok (encodedName ++ PutUint16 q.(QType) ++ PutUint16 q.(QClass)).

(** [binary.Read(reader, binary.BigEndian, &header)] on a reader of the
    first twelve bytes fills the fields in declaration order, two bytes
    each. *)
Definition UnpackHeader (data : list byte) : outcome Header :=
  if len data <? 12 then Err ErrHeaderTooShort
  else
    reader <- must (slice data 0 12) ;;
    id <- u16_at reader 0 ;;
    flags <- u16_at reader 2 ;;
    qdcount <- u16_at reader 4 ;;
    ancount <- u16_at reader 6 ;;
    nscount <- u16_at reader 8 ;;
    arcount <- u16_at reader 10 ;;
    Ok (mkHeader id flags qdcount ancount nscount arcount).

Definition parseQuestion (fuel : nat) (message : list byte) (offset : Z)
  : outcome (Question * Z) :=
  '(name, nameLen) <- DecodeDomainName fuel message offset ;;
  if offset + nameLen + 4 >? len message then Err ErrQuestionTooShort
  else
    qtype <- u16_at message (offset + nameLen) ;;
    qclass <- u16_at message (offset + nameLen + 2) ;;
    Ok (mkQuestion name qtype qclass, nameLen + 4).

(** ** Resource record parser ([dns/records.go]) *)

(** [make([]byte, n)]. *)
Definition make (n : Z) : list byte := repeat x00 (Z.to_nat n).

(** [copy(dst, src)]: the first [min(len(dst), len(src))] bytes of [dst]
    are overwritten. *)
Definition copy (dst src : list byte) : list byte :=
  let n := Nat.min (List.length dst) (List.length src) in
  firstn n src ++ skipn n dst.

Definition ParseResourceRecord (fuel : nat) (message : list byte) (offset : Z)
  : outcome (ResourceRecord * Z) :=
  '(name, nameLen) <- wrap ErrRRName (DecodeDomainName fuel message offset) ;;
  let offset := offset + nameLen in
  if offset + 10 >? len message then Err ErrRRHeaderTooShort
  else
    rrtype <- u16_at message offset ;;
    rrclass <- u16_at message (offset + 2) ;;
    ttl <- u32_at message (offset + 4) ;;
    rdlength <- u16_at message (offset + 8) ;;
    let offset := offset + 10 in
    if offset + rdlength >? len message then Err ErrRRDataLength
    else
      src <- must (slice message offset (offset + rdlength)) ;;
      let rdata := copy (make rdlength) src in
      let offset := offset + rdlength in
      Ok (mkResourceRecord name rrtype rrclass ttl rdlength rdata, offset).

(** ** Response parsing ([dns/dns.go]) *)

(** The loop [for i := 0; i < int(header.QDCOUNT); i++] of [parseResponse],
    with [n] iterations left. *)
Fixpoint parseResponse_questions (fuel : nat) (response : list byte) (n : nat)
    (i : Z) (msg : DNSMessage) (offset : Z) : outcome (DNSMessage * Z) :=
  match n with
  | O => Ok (msg, offset)
  | S n' =>
      '(q, k) <- wrap (ErrParseQuestion i) (parseQuestion fuel response offset) ;;
      let msg := mkDNSMessage msg.(MsgHeader) (msg.(Questions) ++ [q])
                   msg.(Answers) msg.(Authority) msg.(Additional) in
      parseResponse_questions fuel response n' (i + 1) msg (offset + k)
  end.

(** The loop [for i := 0; i < int(header.ANCOUNT); i++] of [parseResponse],
    with [n] iterations left: [offset += n] adds what [ParseResourceRecord]
    returned. *)
Fixpoint parseResponse_answers (fuel : nat) (response : list byte) (n : nat)
    (i : Z) (msg : DNSMessage) (offset : Z) : outcome (DNSMessage * Z) :=
  match n with
  | O => Ok (msg, offset)
  | S n' =>
      '(rr, k) <- wrap (ErrParseAnswer i) (ParseResourceRecord fuel response offset) ;;
      let msg := mkDNSMessage msg.(MsgHeader) msg.(Questions)
                   (msg.(Answers) ++ [rr]) msg.(Authority) msg.(Additional) in
      parseResponse_answers fuel response n' (i + 1) msg (offset + k)
  end.

Definition parseResponse (fuel : nat) (response : list byte) : outcome DNSMessage :=
  header <- UnpackHeader response ;;
  let responseCode := Z.land header.(Flags) 0x000F in
  if responseCode =? 2 then Err ErrServerFailed
  else if responseCode =? 3 then Err ErrNameNotFound
  else
    let offset := 12 in
    let msg := mkDNSMessage header [] [] [] [] in
    '(msg, offset) <-
       parseResponse_questions fuel response (Z.to_nat header.(QDCOUNT)) 0 msg offset ;;
    '(msg, offset) <-
       parseResponse_answers fuel response (Z.to_nat header.(ANCOUNT)) 0 msg offset ;;
    Ok msg.

(** ** Resolver ([dns/dns.go]) *)

Record Resolver : Type := mkResolver {
  ServerAddr : string;
  Timeout : Z            (* a [time.Duration], in nanoseconds *)
}.

Definition NewResolver (serverAddr : string) : Resolver :=
  mkResolver serverAddr (5 * 1000000000).

(** What one [Resolve] call gets from outside the program: the two bytes of
    [rand.Read], and the results of [net.Dial], [conn.Write] and
    [conn.Read] (the datagram the server sent for the query written). *)
Record World : Type := mkWorld {
  rand_Read : outcome (byte * byte);
  net_Dial : string -> outcome unit;
  conn_Write : list byte -> outcome unit;
  conn_Read : list byte -> outcome (list byte)
}.

Definition buildQuery (w : World) (r : Resolver) (domainName : string)
    (recordType : RecordType) : outcome (list byte * Z) :=
  '(b0, b1) <- wrap ErrRandomID w.(rand_Read) ;;
  id <- must (Uint16 [b0; b1]) ;;
  let header := mkHeader id 0x0100 1 0 0 0 in
  let question := mkQuestion domainName recordType 1 in
  headerBytes <- Header_Pack header ;;
  questionBytes <- Question_Pack question ;;
  Ok (headerBytes ++ questionBytes, id).

(** [conn.Read] fills a buffer of 512 bytes: a longer datagram is cut. *)
Definition sendQuery (w : World) (r : Resolver) (query : list byte)
  : outcome (list byte) :=
  _ <- wrap ErrConnect (w.(net_Dial) r.(ServerAddr)) ;;
  _ <- wrap ErrWrite (w.(conn_Write) query) ;;
  datagram <- wrap ErrRead (w.(conn_Read) query) ;;
  Ok (firstn 512 datagram).

Definition Resolve (w : World) (fuel : nat) (r : Resolver) (domainName : string)
    (recordType : RecordType) : outcome DNSMessage :=
  '(query, queryID) <- wrap ErrBuildQuery (buildQuery w r domainName recordType) ;;
  responseBytes <- wrap ErrSendQuery (sendQuery w r query) ;;
  msg <- wrap ErrParseResponse (parseResponse fuel responseBytes) ;;
  if negb (msg.(MsgHeader).(ID) =? queryID)
  then Err (ErrIDMismatch msg.(MsgHeader).(ID) queryID)
  else Ok msg.

(** ** Record data formatter *)

(** [fmt.Sprintf("%d", n)] for an unsigned [n]. *)
Definition Sprintf_d (n : Z) : string :=
  DecimalString.NilZero.string_of_uint (N.to_uint (Z.to_N n)).

(** [fmt.Sprintf("%x", n)] for an unsigned [n]. *)
Definition Sprintf_x (n : Z) : string :=
  HexadecimalString.NilZero.string_of_uint (N.to_hex_uint (Z.to_N n)).

(** [fmt.Sprintf("%v", b)] for a [[]byte]. *)
Definition Sprintf_v (b : list byte) : string :=
  ("[" ++ Join (map (fun x => Sprintf_d (byte_to_Z x)) b) " " ++ "]")%string.

Fixpoint HasPrefix (s prefix : list byte) : bool :=
  match prefix, s with
  | [], _ => true
  | _ :: _, [] => false
  | p :: prefix', c :: s' => Byte.eqb p c && HasPrefix s' prefix'
  end.

(** [bytes.Index(s, sep)] computed from position [i] of the original
    slice: the first position where [sep] occurs, or [-1]. *)
Fixpoint bytes_Index_from (s sep : list byte) (i : Z) : Z :=
  match s with
  | [] => if HasPrefix s sep then i else -1
  | _ :: s' => if HasPrefix s sep then i else bytes_Index_from s' sep (i + 1)
  end.

Definition bytes_Index (s sep : list byte) : Z := bytes_Index_from s sep 0.

Section Formatter.

(** [fmt.Sprintf("%q", s)], the quoting of [strconv.Quote]; its escaping
    rules depend on Unicode tables and are left open. *)
Variable Sprintf_q : string -> string.

(** The [for len(data) > 0] loop of the TXT case.  With
    [data = b :: rest], [data[1:1+length]] is the first [length] bytes of
    [rest] and [data[1+length:]] is what follows them. *)
Equations? RDataString_TXT (data : list byte) (texts : list string)
  : list string by wf (List.length data) lt :=
  RDataString_TXT [] texts := texts;
  RDataString_TXT (b :: rest) texts :=
    let length := byte_to_Z b in
    if len (b :: rest) >? length then
      RDataString_TXT (skipn (Z.to_nat length) rest)
        (texts ++ [Sprintf_q (string_of_list_byte (firstn (Z.to_nat length) rest))])
    else texts.
Proof. rewrite length_skipn. simpl. lia. Qed.

Definition RDataString (fuel : nat) (rr : ResourceRecord) (fullMessage : list byte)
  : outcome string :=
  let malformed :=
    Ok ("unsupported record type or malformed data (" ++ Sprintf_v rr.(RData) ++ ")")%string in
  if rr.(RRType) =? TypeA then
    if len rr.(RData) =? 4 then
      b0 <- must (index rr.(RData) 0) ;;
      b1 <- must (index rr.(RData) 1) ;;
      b2 <- must (index rr.(RData) 2) ;;
      b3 <- must (index rr.(RData) 3) ;;
      Ok (Sprintf_d (byte_to_Z b0) ++ "." ++ Sprintf_d (byte_to_Z b1) ++ "."
          ++ Sprintf_d (byte_to_Z b2) ++ "." ++ Sprintf_d (byte_to_Z b3))%string
    else malformed
  else if rr.(RRType) =? TypeAAAA then
    if len rr.(RData) =? 16 then
      parts <- fold_left
                 (fun (acc : outcome (list string)) (i : Z) =>
                    parts <- acc ;;
                    v <- u16_at rr.(RData) i ;;
                    Ok (parts ++ [Sprintf_x v]))
                 [0; 2; 4; 6; 8; 10; 12; 14] (Ok []) ;;
      Ok (Join parts ":")
    else malformed
  else if (rr.(RRType) =? TypeCNAME) || (rr.(RRType) =? TypeNS) then
    let rdataStartOffset := bytes_Index fullMessage rr.(RData) in
    if rdataStartOffset =? -1 then Ok "invalid CNAME/NS data"%string
    else
      match DecodeDomainName fuel fullMessage rdataStartOffset with
      | Ok (name, _) => Ok name
      | Err _ => malformed
      | Panic => Panic
      | OutOfFuel => OutOfFuel
      end
  else if rr.(RRType) =? TypeMX then
    if len rr.(RData) >? 2 then
      preference <- u16_at rr.(RData) 0 ;;
      let rdataStartOffset := bytes_Index fullMessage rr.(RData) in
      if rdataStartOffset =? -1 then Ok "invalid MX data"%string
      else
        match DecodeDomainName fuel fullMessage (rdataStartOffset + 2) with
        | Ok (exchange, _) => Ok (Sprintf_d preference ++ " " ++ exchange)%string
        | Err _ => malformed
        | Panic => Panic
        | OutOfFuel => OutOfFuel
        end
    else malformed
  else if rr.(RRType) =? TypeTXT then
    Ok (Join (RDataString_TXT rr.(RData) []) " ")
  else malformed.

End Formatter.

(** ** Record type names ([dns/records.go]) *)

(** The method [String] of [RecordType]; [fmt.Sprintf("TYPE%d", rt)] in the
    default case. *)
Definition RecordType_String (rt : RecordType) : string :=
  if rt =? TypeA then "A"
  else if rt =? TypeAAAA then "AAAA"
  else if rt =? TypeCNAME then "CNAME"
  else if rt =? TypeMX then "MX"
  else if rt =? TypeTXT then "TXT"
  else if rt =? TypeNS then "NS"
  else ("TYPE" ++ Sprintf_d rt)%string.

(** ** Command line tool ([cmd/dsn-resolver/main.go]) *)

(** The [switch recordTypeStr] of [main]: [None] stands for the
    unsupported-record-type exit. *)
Definition main_recordType (recordTypeStr : string) : option RecordType :=
  if String.eqb recordTypeStr "A" then Some TypeA
  else if String.eqb recordTypeStr "AAAA" then Some TypeAAAA
  else if String.eqb recordTypeStr "CNAME" then Some TypeCNAME
  else if String.eqb recordTypeStr "MX" then Some TypeMX
  else if String.eqb recordTypeStr "TXT" then Some TypeTXT
  else if String.eqb recordTypeStr "NS" then Some TypeNS
  else None.

Definition getStatus (flags : Z) : string :=
  if Z.land flags 0x000F =? 0 then "NOERROR"
  else if Z.land flags 0x000F =? 3 then "NXDOMAIN"
  else "ERROR".

Definition getFlags (flags : Z) : string :=
  let f := [] in
  let f := if negb (Z.land flags 0x8000 =? 0) then f ++ ["qr"%string] else f in
  let f := if negb (Z.land flags 0x0400 =? 0) then f ++ ["aa"%string] else f in
  let f := if negb (Z.land flags 0x0100 =? 0) then f ++ ["rd"%string] else f in
  let f := if negb (Z.land flags 0x0080 =? 0) then f ++ ["ra"%string] else f in
  Join f " ".

Definition newline : string := String (Ascii.ascii_of_nat 10) EmptyString.

Definition tab : string := String (Ascii.ascii_of_nat 9) EmptyString.

(** The loop [for _, q := range msg.Questions] of [printResponse], with
    the text printed so far. *)
Fixpoint printResponse_questions (questions : list Question) (out : string) : string :=
  match questions with
  | [] => out
  | q :: rest =>
      printResponse_questions rest
        (out ++ ";" ++ q.(QName) ++ "." ++ tab ++ tab ++ "IN" ++ tab
             ++ RecordType_String q.(QType) ++ newline)%string
  end.

(** The loop [for _, a := range msg.Answers] of [printResponse]. *)
Fixpoint printResponse_answers (Sprintf_q : string -> string) (fuel : nat)
    (answers : list ResourceRecord) (rawBytes : list byte) (out : string)
  : outcome string :=
  match answers with
  | [] => Ok out
  | a :: rest =>
      rdata <- RDataString Sprintf_q fuel a rawBytes ;;
      printResponse_answers Sprintf_q fuel rest rawBytes
        (out ++ a.(RRName) ++ "." ++ tab ++ Sprintf_d a.(TTL) ++ tab ++ "IN" ++ tab
             ++ RecordType_String a.(RRType) ++ tab ++ rdata ++ newline)%string
  end.

(** [printResponse]: the text written to the standard output. *)
Definition printResponse (Sprintf_q : string -> string) (fuel : nat) (msg : DNSMessage)
  : outcome string :=
  let h := msg.(MsgHeader) in
  let out :=
    (";; ->>HEADER<<- opcode: QUERY, status: " ++ getStatus h.(Flags)
     ++ ", id: " ++ Sprintf_d h.(ID) ++ newline)%string in
  let out :=
    (out ++ ";; flags: " ++ getFlags h.(Flags)
     ++ "; QUERY: " ++ Sprintf_d h.(QDCOUNT)
     ++ ", ANSWER: " ++ Sprintf_d h.(ANCOUNT)
     ++ ", AUTHORITY: " ++ Sprintf_d h.(NSCOUNT)
     ++ ", ADDITIONAL: " ++ Sprintf_d h.(ARCOUNT) ++ newline ++ newline)%string in
  let out :=
    if len msg.(Questions) >? 0 then
      (printResponse_questions msg.(Questions)
         (out ++ ";; QUESTION SECTION:" ++ newline) ++ newline)%string
    else out in
  let rawBytes := [] in
  if len msg.(Answers) >? 0 then
    out <- printResponse_answers Sprintf_q fuel msg.(Answers) rawBytes
             (out ++ ";; ANSWER SECTION:" ++ newline)%string ;;
    Ok (out ++ newline)%string
  else Ok out.

(** ** Definitions used in the statements *)

(** The bytes [EncodeDomainName] writes for a list of segments. *)
Definition wire_labels (segments : list string) : list byte :=
  List.concat (map (fun segment => byte_of_Z (strlen segment) :: list_byte_of_string segment)
              segments).

(** [reads_labels msg off ls p]: from offset [off] the message holds the
    ordinary labels [ls] one after the other (length byte neither zero nor
    a pointer, then that many bytes), the last one ending just before
    offset [p]. *)
Inductive reads_labels (msg : list byte) : Z -> list string -> Z -> Prop :=
| reads_labels_nil (off : Z) : reads_labels msg off [] off
| reads_labels_cons (off : Z) (b : byte) (bs : list byte) (ls : list string) (p : Z) :
    index msg off = Some b ->
    byte_to_Z b <> 0 ->
    Z.land (byte_to_Z b) 0xC0 <> 0xC0 ->
    slice msg (off + 1) (off + 1 + byte_to_Z b) = Some bs ->
    reads_labels msg (off + 1 + byte_to_Z b) ls p ->
    reads_labels msg off (string_of_list_byte bs :: ls) p.

(** The bytes a sequence of labels takes on the wire: one length byte and
    the label's bytes, each. *)
Definition labels_size (ls : list string) : Z :=
  fold_right (fun l acc => 1 + strlen l + acc) 0 ls.

(** [jumps_to msg s t]: a decode that starts at offset [s] reads ordinary
    labels up to a compression pointer whose target is [t]. *)
Definition jumps_to (msg : list byte) (s t : Z) : Prop :=
  exists ls p b bs u,
    reads_labels msg s ls p
    /\ index msg p = Some b
    /\ Z.land (byte_to_Z b) 0xC0 = 0xC0
    /\ slice msg p (p + 2) = Some bs
    /\ Uint16 bs = Some u
    /\ t = Z.land u 0x3FFF.

(** The error is the response-id mismatch of [Resolve]. *)
Definition is_id_mismatch {A : Type} (o : outcome A) : bool :=
  match o with
  | Err (ErrIDMismatch _ _) => true
  | _ => false
  end.

(** The wire form of the character strings of a TXT record: each string
    after one byte holding its length. *)
Definition txt_wire (strs : list (list byte)) : list byte :=
  List.concat (map (fun str => byte_of_Z (len str) :: str) strs).

(** What may follow the last well-formed character string: nothing, or a
    length byte that asks for more bytes than are left after it. *)
Definition overruns (rest : list byte) : Prop :=
  match rest with
  | [] => True
  | b :: tail => len tail < byte_to_Z b
  end.

(** The byte of the double quote character. *)
Definition double_quote : ascii := Ascii.ascii_of_nat 34.

(** The string of the last [return] of [RDataString]. *)
Definition placeholder (rdata : list byte) : string :=
  ("unsupported record type or malformed data (" ++ Sprintf_v rdata ++ ")")%string.

(** The value fits an unsigned 16-bit field. *)
Definition is_uint16 (v : Z) : Prop := 0 <= v < 65536.

(** All six fields of the header fit their 16 bits. *)
Definition Header_wf (h : Header) : Prop :=
  is_uint16 h.(ID) /\ is_uint16 h.(Flags) /\ is_uint16 h.(QDCOUNT)
  /\ is_uint16 h.(ANCOUNT) /\ is_uint16 h.(NSCOUNT) /\ is_uint16 h.(ARCOUNT).

(** Every label of the question's name has 1 to 63 bytes, and its type and
    class fit their 16 bits. *)
Definition Question_wf (q : Question) : Prop :=
  Forall (fun segment => 1 <= strlen segment <= 63) (Split q.(QName) ".")
  /\ is_uint16 q.(QType) /\ is_uint16 q.(QClass).

(** The bytes [Question.Pack] writes for a question. *)
Definition Question_wire (q : Question) : list byte :=
  wire_labels (Split q.(QName) ".") ++ [x00] ++ PutUint16 q.(QType) ++ PutUint16 q.(QClass).

(** ** Test vectors *)

(** The wire form of [example.com], 13 bytes (Scenario A). *)
Definition example_com_wire : list byte :=
  [x07] ++ list_byte_of_string "example" ++ [x03] ++ list_byte_of_string "com" ++ [x00].

(** A name that is one compression pointer to its own offset 0. *)
Definition self_pointer : list byte := [xc0; x00].

(** Two pointers that target each other: offset 0 points to 2, offset 2 to 0. *)
Definition pointer_cycle : list byte := [xc0; x02; xc0; x00].

(** A pointer at offset 0 to the root label that follows it at offset 2. *)
Definition forward_pointer : list byte := [xc0; x02; x00].

(** [www] followed by a pointer to offset 6, where [com] and the root label
    are. *)
Definition www_pointer_com : list byte :=
  [x03] ++ list_byte_of_string "www" ++ [xc0; x06]
  ++ [x03] ++ list_byte_of_string "com" ++ [x00].

(** The twelve bytes of a header with the given fields. *)
Definition wire_header (id flags qdcount ancount nscount arcount : Z) : list byte :=
  PutUint16 id ++ PutUint16 flags ++ PutUint16 qdcount ++ PutUint16 ancount
  ++ PutUint16 nscount ++ PutUint16 arcount.

(** The question [example.com IN A], 17 bytes. *)
Definition wire_question : list byte := example_com_wire ++ [x00; x01; x00; x01].

(** An A record owned by the name at offset 12 (a compression pointer), with
    TTL 3600 and the four address bytes [ip]: 16 bytes. *)
Definition wire_answer_A (ip : list byte) : list byte :=
  [xc0; x0c; x00; x01; x00; x01; x00; x00; x0e; x10; x00; x04] ++ ip.

(** A response to [example.com IN A] with one answer. *)
Definition response_one_answer (id flags : Z) : list byte :=
  wire_header id flags 1 1 0 0 ++ wire_question ++ wire_answer_A [x5d; xb8; xd8; x22].

(** A response to [example.com IN A] with two answers laid out back to
    back, at offsets 29 and 45. *)
Definition response_two_answers : list byte :=
  wire_header 0x1234 0x8180 1 2 0 0 ++ wire_question
  ++ wire_answer_A [x5d; xb8; xd8; x22] ++ wire_answer_A [x5d; xb8; xd8; x23].

(** The one-answer response cut one byte short of its declared data. *)
Definition response_truncated : list byte :=
  removelast (response_one_answer 0x1234 0x8180).

(** The one-answer response with NSCOUNT 3 and ARCOUNT 7 in its header. *)
Definition response_with_counts : list byte :=
  wire_header 0x1234 0x8180 1 1 3 7 ++ wire_question ++ wire_answer_A [x5d; xb8; xd8; x22].

(** The twelve bytes of Scenario B. *)
Definition scenario_B_header : list byte :=
  [x12; x34; x81; x80; x00; x01; x00; x01; x00; x00; x00; x00].

(** A world in which [rand.Read] gives the bytes [id0], [id1], the
    network calls succeed and the server's datagram is [datagram]. *)
Definition world_of (id0 id1 : byte) (datagram : list byte) : World :=
  mkWorld (Ok (id0, id1)) (fun _ => Ok tt) (fun _ => Ok tt) (fun _ => Ok datagram).

(** Scenario D: the query goes out with id 0x0004, and the response, a
    NOERROR response with one answer, comes back with id 0x0005. *)
Definition scenario_D_world : World :=
  world_of x00 x04 (response_one_answer 0x0005 0x8180).

(** The same exchange with an NXDOMAIN response (RCODE 3). *)
Definition nxdomain_world : World :=
  world_of x00 x04 (wire_header 0x0005 0x8183 1 0 0 0 ++ wire_question).

(** The same exchange with a SERVFAIL response (RCODE 2). *)
Definition servfail_world : World :=
  world_of x00 x04 (wire_header 0x0005 0x8182 1 0 0 0 ++ wire_question).

(** A quoting that puts its argument between double quotes, without any
    escaping. *)
Definition plain_quote (s : string) : string :=
  String double_quote (s ++ String double_quote EmptyString).

(** TXT data with the strings [abc] and [de], then a length byte 5 with one
    byte after it. *)
Definition txt_partial : list byte :=
  [x03] ++ list_byte_of_string "abc" ++ [x02] ++ list_byte_of_string "de" ++ [x05; x01].

(** * Properties *)

(** ** Bytes and slices *)

Lemma byte_to_Z_range (b : byte) : 0 <= byte_to_Z b < 256.
Proof.
  unfold byte_to_Z. pose proof (Byte.to_N_bounded b). lia.
Qed.

Lemma byte_to_of_Z (z : Z) : 0 <= z < 256 -> byte_to_Z (byte_of_Z z) = z.
Proof.
  intros Hz. unfold byte_to_Z, byte_of_Z.
  rewrite Z.mod_small by lia.
  destruct (Byte.of_N (Z.to_N z)) as [b|] eqn:E.
  - apply Byte.to_of_N in E. rewrite E. lia.
  - apply Byte.of_N_None_iff in E. lia.
Qed.

Lemma byte_of_to_Z (b : byte) : byte_of_Z (byte_to_Z b) = b.
Proof.
  unfold byte_of_Z. pose proof (byte_to_Z_range b) as Hb.
  rewrite Z.mod_small by lia. unfold byte_to_Z.
  rewrite N2Z.id, Byte.of_to_N. reflexivity.
Qed.

Lemma len_nonneg {A : Type} (s : list A) : 0 <= len s.
Proof. unfold len. lia. Qed.

Lemma len_app {A : Type} (s t : list A) : len (s ++ t) = len s + len t.
Proof. unfold len. rewrite length_app. lia. Qed.

Lemma len_cons {A : Type} (a : A) (s : list A) : len (a :: s) = 1 + len s.
Proof. unfold len. simpl List.length. lia. Qed.

Lemma index_in_range {A : Type} (s : list A) (i : Z) :
  0 <= i < len s -> exists a, index s i = Some a.
Proof.
  intros Hi. unfold index.
  destruct (Z.ltb_spec i 0) as [?|_]; [lia|].
  destruct (nth_error s (Z.to_nat i)) as [a|] eqn:E; [eauto|].
  apply nth_error_None in E. unfold len in Hi. lia.
Qed.

Lemma index_app_r {A : Type} (s t : list A) (i : Z) :
  len s <= i -> index (s ++ t) i = index t (i - len s).
Proof.
  intros Hi. pose proof (len_nonneg s) as Hs. unfold index.
  destruct (Z.ltb_spec i 0) as [?|_]; [lia|].
  destruct (Z.ltb_spec (i - len s) 0) as [?|_]; [lia|].
  unfold len in *. rewrite nth_error_app2 by lia.
  f_equal. lia.
Qed.

Lemma slice_in_range {A : Type} (s : list A) (lo hi : Z) :
  0 <= lo -> lo <= hi -> hi <= len s ->
  slice s lo hi = Some (firstn (Z.to_nat (hi - lo)) (skipn (Z.to_nat lo) s)).
Proof.
  intros H0 H1 H2. unfold slice.
  destruct (Z.leb_spec 0 lo); [|lia].
  destruct (Z.leb_spec lo hi); [|lia].
  destruct (Z.leb_spec hi (len s)); [|lia].
  reflexivity.
Qed.

Lemma slice_length {A : Type} (s bs : list A) (lo hi : Z) :
  slice s lo hi = Some bs -> len bs = hi - lo /\ 0 <= lo /\ lo <= hi /\ hi <= len s.
Proof.
  unfold slice.
  destruct (Z.leb_spec 0 lo); [|discriminate].
  destruct (Z.leb_spec lo hi); [|discriminate].
  destruct (Z.leb_spec hi (len s)); [|discriminate].
  simpl. intros E. injection E as <-.
  unfold len in *. rewrite length_firstn, length_skipn. lia.
Qed.

(** A slice taken in the middle of [pre ++ mid ++ post]. *)
Lemma slice_app_mid {A : Type} (pre mid post : list A) :
  slice (pre ++ mid ++ post) (len pre) (len pre + len mid) = Some mid.
Proof.
  pose proof (len_nonneg pre). pose proof (len_nonneg mid). pose proof (len_nonneg post).
  rewrite slice_in_range; rewrite ?len_app; try lia.
  f_equal. unfold len.
  replace (Z.to_nat (Z.of_nat (List.length pre) + Z.of_nat (List.length mid)
                     - Z.of_nat (List.length pre))) with (List.length mid) by lia.
  rewrite Nat2Z.id.
  assert (E : skipn (List.length pre) (pre ++ mid ++ post) = mid ++ post).
  { clear. induction pre as [|a pre IH]; [reflexivity | exact IH]. }
  rewrite E. clear.
  induction mid as [|a mid IH]; [reflexivity|].
  simpl. f_equal. exact IH.
Qed.

Lemma Uint16_pair (b0 b1 : byte) :
  Uint16 [b0; b1] = Some (Z.lor (byte_to_Z b1) (Z.shiftl (byte_to_Z b0) 8)).
Proof. reflexivity. Qed.

(** Big-endian: the first byte is the high one. *)
Lemma lor_shiftl_8 (lo hi : Z) :
  0 <= lo < 256 -> 0 <= hi -> Z.lor lo (Z.shiftl hi 8) = hi * 256 + lo.
Proof.
  intros Hlo Hhi.
  rewrite Z.shiftl_mul_pow2 by lia. change (2 ^ 8) with 256.
  rewrite Z.lor_comm, <- Z.lxor_lor, <- Z.add_nocarry_lxor; try reflexivity.
  all: apply Z.bits_inj'; intros n Hn; rewrite Z.land_spec, Z.bits_0.
  all: destruct (Z.ltb_spec n 8) as [Hlt|Hge].
  all: try (replace 256 with (2 ^ 8) by reflexivity; rewrite Z.mul_pow2_bits_low by lia; reflexivity).
  all: replace (Z.testbit lo n) with false; [apply andb_false_r|].
  all: symmetry; apply Z.bits_above_log2; try lia.
  all: destruct (Z.eq_dec lo 0) as [->|]; [simpl; lia|].
  all: apply Z.log2_lt_pow2; try lia.
  all: apply Z.lt_le_trans with (2 ^ 8); [simpl; lia|].
  all: apply Z.pow_le_mono_r; lia.
Qed.

Lemma Uint16_range (b : list byte) (v : Z) : Uint16 b = Some v -> 0 <= v < 65536.
Proof.
  unfold Uint16.
  destruct (index b 1) as [b1|]; [|discriminate].
  destruct (index b 0) as [b0|]; [|discriminate].
  intros E.
  assert (Ev : v = Z.lor (byte_to_Z b1) (Z.shiftl (byte_to_Z b0) 8)) by congruence.
  pose proof (byte_to_Z_range b0). pose proof (byte_to_Z_range b1).
  rewrite Ev, lor_shiftl_8 by lia. lia.
Qed.

Lemma u16_at_in_range (message : list byte) (off : Z) :
  0 <= off -> off + 2 <= len message ->
  exists v, u16_at message off = Ok v /\ 0 <= v < 65536.
Proof.
  intros H0 H1. unfold u16_at.
  rewrite slice_in_range by lia. simpl.
  set (bs := firstn _ _).
  assert (Hbs : len bs = 2).
  { subst bs. unfold len in *. rewrite length_firstn, length_skipn. lia. }
  destruct (index_in_range bs 1) as [b1 E1]; [lia|].
  destruct (index_in_range bs 0) as [b0 E0]; [lia|].
  unfold Uint16 at 1. rewrite E1, E0. simpl.
  eexists; split; [reflexivity|].
  apply (Uint16_range [b0; b1]). reflexivity.
Qed.

Lemma u32_at_in_range (message : list byte) (off : Z) :
  0 <= off -> off + 4 <= len message -> exists v, u32_at message off = Ok v.
Proof.
  intros H0 H1. unfold u32_at.
  rewrite slice_in_range by lia. simpl.
  set (bs := firstn _ _).
  assert (Hbs : len bs = 4).
  { subst bs. unfold len in *. rewrite length_firstn, length_skipn. lia. }
  destruct (index_in_range bs 3) as [b3 E3]; [lia|].
  destruct (index_in_range bs 2) as [b2 E2]; [lia|].
  destruct (index_in_range bs 1) as [b1 E1]; [lia|].
  destruct (index_in_range bs 0) as [b0 E0]; [lia|].
  unfold Uint32. rewrite E3, E2, E1, E0. simpl. eauto.
Qed.

(** Case analysis on the first boolean comparison of integers in the goal. *)
Ltac zcase :=
  lazymatch goal with
  | |- context [if ?c then _ else _] =>
      lazymatch c with
      | ?a >=? ?b => rewrite (Z.geb_leb a b); destruct (Z.leb_spec b a)
      | ?a >? ?b => rewrite (Z.gtb_ltb a b); destruct (Z.ltb_spec b a)
      | ?a <? ?b => destruct (Z.ltb_spec a b)
      | ?a <=? ?b => destruct (Z.leb_spec a b)
      | ?a =? ?b => destruct (Z.eqb_spec a b)
      end
  end.

(** ** The decoding loop *)

Lemma DecodeDomainName_loop_step fuel fullMessage startOffset labels offset bytesRead jumped :
  DecodeDomainName_loop (S fuel) fullMessage startOffset labels offset bytesRead jumped =
  if offset >=? len fullMessage then Err (ErrOffsetOutOfBounds offset)
  else
    b <- must (index fullMessage offset) ;;
    if byte_to_Z b =? 0 then
      Ok (Join labels ".", if negb jumped then offset + 1 - startOffset else bytesRead)
    else if Z.land (byte_to_Z b) 0xC0 =? 0xC0 then
      if offset + 1 >=? len fullMessage then Err (ErrMalformedPointer (offset + 1 - 1))
      else
        bs <- must (slice fullMessage (offset + 1 - 1) (offset + 1 + 1)) ;;
        u <- must (Uint16 bs) ;;
        '(pointedName, _) <-
           wrap ErrPointedName
             (DecodeDomainName_loop fuel fullMessage (Z.land u 0x3FFF) []
                (Z.land u 0x3FFF) 0 false) ;;
        Ok (Join (labels ++ [pointedName]) ".",
            if negb jumped then offset + 1 - startOffset + 1 else bytesRead)
    else if offset + 1 + byte_to_Z b >? len fullMessage then
      Err (ErrLabelBeyondBoundary (byte_to_Z b))
    else
      bs <- must (slice fullMessage (offset + 1) (offset + 1 + byte_to_Z b)) ;;
      DecodeDomainName_loop fuel fullMessage startOffset
        (labels ++ [string_of_list_byte bs]) (offset + 1 + byte_to_Z b) bytesRead jumped.
Proof.
  cbn [DecodeDomainName_loop]. cbv zeta.
  destruct (offset >=? len fullMessage); [reflexivity|].
  destruct (index fullMessage offset) as [b|]; [|reflexivity].
  cbn [must bind].
  destruct (byte_to_Z b =? 0); [|reflexivity].
  destruct jumped; reflexivity.
Qed.

Ltac loop_step := rewrite DecodeDomainName_loop_step; cbn [must bind wrap].

(** More fuel does not change a result that was reached. *)
Lemma DecodeDomainName_loop_fuel_mono fuel :
  forall fuel' fullMessage startOffset labels offset bytesRead jumped,
    DecodeDomainName_loop fuel fullMessage startOffset labels offset bytesRead jumped
      <> OutOfFuel ->
    (fuel <= fuel')%nat ->
    DecodeDomainName_loop fuel' fullMessage startOffset labels offset bytesRead jumped
    = DecodeDomainName_loop fuel fullMessage startOffset labels offset bytesRead jumped.
Proof.
  induction fuel as [|fuel IH]; intros fuel' msg so ls off br j Hne Hle.
  - exfalso. apply Hne. reflexivity.
  - destruct fuel' as [|fuel']; [lia|].
    rewrite DecodeDomainName_loop_step in Hne. rewrite !DecodeDomainName_loop_step.
    destruct (off >=? len msg); [reflexivity|].
    destruct (index msg off) as [b|]; cbn [must bind] in *; [|reflexivity].
    destruct (byte_to_Z b =? 0); [reflexivity|].
    destruct (Z.land (byte_to_Z b) 192 =? 192).
    + destruct (off + 1 >=? len msg); [reflexivity|].
      destruct (slice msg (off + 1 - 1) (off + 1 + 1)) as [bs|]; cbn [must bind] in *;
        [|reflexivity].
      destruct (Uint16 bs) as [u|]; cbn [must bind] in *; [|reflexivity].
      rewrite (IH fuel'); [reflexivity| |lia].
      intros E. apply Hne. rewrite E. reflexivity.
    + destruct (off + 1 + byte_to_Z b >? len msg); [reflexivity|].
      destruct (slice msg (off + 1) (off + 1 + byte_to_Z b)) as [bs|]; cbn [must bind] in *;
        [|reflexivity].
      apply IH; [exact Hne|lia].
Qed.

Lemma DecodeDomainName_fuel_mono fuel fuel' fullMessage offset r :
  DecodeDomainName fuel fullMessage offset = r -> r <> OutOfFuel ->
  (fuel <= fuel')%nat ->
  DecodeDomainName fuel' fullMessage offset = r.
Proof.
  unfold DecodeDomainName. intros <- Hne Hle.
  apply DecodeDomainName_loop_fuel_mono; assumption.
Qed.

(** The recursion on [self_pointer] and on [pointer_cycle] comes back to a
    call it has already made. *)
Lemma self_pointer_loops fuel : DecodeDomainName fuel self_pointer 0 = OutOfFuel.
Proof.
  unfold DecodeDomainName.
  induction fuel as [|fuel IH]; [reflexivity|].
  loop_step. simpl. rewrite IH. reflexivity.
Qed.

Lemma pointer_cycle_loops fuel :
  DecodeDomainName fuel pointer_cycle 0 = OutOfFuel
  /\ DecodeDomainName fuel pointer_cycle 2 = OutOfFuel.
Proof.
  unfold DecodeDomainName.
  induction fuel as [|fuel [IH0 IH2]]; [split; reflexivity|].
  split; loop_step; simpl.
  all: [> rewrite IH2 | rewrite IH0]; reflexivity.
Qed.

Lemma index_Some_nonneg {A : Type} (s : list A) (i : Z) (a : A) :
  index s i = Some a -> 0 <= i < len s.
Proof.
  unfold index. destruct (Z.ltb_spec i 0) as [|Hi]; [discriminate|].
  intros E. assert (Hn : nth_error s (Z.to_nat i) <> None) by congruence.
  apply nth_error_Some in Hn. unfold len. lia.
Qed.

(** A name that decodes lies inside the message: it starts at a
    non-negative offset and the consumed bytes end at or before the end. *)
Lemma DecodeDomainName_loop_consumed fuel :
  forall fullMessage startOffset labels offset bytesRead name n,
    startOffset <= offset ->
    DecodeDomainName_loop fuel fullMessage startOffset labels offset bytesRead false
    = Ok (name, n) ->
    0 <= offset /\ offset - startOffset < n /\ startOffset + n <= len fullMessage.
Proof.
  induction fuel as [|fuel IH]; intros msg so ls off br name n Hso; [discriminate|].
  loop_step.
  zcase; [discriminate|].
  destruct (index msg off) as [b|] eqn:Hb; cbn [must bind]; [|discriminate].
  apply index_Some_nonneg in Hb.
  pose proof (byte_to_Z_range b) as Hrange.
  zcase.
  - cbn [negb]. intros E. injection E as _ <-. lia.
  - zcase.
    + zcase; [discriminate|].
      destruct (slice msg (off + 1 - 1) (off + 1 + 1)) as [bs|]; cbn [must bind];
        [|discriminate].
      destruct (Uint16 bs) as [u|]; cbn [must bind]; [|discriminate].
      destruct (DecodeDomainName_loop fuel msg _ _ _ _ _) as [[pn k]| | |];
        cbn [wrap bind negb]; try discriminate.
      intros E. injection E as _ <-. lia.
    + zcase; [discriminate|].
      destruct (slice msg (off + 1) (off + 1 + byte_to_Z b)) as [bs|]; cbn [must bind];
        [|discriminate].
      intros E. apply IH in E; lia.
Qed.

Lemma DecodeDomainName_consumed fuel fullMessage offset name n :
  DecodeDomainName fuel fullMessage offset = Ok (name, n) ->
  0 <= offset /\ 0 < n /\ offset + n <= len fullMessage.
Proof.
  unfold DecodeDomainName. intros E.
  apply DecodeDomainName_loop_consumed in E; lia.
Qed.

(** At a negative offset the first index expression panics. *)
Lemma DecodeDomainName_negative_offset fuel fullMessage offset :
  offset < 0 -> DecodeDomainName (S fuel) fullMessage offset = Panic.
Proof.
  intros Hneg. unfold DecodeDomainName. loop_step.
  pose proof (len_nonneg fullMessage). zcase; [lia|].
  unfold index. destruct (Z.ltb_spec offset 0); [reflexivity|lia].
Qed.

(** From a non-negative offset the loop indexes and slices the message
    within its bounds only. *)
Lemma DecodeDomainName_loop_no_panic fuel :
  forall fullMessage startOffset labels offset bytesRead jumped,
    0 <= offset ->
    DecodeDomainName_loop fuel fullMessage startOffset labels offset bytesRead jumped
    <> Panic.
Proof.
  induction fuel as [|fuel IH]; intros msg so ls off br j Hoff; [discriminate|].
  loop_step.
  zcase; [discriminate|].
  destruct (index_in_range msg off) as [b ->]; [lia|]. cbn [must bind].
  pose proof (byte_to_Z_range b) as Hb.
  zcase; [discriminate|].
  zcase.
  - zcase; [discriminate|].
    rewrite slice_in_range by lia. cbn [must bind].
    set (bs := firstn _ _).
    assert (Hbs : len bs = 2).
    { subst bs. unfold len in *. rewrite length_firstn, length_skipn. lia. }
    destruct (index_in_range bs 1) as [b1 E1]; [lia|].
    destruct (index_in_range bs 0) as [b0 E0]; [lia|].
    unfold Uint16 at 1. rewrite E1, E0. cbn [must bind].
    set (p := Z.land _ 16383).
    assert (Hp : 0 <= p) by (subst p; apply Z.land_nonneg; right; lia).
    specialize (IH msg p [] p 0 false Hp).
    destruct (DecodeDomainName_loop fuel msg p [] p 0 false) as [[pn k]| | |];
      cbn [wrap bind]; congruence.
  - zcase; [discriminate|].
    rewrite slice_in_range by lia. cbn [must bind].
    apply IH. lia.
Qed.

Lemma DecodeDomainName_no_panic fuel fullMessage offset :
  0 <= offset -> DecodeDomainName fuel fullMessage offset <> Panic.
Proof. apply DecodeDomainName_loop_no_panic. Qed.

(** ** Splitting and joining names *)

Lemma Split_not_nil (s : string) (sep : ascii) : Split s sep <> [].
Proof.
  destruct s as [|c rest]; simpl; [discriminate|].
  destruct (Ascii.eqb c sep); [discriminate|].
  destruct (Split rest sep); discriminate.
Qed.

Lemma Join_cons (x : string) (rest : list string) (sep : string) :
  rest <> [] -> Join (x :: rest) sep = (x ++ sep ++ Join rest sep)%string.
Proof. destruct rest; [congruence|reflexivity]. Qed.

Lemma Join_Split (s : string) (sep : ascii) :
  Join (Split s sep) (String sep EmptyString) = s.
Proof.
  induction s as [|c rest IH]; [reflexivity|].
  simpl Split. destruct (Ascii.eqb_spec c sep) as [->|Hc].
  - rewrite Join_cons by apply Split_not_nil.
    simpl. rewrite IH. reflexivity.
  - destruct (Split rest sep) as [|seg segs] eqn:E.
    + exfalso. exact (Split_not_nil _ _ E).
    + destruct segs as [|seg' segs].
      * simpl in *. rewrite IH. reflexivity.
      * rewrite <- IH, !(Join_cons _ (seg' :: segs)) by discriminate.
        reflexivity.
Qed.

Lemma length_list_byte_of_string (s : string) :
  List.length (list_byte_of_string s) = String.length s.
Proof.
  induction s as [|c s IH]; [reflexivity|].
  simpl. f_equal. exact IH.
Qed.

Lemma len_list_byte_of_string (s : string) : len (list_byte_of_string s) = strlen s.
Proof. unfold len, strlen. rewrite length_list_byte_of_string. reflexivity. Qed.

(** ** Encoding *)

Lemma EncodeDomainName_segments_short segments :
  forall buf,
    Forall (fun segment => strlen segment <= 63) segments ->
    EncodeDomainName_segments segments buf = Ok (buf ++ wire_labels segments).
Proof.
  induction segments as [|segment rest IH]; intros buf Hall.
  - simpl. rewrite app_nil_r. reflexivity.
  - inversion Hall as [|? ? Hseg Hrest]; subst.
    simpl EncodeDomainName_segments.
    zcase; [lia|].
    rewrite IH by assumption.
    unfold wire_labels. simpl. rewrite <- app_assoc. reflexivity.
Qed.

Lemma EncodeDomainName_short domain :
  Forall (fun segment => strlen segment <= 63) (Split domain ".") ->
  EncodeDomainName domain = Ok (wire_labels (Split domain ".") ++ [x00]).
Proof.
  intros Hall. unfold EncodeDomainName.
  rewrite EncodeDomainName_segments_short by assumption. reflexivity.
Qed.

Lemma EncodeDomainName_segments_long segments :
  forall buf,
    Exists (fun segment => 63 < strlen segment) segments ->
    is_Err (EncodeDomainName_segments segments buf) = true.
Proof.
  induction segments as [|segment rest IH]; intros buf Hex.
  - inversion Hex.
  - simpl EncodeDomainName_segments. zcase; [reflexivity|].
    inversion Hex; subst; [lia|]. apply IH. assumption.
Qed.

(** ** Decoding a sequence of ordinary labels *)

Lemma land_192_small (l : Z) : 0 <= l < 64 -> Z.land l 192 = 0.
Proof.
  intros Hl. apply Z.bits_inj'. intros n Hn.
  rewrite Z.land_spec, Z.bits_0.
  destruct (Z.ltb_spec n 6) as [Hlt|Hge].
  - assert (Hcases : n = 0 \/ n = 1 \/ n = 2 \/ n = 3 \/ n = 4 \/ n = 5) by lia.
    destruct Hcases as [->|[->|[->|[->|[->| ->]]]]]; apply andb_false_r.
  - replace (Z.testbit l n) with false; [reflexivity|].
    symmetry. destruct (Z.eq_dec l 0) as [->|]; [apply Z.bits_0|].
    apply Z.bits_above_log2; [lia|].
    apply Z.lt_le_trans with 6; [|lia].
    apply Z.log2_lt_pow2; [lia|]. simpl. lia.
Qed.

(** Reading the labels of [segments] laid out at [len pre], followed by the
    root label: the loop appends them to [labels] and stops just after the
    zero byte, whatever follows. *)
Lemma DecodeDomainName_loop_labels segments :
  forall fuel pre post startOffset labels bytesRead,
    Forall (fun segment => 1 <= strlen segment <= 63) segments ->
    (List.length segments < fuel)%nat ->
    DecodeDomainName_loop fuel (pre ++ wire_labels segments ++ x00 :: post)
      startOffset labels (len pre) bytesRead false
    = Ok (Join (labels ++ segments) ".",
          len pre + len (wire_labels segments) + 1 - startOffset).
Proof.
  induction segments as [|segment rest IH];
    intros fuel pre post so ls br Hall Hfuel;
    (destruct fuel as [|fuel]; [simpl in Hfuel; lia|]);
    pose proof (len_nonneg pre) as Hpre; loop_step.
  - change (wire_labels []) with (@nil byte). cbn [app].
    zcase; [rewrite len_app, len_cons in *; pose proof (len_nonneg post); lia|].
    rewrite index_app_r, Z.sub_diag by lia. cbn [index Z.ltb Z.compare Z.to_nat nth_error must bind].
    change (byte_to_Z x00) with 0. cbn [Z.eqb negb].
    rewrite app_nil_r. change (len (@nil byte)) with 0.
    repeat f_equal. lia.
  - inversion Hall as [|? ? Hseg Hrest]; subst.
    change (wire_labels (segment :: rest))
      with ((byte_of_Z (strlen segment) :: list_byte_of_string segment) ++ wire_labels rest).
    set (lb := byte_of_Z (strlen segment)).
    assert (Hlb : byte_to_Z lb = strlen segment) by (apply byte_to_of_Z; lia).
    pose proof (len_list_byte_of_string segment) as Hlen.
    set (tail := wire_labels rest ++ x00 :: post).
    assert (Emsg : pre ++ ((lb :: list_byte_of_string segment) ++ wire_labels rest) ++ x00 :: post
                   = (pre ++ [lb]) ++ list_byte_of_string segment ++ tail).
    { subst tail. rewrite <- !app_assoc. reflexivity. }
    rewrite Emsg.
    assert (Hlen1 : len (pre ++ [lb]) = len pre + 1) by (rewrite len_app; reflexivity).
    zcase; [rewrite !len_app in *; pose proof (len_nonneg tail); lia|].
    rewrite <- app_assoc, index_app_r, Z.sub_diag by lia.
    cbn [app index Z.ltb Z.compare Z.to_nat nth_error must bind].
    rewrite Hlb.
    zcase; [lia|].
    rewrite land_192_small by lia. cbn [Z.eqb].
    zcase; [rewrite !len_app, !len_cons, len_app in *; pose proof (len_nonneg tail); lia|].
    change (pre ++ lb :: list_byte_of_string segment ++ tail)
      with (pre ++ [lb] ++ list_byte_of_string segment ++ tail).
    rewrite app_assoc, <- Hlen1, <- Hlen, slice_app_mid. cbn [must bind].
    rewrite string_of_list_byte_of_string.
    rewrite app_assoc, <- len_app. subst tail.
    rewrite IH by (try assumption; simpl in Hfuel; lia).
    f_equal. f_equal.
    + rewrite <- app_assoc. reflexivity.
    + unfold len. repeat (rewrite ?length_app; simpl List.length). lia.
Qed.

(** ** Round trip of names *)

Lemma DecodeDomainName_fuel_agree fuel fuel' fullMessage offset r r' :
  DecodeDomainName fuel fullMessage offset = r -> r <> OutOfFuel ->
  DecodeDomainName fuel' fullMessage offset = r' -> r' <> OutOfFuel ->
  r = r'.
Proof.
  intros E Hr E' Hr'.
  destruct (Nat.le_ge_cases fuel fuel') as [Hle|Hle].
  - rewrite (DecodeDomainName_fuel_mono _ _ _ _ _ E Hr Hle) in E'. exact E'.
  - rewrite (DecodeDomainName_fuel_mono _ _ _ _ _ E' Hr' Hle) in E. symmetry. exact E.
Qed.

(** C5, refuted as stated: every segment of ["example.com."] is at most 63
    bytes long, its encoding ends in two zero bytes, and decoding that
    encoding never gives the name back (it gives ["example.com"]). *)
Lemma roundtrip_fails_on_trailing_dot :
  Forall (fun segment => strlen segment <= 63) (Split "example.com." ".")
  /\ EncodeDomainName "example.com." = Ok (example_com_wire ++ [x00])
  /\ DecodeDomainName 3 (example_com_wire ++ [x00]) 0 = Ok ("example.com"%string, 13)
  /\ forall fuel n,
       DecodeDomainName fuel (example_com_wire ++ [x00]) 0 <> Ok ("example.com."%string, n).
Proof.
  assert (E3 : DecodeDomainName 3 (example_com_wire ++ [x00]) 0
               = Ok ("example.com"%string, 13)) by (vm_compute; reflexivity).
  split; [|split; [|split]].
  - repeat constructor; unfold strlen; simpl; lia.
  - reflexivity.
  - exact E3.
  - intros fuel n E.
    assert (Habs : Ok ("example.com"%string, 13) = Ok ("example.com."%string, n)).
    { eapply DecodeDomainName_fuel_agree; [exact E3| |exact E|]; discriminate. }
    discriminate Habs.
Qed.

(** C5, amended: a name all of whose dot-separated segments are between 1
    and 63 bytes long, and the empty name, are encoded, and decoding the
    encoding at offset 0 returns the name, with any fuel above the number
    of segments. *)
Theorem EncodeDomainName_DecodeDomainName_roundtrip (name : string) :
  Forall (fun segment => 1 <= strlen segment <= 63) (Split name ".") \/ name = EmptyString ->
  exists enc,
    EncodeDomainName name = Ok enc
    /\ forall fuel, (List.length (Split name ".") < fuel)%nat ->
         exists n, DecodeDomainName fuel enc 0 = Ok (name, n).
Proof.
  intros [Hall| ->].
  - exists (wire_labels (Split name ".") ++ [x00]). split.
    + apply EncodeDomainName_short.
      eapply Forall_impl; [|exact Hall]. simpl. intros; lia.
    + intros fuel Hfuel. eexists. unfold DecodeDomainName.
      pose proof (DecodeDomainName_loop_labels (Split name ".") fuel [] [] 0 [] 0 Hall Hfuel)
        as E.
      cbn [app] in E. change (len (@nil byte)) with 0 in E.
      rewrite E. rewrite (Join_Split name "."). reflexivity.
  - exists [x00; x00]. split; [reflexivity|].
    intros fuel Hfuel. exists 1.
    destruct fuel as [|fuel]; [simpl in Hfuel; lia|]. reflexivity.
Qed.

Lemma EncodeDomainName_DecodeDomainName_roundtrip_witness :
  exists enc,
    EncodeDomainName "example.com" = Ok enc
    /\ forall fuel, (List.length (Split "example.com" ".") < fuel)%nat ->
         exists n, DecodeDomainName fuel enc 0 = Ok ("example.com"%string, n).
Proof.
  apply (EncodeDomainName_DecodeDomainName_roundtrip "example.com").
  left. repeat constructor; unfold strlen; simpl; lia.
Defined.

(** The amendment is needed: a non-empty name with an empty segment is
    encoded, and its encoding never decodes to the name. *)

Lemma String_length_append (s t : string) :
  String.length (s ++ t) = (String.length s + String.length t)%nat.
Proof. induction s as [|c s IH]; [reflexivity|]. simpl. f_equal. exact IH. Qed.

Lemma String_append_assoc (s t u : string) : ((s ++ t) ++ u = s ++ t ++ u)%string.
Proof. induction s as [|c s IH]; [reflexivity|]. simpl. f_equal. exact IH. Qed.

Lemma Join_app (a b : list string) (sep : string) :
  a <> [] -> b <> [] ->
  Join (a ++ b) sep = (Join a sep ++ sep ++ Join b sep)%string.
Proof.
  intros Ha Hb. induction a as [|x a IH]; [congruence|].
  destruct a as [|y a].
  - cbn [app]. apply Join_cons. exact Hb.
  - change ((x :: y :: a) ++ b) with (x :: ((y :: a) ++ b)).
    rewrite Join_cons by discriminate.
    rewrite IH by discriminate.
    rewrite (Join_cons x (y :: a)) by discriminate.
    rewrite !String_append_assoc. reflexivity.
Qed.

Lemma wire_labels_app (a b : list string) :
  wire_labels (a ++ b) = wire_labels a ++ wire_labels b.
Proof. unfold wire_labels. rewrite map_app, concat_app. reflexivity. Qed.

Lemma first_empty_segment (segments : list string) :
  Forall (fun segment => strlen segment <= 63) segments ->
  Exists (fun segment => strlen segment = 0) segments ->
  exists pre post,
    segments = pre ++ EmptyString :: post
    /\ Forall (fun segment => 1 <= strlen segment <= 63) pre.
Proof.
  induction segments as [|segment rest IH]; intros Hall Hex; [inversion Hex|].
  inversion Hall as [|? ? Hseg Hrest]; subst.
  destruct segment as [|c segment].
  - exists [], rest. split; [reflexivity|constructor].
  - destruct IH as (pre & post & -> & Hpre); [exact Hrest| |].
    + inversion Hex as [? ? H0|]; subst; [|assumption].
      unfold strlen in H0. simpl in H0. lia.
    + exists (String c segment :: pre), post. split; [reflexivity|].
      constructor; [|exact Hpre].
      unfold strlen in *. simpl String.length in *. lia.
Qed.

Lemma roundtrip_fails_on_empty_segment (name : string) :
  Forall (fun segment => strlen segment <= 63) (Split name ".") ->
  Exists (fun segment => strlen segment = 0) (Split name ".") ->
  name <> EmptyString ->
  exists enc,
    EncodeDomainName name = Ok enc
    /\ forall fuel n, DecodeDomainName fuel enc 0 <> Ok (name, n).
Proof.
  intros Hall Hex Hname.
  destruct (first_empty_segment _ Hall Hex) as (pre & post & Hsplit & Hpre).
  exists (wire_labels (Split name ".") ++ [x00]).
  split; [apply EncodeDomainName_short; exact Hall|].
  pose proof (DecodeDomainName_loop_labels pre (S (List.length pre)) []
                (wire_labels post ++ [x00]) 0 [] 0 Hpre (Nat.lt_succ_diag_r _)) as E.
  cbn [app] in E. change (len (@nil byte)) with 0 in E.
  assert (Ewire : wire_labels (Split name ".") ++ [x00]
                  = wire_labels pre ++ x00 :: wire_labels post ++ [x00]).
  { rewrite Hsplit, wire_labels_app, <- app_assoc. reflexivity. }
  rewrite Ewire. intros fuel n En.
  assert (Eq : Ok (Join pre ".", 0 + len (wire_labels pre) + 1 - 0) = Ok (name, n)).
  { eapply DecodeDomainName_fuel_agree; [exact E| |exact En|]; discriminate. }
  injection Eq as Ejoin _.
  pose proof (Join_Split name ".") as Hjs. rewrite Hsplit in Hjs.
  destruct pre as [|x pre].
  - simpl in Ejoin. congruence.
  - rewrite Join_app in Hjs by discriminate.
    rewrite <- Hjs in Ejoin.
    apply (f_equal String.length) in Ejoin.
    rewrite !String_length_append in Ejoin. simpl String.length in Ejoin. lia.
Qed.

(** ** Bytes consumed at a compression pointer *)

Lemma strlen_string_of_list_byte (bs : list byte) :
  strlen (string_of_list_byte bs) = len bs.
Proof.
  rewrite <- len_list_byte_of_string, list_byte_of_string_of_list_byte. reflexivity.
Qed.

Lemma reads_labels_size msg off ls p :
  reads_labels msg off ls p -> p = off + labels_size ls.
Proof.
  induction 1 as [off|off b bs ls p Hb Hnz Hnp Hbs Hrest IH].
  - simpl. lia.
  - apply slice_length in Hbs.
    cbn [labels_size fold_right]. fold (labels_size ls).
    rewrite strlen_string_of_list_byte. lia.
Qed.

Lemma DecodeDomainName_loop_pointer msg off ls p :
  reads_labels msg off ls p ->
  forall fuel startOffset labels bytesRead b name n,
    index msg p = Some b ->
    Z.land (byte_to_Z b) 0xC0 = 0xC0 ->
    DecodeDomainName_loop fuel msg startOffset labels off bytesRead false = Ok (name, n) ->
    n = p + 2 - startOffset
    /\ exists bs u fuel' pointedName k,
         slice msg p (p + 2) = Some bs
         /\ Uint16 bs = Some u
         /\ (fuel' < fuel)%nat
         /\ DecodeDomainName fuel' msg (Z.land u 0x3FFF) = Ok (pointedName, k)
         /\ name = Join (labels ++ ls ++ [pointedName]) ".".
Proof.
  induction 1 as [off|off b0 bs0 ls p Hb0 Hnz Hnp Hbs0 Hrest IH];
    intros fuel so acc br b name n Hb Hptr;
    (destruct fuel as [|fuel]; [discriminate|]); loop_step.
  - zcase; [discriminate|].
    rewrite Hb. cbn [must bind].
    zcase; [match goal with H : byte_to_Z b = 0 |- _ => rewrite H in Hptr end;
            discriminate|].
    rewrite Hptr. cbn [Z.eqb Pos.eqb].
    zcase; [discriminate|].
    replace (off + 1 - 1) with off by lia. replace (off + 1 + 1) with (off + 2) by lia.
    destruct (slice msg off (off + 2)) as [bs|] eqn:Es; cbn [must bind]; [|discriminate].
    destruct (Uint16 bs) as [u|] eqn:Eu; cbn [must bind]; [|discriminate].
    destruct (DecodeDomainName_loop fuel msg _ _ _ _ _) as [[pn k]| | |] eqn:Erec;
      cbn [wrap bind negb]; try discriminate.
    intros E. injection E as <- <-. split; [lia|].
    exists bs, u, fuel, pn, k.
    split; [reflexivity|]. split; [exact Eu|]. split; [lia|]. split; [exact Erec|].
    reflexivity.
  - zcase; [discriminate|].
    rewrite Hb0. cbn [must bind].
    zcase; [contradiction|].
    zcase; [contradiction|].
    apply slice_length in Hbs0 as Hbounds.
    zcase; [lia|].
    rewrite Hbs0. cbn [must bind].
    intros E. apply (IH _ _ _ _ _ _ _ Hb Hptr) in E.
    destruct E as [En (bs & u & fuel' & pn & k & Hs & Hu & Hf & Hd & Hname)].
    split; [exact En|].
    exists bs, u, fuel', pn, k.
    split; [exact Hs|]. split; [exact Hu|]. split; [lia|]. split; [exact Hd|].
    rewrite Hname, <- app_assoc. reflexivity.
Qed.

(** C6: when the labels [ls] read from [offset] are followed, at position
    [p], by a compression pointer, a successful decode consumes the bytes
    of those labels plus the two bytes of the pointer, so that the outer
    call ends at [p + 2]; this holds whatever count [k] the decode at the
    pointer target returns.  The name is the labels read followed by the
    name at the target, and nothing else. *)
Theorem DecodeDomainName_pointer_consumed fuel fullMessage offset ls p b name n :
  reads_labels fullMessage offset ls p ->
  index fullMessage p = Some b ->
  Z.land (byte_to_Z b) 0xC0 = 0xC0 ->
  DecodeDomainName fuel fullMessage offset = Ok (name, n) ->
  n = labels_size ls + 2
  /\ offset + n = p + 2
  /\ exists bs u fuel' pointedName k,
       slice fullMessage p (p + 2) = Some bs
       /\ Uint16 bs = Some u
       /\ (fuel' < fuel)%nat
       /\ DecodeDomainName fuel' fullMessage (Z.land u 0x3FFF) = Ok (pointedName, k)
       /\ name = Join (ls ++ [pointedName]) ".".
Proof.
  intros Hreads Hb Hptr E. unfold DecodeDomainName in E.
  pose proof (reads_labels_size _ _ _ _ Hreads) as Hp.
  destruct (DecodeDomainName_loop_pointer _ _ _ _ Hreads _ _ _ _ _ _ _ Hb Hptr E)
    as [En Hex].
  split; [lia|]. split; [lia|]. exact Hex.
Qed.

Lemma www_pointer_com_reads : reads_labels www_pointer_com 0 ["www"%string] 4.
Proof.
  apply (reads_labels_cons www_pointer_com 0 x03 (list_byte_of_string "www") [] 4);
    try reflexivity; try discriminate.
  apply reads_labels_nil.
Qed.

Lemma DecodeDomainName_pointer_consumed_witness :
  6 = labels_size ["www"%string] + 2
  /\ 0 + 6 = 4 + 2
  /\ exists bs u fuel' pointedName k,
       slice www_pointer_com 4 (4 + 2) = Some bs
       /\ Uint16 bs = Some u
       /\ (fuel' < 4)%nat
       /\ DecodeDomainName fuel' www_pointer_com (Z.land u 0x3FFF) = Ok (pointedName, k)
       /\ "www.com"%string = Join (["www"%string] ++ [pointedName]) ".".
Proof.
  apply (DecodeDomainName_pointer_consumed 4 www_pointer_com 0 ["www"%string] 4 xc0).
  - exact www_pointer_com_reads.
  - reflexivity.
  - reflexivity.
  - vm_compute. reflexivity.
Defined.

(** ** Resource records *)

Lemma copy_make (src : list byte) (n : Z) : len src = n -> copy (make n) src = src.
Proof.
  intros Hn. unfold copy, make, len in *. rewrite repeat_length.
  replace (Z.to_nat n) with (List.length src) by lia.
  rewrite Nat.min_id, firstn_all, skipn_all2 by (rewrite repeat_length; lia).
  apply app_nil_r.
Qed.

(** What [ParseResourceRecord] returns once the owner name is decoded. *)
Lemma ParseResourceRecord_after_name fuel message offset name nameLen :
  DecodeDomainName fuel message offset = Ok (name, nameLen) ->
  (len message - (offset + nameLen) < 10 ->
   ParseResourceRecord fuel message offset = Err ErrRRHeaderTooShort)
  /\ (10 <= len message - (offset + nameLen) ->
      exists rrtype rrclass ttl rdlength,
        u16_at message (offset + nameLen) = Ok rrtype
        /\ u16_at message (offset + nameLen + 2) = Ok rrclass
        /\ u32_at message (offset + nameLen + 4) = Ok ttl
        /\ u16_at message (offset + nameLen + 8) = Ok rdlength
        /\ (len message - (offset + nameLen + 10) < rdlength ->
            ParseResourceRecord fuel message offset = Err ErrRRDataLength)
        /\ (rdlength <= len message - (offset + nameLen + 10) ->
            exists rdata,
              slice message (offset + nameLen + 10) (offset + nameLen + 10 + rdlength)
              = Some rdata
              /\ len rdata = rdlength
              /\ ParseResourceRecord fuel message offset
                 = Ok (mkResourceRecord name rrtype rrclass ttl rdlength rdata,
                       offset + nameLen + 10 + rdlength))).
Proof.
  intros Ename.
  destruct (DecodeDomainName_consumed _ _ _ _ _ Ename) as (Hoff & Hpos & Hend).
  unfold ParseResourceRecord. rewrite Ename. cbn [wrap bind]. cbv zeta.
  split; intros Hfields.
  - zcase; [reflexivity|lia].
  - destruct (u16_at_in_range message (offset + nameLen)) as (rrtype & Et & _); [lia|lia|].
    destruct (u16_at_in_range message (offset + nameLen + 2)) as (rrclass & Ec & _);
      [lia|lia|].
    destruct (u32_at_in_range message (offset + nameLen + 4)) as (ttl & Ettl); [lia|lia|].
    destruct (u16_at_in_range message (offset + nameLen + 8)) as (rdlength & El & Hl);
      [lia|lia|].
    exists rrtype, rrclass, ttl, rdlength.
    repeat (split; [assumption|]).
    zcase; [lia|].
    rewrite Et, Ec, Ettl, El. cbn [bind].
    split; intros Hdata.
    + zcase; [reflexivity|lia].
    + zcase; [lia|].
      rewrite slice_in_range by lia. cbn [must bind].
      eexists. split; [reflexivity|].
      assert (Hlen : len (firstn (Z.to_nat (offset + nameLen + 10 + rdlength
                                            - (offset + nameLen + 10)))
                            (skipn (Z.to_nat (offset + nameLen + 10)) message)) = rdlength).
      { unfold len in *. rewrite length_firstn, length_skipn. lia. }
      split; [exact Hlen|].
      rewrite copy_make by exact Hlen. reflexivity.
Qed.

(** C7: for every message and offset, a failure to decode the owner name
    is returned as an error; once the owner name is decoded, fewer than 10
    bytes left for type, class, TTL and data length give the too-short
    error, fewer than the declared data length left after them give the
    data-length error, and otherwise the record's data is exactly the
    declared number of bytes that follow the fields and the returned offset
    is just past them.  From a non-negative offset no index or slice
    expression leaves the bounds of the message (nothing panics). *)
Theorem ParseResourceRecord_bounds fuel message offset :
  (0 <= offset -> ParseResourceRecord fuel message offset <> Panic)
  /\ (forall e, DecodeDomainName fuel message offset = Err e ->
        ParseResourceRecord fuel message offset = Err (ErrRRName e))
  /\ (forall name nameLen,
        DecodeDomainName fuel message offset = Ok (name, nameLen) ->
        (len message - (offset + nameLen) < 10 ->
         ParseResourceRecord fuel message offset = Err ErrRRHeaderTooShort)
        /\ (10 <= len message - (offset + nameLen) ->
            exists rrtype rrclass ttl rdlength,
              u16_at message (offset + nameLen) = Ok rrtype
              /\ u16_at message (offset + nameLen + 2) = Ok rrclass
              /\ u32_at message (offset + nameLen + 4) = Ok ttl
              /\ u16_at message (offset + nameLen + 8) = Ok rdlength
              /\ (len message - (offset + nameLen + 10) < rdlength ->
                  ParseResourceRecord fuel message offset = Err ErrRRDataLength)
              /\ (rdlength <= len message - (offset + nameLen + 10) ->
                  exists rdata,
                    slice message (offset + nameLen + 10) (offset + nameLen + 10 + rdlength)
                    = Some rdata
                    /\ len rdata = rdlength
                    /\ ParseResourceRecord fuel message offset
                       = Ok (mkResourceRecord name rrtype rrclass ttl rdlength rdata,
                             offset + nameLen + 10 + rdlength)))).
Proof.
  split; [|split].
  - intros Hoff.
    destruct (DecodeDomainName fuel message offset) as [[name nameLen]|e| |] eqn:Ename.
    + destruct (ParseResourceRecord_after_name _ _ _ _ _ Ename) as [Hshort Hlong].
      destruct (Z.lt_ge_cases (len message - (offset + nameLen)) 10) as [Hlt|Hge].
      * rewrite Hshort by exact Hlt. discriminate.
      * destruct (Hlong Hge) as (t & c & ttl & l & _ & _ & _ & _ & Hover & Hfit).
        destruct (Z.lt_ge_cases (len message - (offset + nameLen + 10)) l) as [Hlt|Hge'].
        -- rewrite Hover by exact Hlt. discriminate.
        -- destruct (Hfit Hge') as (rdata & _ & _ & ->). discriminate.
    + unfold ParseResourceRecord. rewrite Ename. discriminate.
    + exfalso. exact (DecodeDomainName_no_panic _ _ _ Hoff Ename).
    + unfold ParseResourceRecord. rewrite Ename. discriminate.
  - intros e Ename. unfold ParseResourceRecord. rewrite Ename. reflexivity.
  - intros name nameLen Ename.
    exact (ParseResourceRecord_after_name _ _ _ _ _ Ename).
Qed.

(** On the one-answer response cut one byte short of the four declared
    data bytes, the theorem gives the data-length error. *)
Lemma ParseResourceRecord_bounds_witness :
  0 <= 29
  /\ DecodeDomainName 4 response_truncated 29 = Ok ("example.com"%string, 2)
  /\ 10 <= len response_truncated - (29 + 2)
  /\ u16_at response_truncated (29 + 2 + 8) = Ok 4
  /\ len response_truncated - (29 + 2 + 10) < 4
  /\ ParseResourceRecord 4 response_truncated 29 <> Panic
  /\ ParseResourceRecord 4 response_truncated 29 = Err ErrRRDataLength.
Proof.
  assert (Hoff : 0 <= 29) by lia.
  assert (Ename : DecodeDomainName 4 response_truncated 29 = Ok ("example.com"%string, 2))
    by (vm_compute; reflexivity).
  assert (Hfields : 10 <= len response_truncated - (29 + 2))
    by (change (len response_truncated) with 44; lia).
  assert (Elen : u16_at response_truncated (29 + 2 + 8) = Ok 4) by (vm_compute; reflexivity).
  assert (Hshort : len response_truncated - (29 + 2 + 10) < 4)
    by (change (len response_truncated) with 44; lia).
  destruct (ParseResourceRecord_bounds 4 response_truncated 29) as (Hsafe & _ & Hname).
  destruct (Hname _ _ Ename) as [_ Hlong].
  destruct (Hlong Hfields) as (t & c & ttl & l & _ & _ & _ & El & Hover & _).
  assert (Hl : l = 4) by congruence. subst l.
  repeat (split; [assumption|]).
  split; [exact (Hsafe Hoff)|exact (Hover Hshort)].
Defined.

(** The three outcomes on the answer at offset 29 of the one-answer
    response: whole, cut one byte short of the declared four data bytes,
    and cut inside the fixed fields. *)
Example ParseResourceRecord_whole :
  ParseResourceRecord 4 (response_one_answer 0x1234 0x8180) 29
  = Ok (mkResourceRecord "example.com" TypeA 1 3600 4 [x5d; xb8; xd8; x22], 45).
Proof. vm_compute. reflexivity. Qed.

Example ParseResourceRecord_one_byte_short :
  len response_truncated = 44
  /\ ParseResourceRecord 4 response_truncated 29 = Err ErrRRDataLength.
Proof. split; vm_compute; reflexivity. Qed.

Example ParseResourceRecord_fields_cut :
  ParseResourceRecord 4 (firstn 40 response_truncated) 29 = Err ErrRRHeaderTooShort.
Proof. vm_compute. reflexivity. Qed.

(** ** Header *)

Lemma u16_at_app (pre post : list byte) (b0 b1 : byte) :
  u16_at (pre ++ b0 :: b1 :: post) (len pre) = Ok (byte_to_Z b0 * 256 + byte_to_Z b1).
Proof.
  unfold u16_at.
  change (b0 :: b1 :: post) with ([b0; b1] ++ post).
  change 2 with (len [b0; b1]) at 1.
  rewrite slice_app_mid. cbn [must bind]. rewrite Uint16_pair. cbn [must].
  pose proof (byte_to_Z_range b0). pose proof (byte_to_Z_range b1).
  rewrite lor_shiftl_8 by lia. reflexivity.
Qed.

Lemma UnpackHeader_fields b0 b1 b2 b3 b4 b5 b6 b7 b8 b9 b10 b11 rest :
  UnpackHeader (b0 :: b1 :: b2 :: b3 :: b4 :: b5 :: b6 :: b7 :: b8 :: b9
                   :: b10 :: b11 :: rest)
  = Ok (mkHeader (byte_to_Z b0 * 256 + byte_to_Z b1)
                 (byte_to_Z b2 * 256 + byte_to_Z b3)
                 (byte_to_Z b4 * 256 + byte_to_Z b5)
                 (byte_to_Z b6 * 256 + byte_to_Z b7)
                 (byte_to_Z b8 * 256 + byte_to_Z b9)
                 (byte_to_Z b10 * 256 + byte_to_Z b11)).
Proof.
  unfold UnpackHeader.
  zcase; [unfold len in *; simpl List.length in *; lia|].
  rewrite slice_in_range by (unfold len; simpl List.length; lia).
  set (reader := [b0; b1; b2; b3; b4; b5; b6; b7; b8; b9; b10; b11]).
  change (firstn _ _) with reader. cbn [must bind].
  rewrite (u16_at_app [] _ b0 b1 : u16_at reader 0 = _).
  rewrite (u16_at_app [b0; b1] _ b2 b3 : u16_at reader 2 = _).
  rewrite (u16_at_app [b0; b1; b2; b3] _ b4 b5 : u16_at reader 4 = _).
  rewrite (u16_at_app [b0; b1; b2; b3; b4; b5] _ b6 b7 : u16_at reader 6 = _).
  rewrite (u16_at_app [b0; b1; b2; b3; b4; b5; b6; b7] _ b8 b9 : u16_at reader 8 = _).
  rewrite (u16_at_app [b0; b1; b2; b3; b4; b5; b6; b7; b8; b9] _ b10 b11
           : u16_at reader 10 = _).
  reflexivity.
Qed.

(** A header that unpacks comes from at least twelve bytes. *)
Lemma UnpackHeader_Ok_inv data h :
  UnpackHeader data = Ok h ->
  exists b0 b1 b2 b3 b4 b5 b6 b7 b8 b9 b10 b11 rest,
    data = b0 :: b1 :: b2 :: b3 :: b4 :: b5 :: b6 :: b7 :: b8 :: b9 :: b10 :: b11 :: rest.
Proof.
  intros E.
  destruct data as [|b0 [|b1 [|b2 [|b3 [|b4 [|b5 [|b6 [|b7 [|b8 [|b9 [|b10 [|b11 rest]]]]]]]]]]]];
    try discriminate E.
  repeat eexists.
Qed.

(** C8: [UnpackHeader] fails exactly when fewer than 12 bytes are given;
    otherwise the six fields are the six consecutive byte pairs, high byte
    first; the twelve bytes of Scenario B unpack to id 0x1234, flags
    0x8180, one question, one answer, no authority or additional record. *)
Theorem UnpackHeader_spec :
  (forall data, is_Err (UnpackHeader data) = true <-> len data < 12)
  /\ (forall b0 b1 b2 b3 b4 b5 b6 b7 b8 b9 b10 b11 rest,
        UnpackHeader (b0 :: b1 :: b2 :: b3 :: b4 :: b5 :: b6 :: b7 :: b8 :: b9
                         :: b10 :: b11 :: rest)
        = Ok (mkHeader (byte_to_Z b0 * 256 + byte_to_Z b1)
                       (byte_to_Z b2 * 256 + byte_to_Z b3)
                       (byte_to_Z b4 * 256 + byte_to_Z b5)
                       (byte_to_Z b6 * 256 + byte_to_Z b7)
                       (byte_to_Z b8 * 256 + byte_to_Z b9)
                       (byte_to_Z b10 * 256 + byte_to_Z b11)))
  /\ UnpackHeader scenario_B_header = Ok (mkHeader 0x1234 0x8180 1 1 0 0).
Proof.
  split; [|split].
  - intros data. split.
    + intros Herr.
      destruct (Z.lt_ge_cases (len data) 12) as [Hlt|Hge]; [exact Hlt|].
      destruct data as [|b0 [|b1 [|b2 [|b3 [|b4 [|b5 [|b6 [|b7 [|b8 [|b9 [|b10 [|b11 rest]]]]]]]]]]]];
        try (unfold len in *; simpl List.length in *; lia).
      rewrite UnpackHeader_fields in Herr. discriminate.
    + intros Hlt. unfold UnpackHeader. zcase; [reflexivity|lia].
  - exact UnpackHeader_fields.
  - vm_compute. reflexivity.
Qed.

(** ** Fuel in the parsers *)

Lemma bind_not_OutOfFuel {A B : Type} (o : outcome A) (k : A -> outcome B) :
  bind o k <> OutOfFuel -> o <> OutOfFuel.
Proof. intros H E. apply H. rewrite E. reflexivity. Qed.

Lemma wrap_not_OutOfFuel {A : Type} (w : error -> error) (o : outcome A) :
  wrap w o <> OutOfFuel -> o <> OutOfFuel.
Proof. intros H E. apply H. rewrite E. reflexivity. Qed.

Lemma parseQuestion_fuel_mono fuel fuel' message offset :
  parseQuestion fuel message offset <> OutOfFuel -> (fuel <= fuel')%nat ->
  parseQuestion fuel' message offset = parseQuestion fuel message offset.
Proof.
  unfold parseQuestion. intros Hne Hle.
  apply bind_not_OutOfFuel in Hne.
  rewrite (DecodeDomainName_fuel_mono fuel fuel' message offset _ eq_refl Hne Hle).
  reflexivity.
Qed.

Lemma ParseResourceRecord_fuel_mono fuel fuel' message offset :
  ParseResourceRecord fuel message offset <> OutOfFuel -> (fuel <= fuel')%nat ->
  ParseResourceRecord fuel' message offset = ParseResourceRecord fuel message offset.
Proof.
  unfold ParseResourceRecord. intros Hne Hle.
  apply bind_not_OutOfFuel, wrap_not_OutOfFuel in Hne.
  rewrite (DecodeDomainName_fuel_mono fuel fuel' message offset _ eq_refl Hne Hle).
  reflexivity.
Qed.

Lemma parseResponse_questions_fuel_mono fuel fuel' response n :
  forall i msg offset,
    parseResponse_questions fuel response n i msg offset <> OutOfFuel ->
    (fuel <= fuel')%nat ->
    parseResponse_questions fuel' response n i msg offset
    = parseResponse_questions fuel response n i msg offset.
Proof.
  induction n as [|n IH]; intros i msg offset Hne Hle; [reflexivity|].
  cbn [parseResponse_questions] in *.
  rewrite (parseQuestion_fuel_mono fuel fuel')
    by (try exact Hle; eapply wrap_not_OutOfFuel, bind_not_OutOfFuel, Hne).
  destruct (parseQuestion fuel response offset) as [[q k]| | |]; try reflexivity.
  cbn [wrap bind] in *. apply IH; assumption.
Qed.

Lemma parseResponse_answers_fuel_mono fuel fuel' response n :
  forall i msg offset,
    parseResponse_answers fuel response n i msg offset <> OutOfFuel ->
    (fuel <= fuel')%nat ->
    parseResponse_answers fuel' response n i msg offset
    = parseResponse_answers fuel response n i msg offset.
Proof.
  induction n as [|n IH]; intros i msg offset Hne Hle; [reflexivity|].
  cbn [parseResponse_answers] in *.
  rewrite (ParseResourceRecord_fuel_mono fuel fuel')
    by (try exact Hle; eapply wrap_not_OutOfFuel, bind_not_OutOfFuel, Hne).
  destruct (ParseResourceRecord fuel response offset) as [[rr k]| | |]; try reflexivity.
  cbn [wrap bind] in *. apply IH; assumption.
Qed.

Lemma parseResponse_fuel_mono fuel fuel' response r :
  parseResponse fuel response = r -> r <> OutOfFuel -> (fuel <= fuel')%nat ->
  parseResponse fuel' response = r.
Proof.
  unfold parseResponse. intros <- Hne Hle.
  destruct (UnpackHeader response) as [h| | |]; try reflexivity.
  cbn [bind] in *. cbv zeta in *.
  destruct (Z.land (Flags h) 15 =? 2); [reflexivity|].
  destruct (Z.land (Flags h) 15 =? 3); [reflexivity|].
  rewrite (parseResponse_questions_fuel_mono fuel fuel')
    by (try exact Hle; eapply bind_not_OutOfFuel, Hne).
  destruct (parseResponse_questions fuel response _ _ _ _) as [[msg off]| | |];
    try reflexivity.
  cbn [bind] in *.
  rewrite (parseResponse_answers_fuel_mono fuel fuel')
    by (try exact Hle; eapply bind_not_OutOfFuel, Hne).
  reflexivity.
Qed.

(** ** Response parsing *)

(** After a record is parsed, the answer loop goes on at the sum of the
    offset it parsed at and the offset [ParseResourceRecord] returned. *)
Lemma parseResponse_answers_next fuel response n i msg offset rr k :
  ParseResourceRecord fuel response offset = Ok (rr, k) ->
  parseResponse_answers fuel response (S n) i msg offset
  = parseResponse_answers fuel response n (i + 1)
      (mkDNSMessage msg.(MsgHeader) msg.(Questions) (msg.(Answers) ++ [rr])
         msg.(Authority) msg.(Additional))
      (offset + k).
Proof. intros E. cbn [parseResponse_answers]. rewrite E. reflexivity. Qed.

(** C2, on the response with two answers laid out back to back at offsets
    29 and 45: each answer parses at its wire position, and the first
    parse returns 45, the position of the second; [parseResponse] yet looks
    for the second answer at 29 + 45 = 74, past the end of the 61 bytes,
    and rejects the response. *)
Theorem parseResponse_second_answer_misplaced :
  len response_two_answers = 61
  /\ ParseResourceRecord 4 response_two_answers 29
     = Ok (mkResourceRecord "example.com" TypeA 1 3600 4 [x5d; xb8; xd8; x22], 45)
  /\ ParseResourceRecord 4 response_two_answers 45
     = Ok (mkResourceRecord "example.com" TypeA 1 3600 4 [x5d; xb8; xd8; x23], 61)
  /\ forall fuel,
       parseResponse (4 + fuel) response_two_answers
       = Err (ErrParseAnswer 1 (ErrRRName (ErrOffsetOutOfBounds 74))).
Proof.
  split; [|split; [|split]]; [vm_compute; reflexivity ..|].
  intros fuel.
  apply (parseResponse_fuel_mono 4); [vm_compute; reflexivity|discriminate|lia].
Qed.

(** With a single answer the misplaced offset is never used. *)
Example parseResponse_one_answer fuel :
  parseResponse (4 + fuel) (response_one_answer 0x1234 0x8180)
  = Ok (mkDNSMessage (mkHeader 0x1234 0x8180 1 1 0 0)
          [mkQuestion "example.com" TypeA 1]
          [mkResourceRecord "example.com" TypeA 1 3600 4 [x5d; xb8; xd8; x22]]
          [] []).
Proof.
  apply (parseResponse_fuel_mono 4); [vm_compute; reflexivity|discriminate|lia].
Qed.

Lemma parseResponse_rcode_2 fuel response h :
  UnpackHeader response = Ok h -> Z.land h.(Flags) 0x000F = 2 ->
  parseResponse fuel response = Err ErrServerFailed.
Proof.
  intros Eh Hc. unfold parseResponse. rewrite Eh. cbn [bind]. cbv zeta.
  rewrite Hc. reflexivity.
Qed.

Lemma parseResponse_rcode_3 fuel response h :
  UnpackHeader response = Ok h -> Z.land h.(Flags) 0x000F = 3 ->
  parseResponse fuel response = Err ErrNameNotFound.
Proof.
  intros Eh Hc. unfold parseResponse. rewrite Eh. cbn [bind]. cbv zeta.
  rewrite Hc. reflexivity.
Qed.

(** C4, on header-only responses with flags [0x8180 + c]: for each of the
    thirteen nonzero response codes [c] other than 2 and 3 (FORMERR,
    NOTIMP, REFUSED, ...), [parseResponse] returns a message and no error. *)
Theorem parseResponse_accepts_other_rcodes fuel :
  Forall (fun c =>
            Z.land (0x8180 + c) 0x000F = c
            /\ parseResponse fuel (wire_header 0x1234 (0x8180 + c) 0 0 0 0)
               = Ok (mkDNSMessage (mkHeader 0x1234 (0x8180 + c) 0 0 0 0) [] [] [] []))
         [1; 4; 5; 6; 7; 8; 9; 10; 11; 12; 13; 14; 15].
Proof. repeat constructor. Qed.

(** The same on a REFUSED response that repeats the question. *)
Example parseResponse_accepts_refused fuel :
  parseResponse (3 + fuel) (wire_header 0x1234 0x8185 1 0 0 0 ++ wire_question)
  = Ok (mkDNSMessage (mkHeader 0x1234 0x8185 1 0 0 0)
          [mkQuestion "example.com" TypeA 1] [] [] []).
Proof.
  apply (parseResponse_fuel_mono 3); [vm_compute; reflexivity|discriminate|lia].
Qed.

Lemma parseResponse_questions_frame fuel response n :
  forall i msg offset msg' offset',
    parseResponse_questions fuel response n i msg offset = Ok (msg', offset') ->
    msg'.(MsgHeader) = msg.(MsgHeader)
    /\ List.length msg'.(Questions) = (List.length msg.(Questions) + n)%nat
    /\ msg'.(Answers) = msg.(Answers)
    /\ msg'.(Authority) = msg.(Authority)
    /\ msg'.(Additional) = msg.(Additional).
Proof.
  induction n as [|n IH]; intros i msg offset msg' offset' E.
  - injection E as <- <-. repeat split. lia.
  - cbn [parseResponse_questions] in E.
    destruct (parseQuestion fuel response offset) as [[q k]| | |]; try discriminate E.
    cbn [wrap bind] in E. apply IH in E. cbn [MsgHeader Questions Answers Authority Additional] in E.
    destruct E as (Hh & Hq & Ha & Hau & Had).
    rewrite length_app in Hq. simpl List.length in Hq.
    repeat split; try assumption. lia.
Qed.

Lemma parseResponse_answers_frame fuel response n :
  forall i msg offset msg' offset',
    parseResponse_answers fuel response n i msg offset = Ok (msg', offset') ->
    msg'.(MsgHeader) = msg.(MsgHeader)
    /\ msg'.(Questions) = msg.(Questions)
    /\ List.length msg'.(Answers) = (List.length msg.(Answers) + n)%nat
    /\ msg'.(Authority) = msg.(Authority)
    /\ msg'.(Additional) = msg.(Additional).
Proof.
  induction n as [|n IH]; intros i msg offset msg' offset' E.
  - injection E as <- <-. repeat split. lia.
  - cbn [parseResponse_answers] in E.
    destruct (ParseResourceRecord fuel response offset) as [[rr k]| | |]; try discriminate E.
    cbn [wrap bind] in E. apply IH in E. cbn [MsgHeader Questions Answers Authority Additional] in E.
    destruct E as (Hh & Hq & Ha & Hau & Had).
    rewrite length_app in Ha. simpl List.length in Ha.
    repeat split; try assumption. lia.
Qed.

Lemma UnpackHeader_range data h :
  UnpackHeader data = Ok h ->
  0 <= h.(QDCOUNT) < 65536 /\ 0 <= h.(ANCOUNT) < 65536
  /\ u16_at data 8 = Ok h.(NSCOUNT) /\ u16_at data 10 = Ok h.(ARCOUNT).
Proof.
  intros E.
  destruct (UnpackHeader_Ok_inv _ _ E)
    as (b0 & b1 & b2 & b3 & b4 & b5 & b6 & b7 & b8 & b9 & b10 & b11 & rest & ->).
  rewrite UnpackHeader_fields in E. injection E as <-.
  cbn [QDCOUNT ANCOUNT NSCOUNT ARCOUNT].
  pose proof (byte_to_Z_range b4). pose proof (byte_to_Z_range b5).
  pose proof (byte_to_Z_range b6). pose proof (byte_to_Z_range b7).
  split; [lia|]. split; [lia|]. split.
  - exact (u16_at_app [b0; b1; b2; b3; b4; b5; b6; b7] _ b8 b9).
  - exact (u16_at_app [b0; b1; b2; b3; b4; b5; b6; b7; b8; b9] _ b10 b11).
Qed.

(** What an accepted response is made of. *)
Lemma parseResponse_Ok_inv fuel response msg :
  parseResponse fuel response = Ok msg ->
  UnpackHeader response = Ok msg.(MsgHeader)
  /\ len msg.(Questions) = msg.(MsgHeader).(QDCOUNT)
  /\ len msg.(Answers) = msg.(MsgHeader).(ANCOUNT)
  /\ msg.(Authority) = []
  /\ msg.(Additional) = [].
Proof.
  unfold parseResponse. intros E.
  destruct (UnpackHeader response) as [h| | |] eqn:Eh; try discriminate E.
  cbn [bind] in E. cbv zeta in E.
  destruct (Z.land (Flags h) 15 =? 2); [discriminate E|].
  destruct (Z.land (Flags h) 15 =? 3); [discriminate E|].
  destruct (parseResponse_questions fuel response _ _ _ _) as [[m1 o1]| | |] eqn:Eq;
    try discriminate E.
  cbn [bind] in E.
  destruct (parseResponse_answers fuel response _ _ _ _) as [[m2 o2]| | |] eqn:Ea;
    try discriminate E.
  cbn [bind] in E. injection E as <-.
  apply parseResponse_questions_frame in Eq. apply parseResponse_answers_frame in Ea.
  cbn [MsgHeader Questions Answers Authority Additional] in Eq.
  destruct Eq as (Hh1 & Hq1 & Ha1 & Hau1 & Had1).
  destruct Ea as (Hh2 & Hq2 & Ha2 & Hau2 & Had2).
  destruct (UnpackHeader_range _ _ Eh) as (Hqd & Han & _).
  rewrite Hh2, Hh1. unfold len.
  rewrite Hq2, Hq1, Ha2, Ha1, Hau2, Hau1, Had2, Had1. simpl List.length.
  repeat split; lia.
Qed.

(** C9: in a message that [parseResponse] returns, the authority and
    additional sequences are empty, as many questions and answers were
    decoded as QDCOUNT and ANCOUNT declare, and the header is the unpacked
    wire header: its NSCOUNT and ARCOUNT are the big-endian values of bytes
    8-9 and 10-11, whatever they are. *)
Theorem parseResponse_sections fuel response msg :
  parseResponse fuel response = Ok msg ->
  msg.(Authority) = []
  /\ msg.(Additional) = []
  /\ len msg.(Questions) = msg.(MsgHeader).(QDCOUNT)
  /\ len msg.(Answers) = msg.(MsgHeader).(ANCOUNT)
  /\ UnpackHeader response = Ok msg.(MsgHeader)
  /\ u16_at response 8 = Ok msg.(MsgHeader).(NSCOUNT)
  /\ u16_at response 10 = Ok msg.(MsgHeader).(ARCOUNT).
Proof.
  intros E. destruct (parseResponse_Ok_inv _ _ _ E) as (Eh & Hq & Ha & Hau & Had).
  destruct (UnpackHeader_range _ _ Eh) as (_ & _ & Hns & Har).
  repeat split; assumption.
Qed.

Lemma parseResponse_sections_witness :
  let msg := mkDNSMessage (mkHeader 0x1234 0x8180 1 1 3 7)
               [mkQuestion "example.com" TypeA 1]
               [mkResourceRecord "example.com" TypeA 1 3600 4 [x5d; xb8; xd8; x22]]
               [] [] in
  msg.(Authority) = []
  /\ msg.(Additional) = []
  /\ len msg.(Questions) = msg.(MsgHeader).(QDCOUNT)
  /\ len msg.(Answers) = msg.(MsgHeader).(ANCOUNT)
  /\ UnpackHeader response_with_counts = Ok msg.(MsgHeader)
  /\ u16_at response_with_counts 8 = Ok msg.(MsgHeader).(NSCOUNT)
  /\ u16_at response_with_counts 10 = Ok msg.(MsgHeader).(ARCOUNT).
Proof.
  apply (parseResponse_sections 4 response_with_counts).
  vm_compute. reflexivity.
Defined.

(** ** Resolver *)

(** C3, a defect of the code: [Resolve] compares the response's id with
    the query's only after [parseResponse] has accepted the response, and
    [parseResponse] looks at the response code before anything else. Here
    the query goes out with id 4 and the response comes back with id 5:
    with response code 3 [Resolve] fails with the name-not-found error of
    [parseResponse], and with response code 2 with its server-failure
    error, in both cases not with the id mismatch. *)
Theorem Resolve_rcode_checked_before_id :
  UnpackHeader (wire_header 0x0005 0x8183 1 0 0 0 ++ wire_question)
  = Ok (mkHeader 5 0x8183 1 0 0 0)
  /\ buildQuery nxdomain_world (NewResolver "8.8.8.8:53") "example.com" TypeA
     = Ok (wire_header 4 0x0100 1 0 0 0 ++ wire_question, 4)
  /\ (forall fuel,
        Resolve nxdomain_world fuel (NewResolver "8.8.8.8:53") "example.com" TypeA
        = Err (ErrParseResponse ErrNameNotFound)
        /\ is_id_mismatch
             (Resolve nxdomain_world fuel (NewResolver "8.8.8.8:53") "example.com" TypeA)
           = false)
  /\ UnpackHeader (wire_header 0x0005 0x8182 1 0 0 0 ++ wire_question)
     = Ok (mkHeader 5 0x8182 1 0 0 0)
  /\ buildQuery servfail_world (NewResolver "8.8.8.8:53") "example.com" TypeA
     = Ok (wire_header 4 0x0100 1 0 0 0 ++ wire_question, 4)
  /\ (forall fuel,
        Resolve servfail_world fuel (NewResolver "8.8.8.8:53") "example.com" TypeA
        = Err (ErrParseResponse ErrServerFailed)
        /\ is_id_mismatch
             (Resolve servfail_world fuel (NewResolver "8.8.8.8:53") "example.com" TypeA)
           = false).
Proof.
  split; [vm_compute; reflexivity|]. split; [vm_compute; reflexivity|].
  split.
  { intros fuel.
    assert (E : Resolve nxdomain_world fuel (NewResolver "8.8.8.8:53") "example.com" TypeA
                = Err (ErrParseResponse ErrNameNotFound)) by (vm_compute; reflexivity).
    rewrite E. split; reflexivity. }
  split; [vm_compute; reflexivity|]. split; [vm_compute; reflexivity|].
  intros fuel.
  assert (E : Resolve servfail_world fuel (NewResolver "8.8.8.8:53") "example.com" TypeA
              = Err (ErrParseResponse ErrServerFailed)) by (vm_compute; reflexivity).
  rewrite E. split; reflexivity.
Qed.

(** What [Resolve] returns once the query was built and sent and the
    response has a header: the error of [parseResponse] when it rejects
    the response, whether or not the ids agree (the server-failure error
    with response code 2, the name-not-found error with response code 3);
    and the id mismatch when [parseResponse] accepts the response and the
    header's id differs from the query's. *)
Lemma Resolve_id_mismatch w fuel r domainName recordType query queryID response h :
  buildQuery w r domainName recordType = Ok (query, queryID) ->
  sendQuery w r query = Ok response ->
  UnpackHeader response = Ok h ->
  (forall msg, parseResponse fuel response = Ok msg -> h.(ID) <> queryID ->
     Resolve w fuel r domainName recordType = Err (ErrIDMismatch h.(ID) queryID))
  /\ (Z.land h.(Flags) 0x000F = 2 ->
      Resolve w fuel r domainName recordType = Err (ErrParseResponse ErrServerFailed))
  /\ (Z.land h.(Flags) 0x000F = 3 ->
      Resolve w fuel r domainName recordType = Err (ErrParseResponse ErrNameNotFound))
  /\ (forall e, parseResponse fuel response = Err e ->
      Resolve w fuel r domainName recordType = Err (ErrParseResponse e)).
Proof.
  intros Eq Es Eh. unfold Resolve. rewrite Eq. cbn [wrap bind].
  rewrite Es. cbn [wrap bind].
  split; [|split; [|split]].
  - intros msg Em Hid. rewrite Em. cbn [wrap bind].
    destruct (parseResponse_Ok_inv _ _ _ Em) as (Eh' & _).
    assert (Ehm : h = MsgHeader msg) by congruence. subst h.
    destruct (Z.eqb_spec (ID (MsgHeader msg)) queryID) as [?|_]; [contradiction|].
    reflexivity.
  - intros Hc. rewrite (parseResponse_rcode_2 _ _ _ Eh Hc). reflexivity.
  - intros Hc. rewrite (parseResponse_rcode_3 _ _ _ Eh Hc). reflexivity.
  - intros e Ee. rewrite Ee. reflexivity.
Qed.

(** Scenario D, from the lemma above. *)
Lemma Resolve_id_mismatch_scenario_D :
  Resolve scenario_D_world 4 (NewResolver "8.8.8.8:53") "example.com" TypeA
  = Err (ErrIDMismatch 5 4).
Proof.
  refine (proj1 (Resolve_id_mismatch scenario_D_world 4 (NewResolver "8.8.8.8:53")
                   "example.com" TypeA
                   (wire_header 4 0x0100 1 0 0 0 ++ wire_question) 4
                   (response_one_answer 0x0005 0x8180)
                   (mkHeader 5 0x8180 1 1 0 0) _ _ _)
                (mkDNSMessage (mkHeader 5 0x8180 1 1 0 0)
                   [mkQuestion "example.com" TypeA 1]
                   [mkResourceRecord "example.com" TypeA 1 3600 4 [x5d; xb8; xd8; x22]]
                   [] []) _ _).
  - vm_compute. reflexivity.
  - vm_compute. reflexivity.
  - vm_compute. reflexivity.
  - vm_compute. reflexivity.
  - simpl. lia.
Defined.

Lemma Resolve_fuel_mono w fuel fuel' r domainName recordType o :
  Resolve w fuel r domainName recordType = o -> o <> OutOfFuel -> (fuel <= fuel')%nat ->
  Resolve w fuel' r domainName recordType = o.
Proof.
  unfold Resolve. intros <- Hne Hle.
  destruct (wrap ErrBuildQuery (buildQuery w r domainName recordType)) as [[query queryID]| | |];
    try reflexivity.
  cbn [bind] in *.
  destruct (wrap ErrSendQuery (sendQuery w r query)) as [response| | |]; try reflexivity.
  cbn [bind] in *.
  apply bind_not_OutOfFuel, wrap_not_OutOfFuel in Hne.
  rewrite (parseResponse_fuel_mono fuel fuel' response _ eq_refl Hne Hle).
  reflexivity.
Qed.

Example scenario_D fuel :
  Resolve scenario_D_world (4 + fuel) (NewResolver "8.8.8.8:53") "example.com" TypeA
  = Err (ErrIDMismatch 5 4).
Proof.
  apply (Resolve_fuel_mono _ 4); [vm_compute; reflexivity|discriminate|lia].
Qed.

(** Scenario E: with RCODE 3 the answers present are not looked at. *)
Example scenario_E fuel :
  Resolve (world_of x00 x04 (response_one_answer 0x0004 0x8183)) fuel
    (NewResolver "8.8.8.8:53") "example.com" TypeA
  = Err (ErrParseResponse ErrNameNotFound).
Proof. vm_compute. reflexivity. Qed.

(** ** TXT records *)

Lemma firstn_len_app {A : Type} (s t : list A) : firstn (Z.to_nat (len s)) (s ++ t) = s.
Proof.
  unfold len. rewrite Nat2Z.id.
  induction s as [|a s IH]; [reflexivity|]. simpl. f_equal. exact IH.
Qed.

Lemma skipn_len_app {A : Type} (s t : list A) : skipn (Z.to_nat (len s)) (s ++ t) = t.
Proof.
  unfold len. rewrite Nat2Z.id.
  induction s as [|a s IH]; [reflexivity|]. exact IH.
Qed.

(** The loop on well-formed strings followed by an overrun. *)
Lemma RDataString_TXT_wire Sprintf_q strs :
  forall rest texts,
    Forall (fun str => len str <= 255) strs ->
    overruns rest ->
    RDataString_TXT Sprintf_q (txt_wire strs ++ rest) texts
    = texts ++ map (fun str => Sprintf_q (string_of_list_byte str)) strs.
Proof.
  induction strs as [|str strs IH]; intros rest texts Hall Hrest.
  - change (txt_wire []) with (@nil byte). cbn [app map]. rewrite app_nil_r.
    destruct rest as [|b tail]; [apply RDataString_TXT_equation_1|].
    rewrite RDataString_TXT_equation_2. cbv zeta.
    simpl in Hrest. zcase; [rewrite len_cons in *; lia|reflexivity].
  - inversion Hall as [|? ? Hstr Hstrs]; subst.
    change (txt_wire (str :: strs)) with ((byte_of_Z (len str) :: str) ++ txt_wire strs).
    rewrite <- app_assoc. cbn [app].
    rewrite RDataString_TXT_equation_2. cbv zeta.
    pose proof (len_nonneg str) as Hnn.
    rewrite byte_to_of_Z by lia.
    zcase; [|rewrite len_cons, len_app in *; pose proof (len_nonneg (txt_wire strs ++ rest)); lia].
    rewrite firstn_len_app, skipn_len_app.
    rewrite IH by assumption.
    rewrite <- app_assoc. reflexivity.
Qed.

(** Every byte sequence is a sequence of well-formed strings followed by
    an overrun. *)
Lemma txt_wire_decompose (data : list byte) :
  exists strs rest,
    data = txt_wire strs ++ rest
    /\ Forall (fun str => len str <= 255) strs
    /\ overruns rest.
Proof.
  remember (List.length data) as n eqn:Hn.
  revert data Hn. induction n as [n IH] using lt_wf_ind. intros data Hn.
  destruct data as [|b tail].
  - exists [], []. repeat split. constructor.
  - destruct (Z.lt_ge_cases (len tail) (byte_to_Z b)) as [Hlt|Hge].
    + exists [], (b :: tail). repeat split; [constructor|exact Hlt].
    + pose proof (byte_to_Z_range b) as Hb.
      set (l := Z.to_nat (byte_to_Z b)).
      assert (Hl : (l <= List.length tail)%nat) by (unfold len in Hge; lia).
      destruct (IH (List.length (skipn l tail))) with (data := skipn l tail)
        as (strs & rest & Hdata & Hall & Hrest).
      { subst n. rewrite length_skipn. simpl. lia. }
      { reflexivity. }
      assert (Hlen : len (firstn l tail) = byte_to_Z b).
      { unfold len. rewrite length_firstn. lia. }
      exists (firstn l tail :: strs), rest. split; [|split].
      * change (txt_wire (firstn l tail :: strs))
          with ((byte_of_Z (len (firstn l tail)) :: firstn l tail) ++ txt_wire strs).
        rewrite Hlen, byte_of_to_Z, <- app_assoc, <- Hdata. cbn [app].
        rewrite firstn_skipn. reflexivity.
      * constructor; [lia|exact Hall].
      * exact Hrest.
Qed.

Lemma Join_quoted_not_placeholder (texts : list string) (rdata : list byte) :
  Forall (fun text => exists t, text = String double_quote t) texts ->
  Join texts " " <> placeholder rdata.
Proof.
  intros Hall. destruct Hall as [|text texts (t & ->) _]; [discriminate|].
  destruct texts; discriminate.
Qed.

(** C10: for a TXT record, whatever its data, [RDataString] returns the
    quoted character strings of the data's well-formed strings joined by
    spaces, up to the first length byte that overruns the data; this is
    never the placeholder of the unsupported and malformed cases, given
    that a quoted string starts with a double quote. *)
Theorem RDataString_TXT_partial Sprintf_q fuel rr fullMessage :
  rr.(RRType) = TypeTXT ->
  (forall s, exists t, Sprintf_q s = String double_quote t) ->
  (exists strs rest,
     rr.(RData) = txt_wire strs ++ rest
     /\ Forall (fun str => len str <= 255) strs
     /\ overruns rest)
  /\ (forall strs rest,
        rr.(RData) = txt_wire strs ++ rest ->
        Forall (fun str => len str <= 255) strs ->
        overruns rest ->
        RDataString Sprintf_q fuel rr fullMessage
        = Ok (Join (map (fun str => Sprintf_q (string_of_list_byte str)) strs) " "))
  /\ RDataString Sprintf_q fuel rr fullMessage <> Ok (placeholder rr.(RData)).
Proof.
  intros Htype Hquote.
  assert (Hwire : forall strs rest,
        rr.(RData) = txt_wire strs ++ rest ->
        Forall (fun str => len str <= 255) strs ->
        overruns rest ->
        RDataString Sprintf_q fuel rr fullMessage
        = Ok (Join (map (fun str => Sprintf_q (string_of_list_byte str)) strs) " ")).
  { intros strs rest Hdata Hall Hrest.
    unfold RDataString. rewrite Htype. cbn [Z.eqb TypeTXT TypeA TypeAAAA TypeCNAME TypeNS TypeMX Pos.eqb orb].
    cbv zeta. rewrite Hdata, RDataString_TXT_wire by assumption. reflexivity. }
  split; [apply txt_wire_decompose|]. split; [exact Hwire|].
  destruct (txt_wire_decompose rr.(RData)) as (strs & rest & Hdata & Hall & Hrest).
  rewrite (Hwire strs rest Hdata Hall Hrest).
  intros E. injection E as E. revert E.
  apply Join_quoted_not_placeholder.
  apply Forall_forall. intros text Hin.
  apply in_map_iff in Hin. destruct Hin as (str & <- & _). apply Hquote.
Qed.

Lemma RDataString_TXT_partial_witness :
  let rr := mkResourceRecord "example.com" TypeTXT 1 300 9 txt_partial in
  (exists strs rest,
     rr.(RData) = txt_wire strs ++ rest
     /\ Forall (fun str => len str <= 255) strs
     /\ overruns rest)
  /\ (forall strs rest,
        rr.(RData) = txt_wire strs ++ rest ->
        Forall (fun str => len str <= 255) strs ->
        overruns rest ->
        RDataString plain_quote 0 rr []
        = Ok (Join (map (fun str => plain_quote (string_of_list_byte str)) strs) " "))
  /\ RDataString plain_quote 0 rr [] <> Ok (placeholder rr.(RData)).
Proof.
  apply (RDataString_TXT_partial plain_quote 0
           (mkResourceRecord "example.com" TypeTXT 1 300 9 txt_partial) []).
  - reflexivity.
  - intros s. eexists. reflexivity.
Defined.

(** The partial result on [txt_partial], and the empty result on empty and
    on immediately overrunning data. *)
Example RDataString_TXT_examples :
  RDataString plain_quote 0 (mkResourceRecord "example.com" TypeTXT 1 300 9 txt_partial) []
  = Ok (String double_quote "abc" ++ String double_quote " "
        ++ String double_quote "de" ++ String double_quote EmptyString)%string
  /\ RDataString plain_quote 0 (mkResourceRecord "example.com" TypeTXT 1 300 0 []) []
     = Ok EmptyString
  /\ RDataString plain_quote 0 (mkResourceRecord "example.com" TypeTXT 1 300 2 [x05; x01]) []
     = Ok EmptyString.
Proof. repeat split; vm_compute; reflexivity. Qed.

(** ** Pointer cycles *)

Lemma reads_labels_snoc msg s ls p b bs :
  reads_labels msg s ls p ->
  index msg p = Some b ->
  byte_to_Z b <> 0 ->
  Z.land (byte_to_Z b) 0xC0 <> 0xC0 ->
  slice msg (p + 1) (p + 1 + byte_to_Z b) = Some bs ->
  reads_labels msg s (ls ++ [string_of_list_byte bs]) (p + 1 + byte_to_Z b).
Proof.
  induction 1 as [off|off b0 bs0 ls p Hb0 Hnz Hnp Hbs0 Hrest IH]; intros Hb Hz Hp Hbs.
  - apply (reads_labels_cons msg off b bs [] _ Hb Hz Hp Hbs). apply reads_labels_nil.
  - apply (reads_labels_cons msg off b0 bs0 _ _ Hb0 Hnz Hnp Hbs0). apply IH; assumption.
Qed.

(** The loop of a decode started at [s] ends when the decodes at all the
    targets it can jump to end. *)
Lemma DecodeDomainName_loop_terminates msg s :
  (forall t, jumps_to msg s t -> exists fuel, DecodeDomainName fuel msg t <> OutOfFuel) ->
  forall n offset ls labels bytesRead jumped,
    (Z.to_nat (len msg - offset) <= n)%nat ->
    0 <= offset ->
    reads_labels msg s ls offset ->
    exists fuel,
      DecodeDomainName_loop fuel msg s labels offset bytesRead jumped <> OutOfFuel.
Proof.
  intros IHs. induction n as [|n IH]; intros off ls acc br j Hn Hoff Hreads.
  - exists 1%nat. loop_step. zcase; [discriminate|lia].
  - destruct (Z.le_gt_cases (len msg) off) as [Hout|Hin].
    { exists 1%nat. loop_step. zcase; [discriminate|lia]. }
    destruct (index_in_range msg off) as [b Hb]; [lia|].
    pose proof (byte_to_Z_range b) as Hrange.
    destruct (Z.eq_dec (byte_to_Z b) 0) as [Hz|Hnz].
    { exists 1%nat. loop_step. zcase; [lia|]. rewrite Hb. cbn [must bind].
      zcase; [discriminate|contradiction]. }
    destruct (Z.eq_dec (Z.land (byte_to_Z b) 192) 192) as [Hptr|Hnp].
    + destruct (Z.le_gt_cases (len msg) (off + 1)) as [Hout1|Hin1].
      { exists 1%nat. loop_step. zcase; [lia|]. rewrite Hb. cbn [must bind].
        zcase; [contradiction|]. zcase; [|contradiction]. zcase; [discriminate|lia]. }
      assert (Hslice : exists bs, slice msg off (off + 2) = Some bs /\ len bs = 2).
      { rewrite slice_in_range by lia. eexists. split; [reflexivity|].
        unfold len in *. rewrite length_firstn, length_skipn. lia. }
      destruct Hslice as (bs & Hbs & Hlen).
      destruct (index_in_range bs 1) as [b1 E1]; [lia|].
      destruct (index_in_range bs 0) as [b0 E0]; [lia|].
      assert (Hu : Uint16 bs = Some (Z.lor (byte_to_Z b1) (Z.shiftl (byte_to_Z b0) 8))).
      { unfold Uint16. rewrite E1, E0. reflexivity. }
      destruct (IHs (Z.land (Z.lor (byte_to_Z b1) (Z.shiftl (byte_to_Z b0) 8)) 16383))
        as [fuel Hfuel].
      { exists ls, off, b, bs, (Z.lor (byte_to_Z b1) (Z.shiftl (byte_to_Z b0) 8)).
        repeat (split; [assumption|]). reflexivity. }
      exists (S fuel). loop_step. zcase; [lia|]. rewrite Hb. cbn [must bind].
      zcase; [contradiction|]. zcase; [|contradiction]. zcase; [lia|].
      replace (off + 1 - 1) with off by lia. replace (off + 1 + 1) with (off + 2) by lia.
      rewrite Hbs. cbn [must bind]. rewrite Hu. cbn [must bind].
      unfold DecodeDomainName in Hfuel.
      destruct (DecodeDomainName_loop fuel msg _ [] _ 0 false) as [[pn k]| | |];
        cbn [wrap bind]; congruence.
    + destruct (Z.lt_ge_cases (len msg) (off + 1 + byte_to_Z b)) as [Hover|Hfit].
      { exists 1%nat. loop_step. zcase; [lia|]. rewrite Hb. cbn [must bind].
        zcase; [contradiction|]. zcase; [contradiction|]. zcase; [discriminate|lia]. }
      assert (Hbs : slice msg (off + 1) (off + 1 + byte_to_Z b)
                    = Some (firstn (Z.to_nat (off + 1 + byte_to_Z b - (off + 1)))
                              (skipn (Z.to_nat (off + 1)) msg)))
        by (apply slice_in_range; lia).
      destruct (IH (off + 1 + byte_to_Z b)
                  (ls ++ [string_of_list_byte
                            (firstn (Z.to_nat (off + 1 + byte_to_Z b - (off + 1)))
                               (skipn (Z.to_nat (off + 1)) msg))])
                  (acc ++ [string_of_list_byte
                             (firstn (Z.to_nat (off + 1 + byte_to_Z b - (off + 1)))
                                (skipn (Z.to_nat (off + 1)) msg))]) br j)
        as [fuel Hfuel]; [lia|lia| |].
      { exact (reads_labels_snoc _ _ _ _ _ _ Hreads Hb Hnz Hnp Hbs). }
      exists (S fuel). loop_step. zcase; [lia|]. rewrite Hb. cbn [must bind].
      zcase; [contradiction|]. zcase; [contradiction|]. zcase; [lia|].
      rewrite Hbs. cbn [must bind]. exact Hfuel.
Qed.

(** [DecodeDomainName] returns (a name, an error or a panic) from every
    offset from which the chain of pointer jumps is well founded. *)
Lemma DecodeDomainName_terminates msg offset :
  Acc (fun t s => jumps_to msg s t) offset ->
  exists fuel, DecodeDomainName fuel msg offset <> OutOfFuel.
Proof.
  induction 1 as [s _ IH].
  destruct (Z.lt_ge_cases s 0) as [Hneg|Hpos].
  - exists 1%nat. unfold DecodeDomainName. loop_step.
    pose proof (len_nonneg msg). zcase; [lia|].
    unfold index. destruct (Z.ltb_spec s 0); [discriminate|lia].
  - apply (DecodeDomainName_loop_terminates msg s IH (Z.to_nat (len msg - s)) s []);
      [lia|exact Hpos|apply reads_labels_nil].
Qed.

(** In particular when every jump goes to an offset below the start of the
    name it is made from. *)
Lemma DecodeDomainName_terminates_backward msg :
  (forall s t, jumps_to msg s t -> t < s) ->
  forall offset, exists fuel, DecodeDomainName fuel msg offset <> OutOfFuel.
Proof.
  intros Hback offset. apply DecodeDomainName_terminates.
  assert (Hnonneg : forall s t, jumps_to msg s t -> 0 <= t).
  { intros s t (ls & p & b & bs & u & _ & _ & _ & _ & _ & ->).
    apply Z.land_nonneg. right. lia. }
  assert (Hacc : forall n, 0 <= n -> forall s, s < n -> Acc (fun t s => jumps_to msg s t) s).
  { apply (natlike_ind (fun n => forall s, s < n -> Acc (fun t s => jumps_to msg s t) s)).
    - intros s Hs. constructor. intros t Ht.
      pose proof (Hback s t Ht). pose proof (Hnonneg s t Ht). lia.
    - intros n Hn IHn s Hs. constructor. intros t Ht.
      apply IHn. pose proof (Hback s t Ht). lia. }
  destruct (Z.lt_ge_cases offset 0) as [Hneg|Hpos].
  - apply (Hacc 0); lia.
  - apply (Hacc (offset + 1)); lia.
Qed.

Ltac label_inv H :=
  inversion H; subst; clear H;
  repeat match goal with
  | E : index _ _ = Some _ |- _ => vm_compute in E; injection E as <-
  | E : slice _ _ _ = Some _ |- _ => vm_compute in E; injection E as <-
  | E : Uint16 _ = Some _ |- _ => vm_compute in E; injection E as <-
  end.

(** The jumps of the one-answer response from the owner name of its answer
    are well founded: one jump from 29 to the question name at 12, which
    has no pointer. *)
Example response_one_answer_jumps_well_founded :
  Acc (fun t s => jumps_to (response_one_answer 0x1234 0x8180) s t) 29.
Proof.
  constructor. intros t (ls & p & b & bs & u & Hreads & Hb & Hptr & Hbs & Hu & ->).
  label_inv Hreads.
  - change (Z.land 49164 16383) with 12.
    clear. constructor.
    intros t (ls & p & b & bs & u & Hreads & Hb & Hptr & Hbs & Hu & ->).
    label_inv Hreads; [vm_compute in Hptr; discriminate Hptr|].
    match goal with
    | H : reads_labels _ _ _ _ |- _ =>
        change (12 + 1 + byte_to_Z x07) with 20 in H; label_inv H
    end; [vm_compute in Hptr; discriminate Hptr|].
    match goal with
    | H : reads_labels _ _ _ _ |- _ =>
        change (20 + 1 + byte_to_Z x03) with 24 in H; label_inv H
    end; [vm_compute in Hptr; discriminate Hptr|].
    match goal with H : byte_to_Z _ <> 0 |- _ => exfalso; apply H; reflexivity end.
  - match goal with H : Z.land _ _ <> _ |- _ => exfalso; apply H; reflexivity end.
Qed.

(** C1, on three messages: a pointer to its own offset and two pointers
    that target each other make [DecodeDomainName] recurse without end (no
    amount of fuel gives a result, where Go overflows its stack), and a
    pointer to a later offset is followed without any error. *)
Theorem DecodeDomainName_pointer_cycle_diverges :
  (forall fuel, DecodeDomainName fuel self_pointer 0 = OutOfFuel)
  /\ (forall fuel, DecodeDomainName fuel pointer_cycle 0 = OutOfFuel)
  /\ (forall fuel, DecodeDomainName (2 + fuel) forward_pointer 0 = Ok (EmptyString, 2)).
Proof.
  split; [exact self_pointer_loops|]. split.
  - intros fuel. exact (proj1 (pointer_cycle_loops fuel)).
  - intros fuel. apply (DecodeDomainName_fuel_mono 2); [reflexivity|discriminate|lia].
Qed.

(** ** Scenarios of the name codec and of the formatter *)

Example scenario_A_encode : EncodeDomainName "example.com" = Ok example_com_wire.
Proof. reflexivity. Qed.

Example scenario_A_decode fuel :
  DecodeDomainName (3 + fuel) example_com_wire 0 = Ok ("example.com"%string, 13).
Proof.
  apply (DecodeDomainName_fuel_mono 3); [vm_compute; reflexivity|discriminate|lia].
Qed.

Example scenario_C Sprintf_q fuel fullMessage :
  RDataString Sprintf_q fuel
    (mkResourceRecord "example.com" TypeA 1 300 4 [x5d; xb8; xd8; x22]) fullMessage
  = Ok "93.184.216.34"%string.
Proof. reflexivity. Qed.

Example EncodeDomainName_label_too_long :
  is_Err (EncodeDomainName
            "aaaaaaaaaaaaaaaaaaaaaaaaaaaaaaaaaaaaaaaaaaaaaaaaaaaaaaaaaaaaaaaa.com") = true.
Proof. reflexivity. Qed.

(** * Further properties of the codec *)

(** ** Encoding of names *)

Lemma segments_short_or_long (segments : list string) :
  Forall (fun segment => strlen segment <= 63) segments
  \/ Exists (fun segment => 63 < strlen segment) segments.
Proof.
  induction segments as [|segment rest [IH|IH]].
  - left. constructor.
  - destruct (Z.le_gt_cases (strlen segment) 63) as [Hle|Hgt].
    + left. constructor; assumption.
    + right. apply Exists_cons_hd. lia.
  - right. apply Exists_cons_tl. exact IH.
Qed.

Lemma EncodeDomainName_segments_Err_inv segments :
  forall buf e,
    EncodeDomainName_segments segments buf = Err e ->
    exists segment,
      e = ErrSegmentTooLong segment /\ In segment segments /\ 63 < strlen segment.
Proof.
  induction segments as [|segment rest IH]; intros buf e E; [discriminate|].
  simpl EncodeDomainName_segments in E. revert E. zcase; intros E.
  - injection E as <-. exists segment. split; [reflexivity|]. split; [left; reflexivity|lia].
  - destruct (IH _ _ E) as (seg & -> & Hin & Hlong).
    exists seg. split; [reflexivity|]. split; [right; exact Hin|exact Hlong].
Qed.

(** X1: [EncodeDomainName] succeeds exactly on the names all of whose segments
    have at most 63 bytes, and fails exactly on the others, with the error
    that names one of the longer segments; it has no other outcome. *)
Theorem EncodeDomainName_fails_iff_long_segment (domain : string) :
  (is_Ok (EncodeDomainName domain) = true
   <-> Forall (fun segment => strlen segment <= 63) (Split domain "."))
  /\ (is_Err (EncodeDomainName domain) = true
      <-> Exists (fun segment => 63 < strlen segment) (Split domain "."))
  /\ (forall e, EncodeDomainName domain = Err e ->
        exists segment,
          e = ErrSegmentTooLong segment
          /\ In segment (Split domain ".") /\ 63 < strlen segment).
Proof.
  assert (Hlong : Exists (fun segment => 63 < strlen segment) (Split domain ".") ->
                  is_Err (EncodeDomainName domain) = true).
  { intros Hex. unfold EncodeDomainName.
    pose proof (EncodeDomainName_segments_long _ [] Hex) as E.
    destruct (EncodeDomainName_segments (Split domain ".") []); try discriminate E.
    reflexivity. }
  assert (Hshort : Forall (fun segment => strlen segment <= 63) (Split domain ".") ->
                   is_Ok (EncodeDomainName domain) = true).
  { intros Hall. rewrite EncodeDomainName_short by exact Hall. reflexivity. }
  split; [|split].
  - split; [|exact Hshort]. intros Hok.
    destruct (segments_short_or_long (Split domain ".")) as [Hall|Hex]; [exact Hall|].
    apply Hlong in Hex. destruct (EncodeDomainName domain); discriminate.
  - split; [|exact Hlong]. intros Herr.
    destruct (segments_short_or_long (Split domain ".")) as [Hall|Hex]; [|exact Hex].
    apply Hshort in Hall. destruct (EncodeDomainName domain); discriminate.
  - unfold EncodeDomainName. intros e E.
    destruct (EncodeDomainName_segments (Split domain ".") []) as [buf|e'| |] eqn:Es;
      try discriminate E.
    injection E as <-. exact (EncodeDomainName_segments_Err_inv _ _ _ Es).
Qed.

Lemma wire_labels_cons (segment : string) (rest : list string) :
  wire_labels (segment :: rest)
  = byte_of_Z (strlen segment) :: list_byte_of_string segment ++ wire_labels rest.
Proof. reflexivity. Qed.

Lemma len_wire_labels_Split (s : string) (sep : ascii) :
  len (wire_labels (Split s sep)) = strlen s + 1.
Proof.
  induction s as [|c rest IH]; [reflexivity|].
  simpl Split. destruct (Ascii.eqb c sep).
  - rewrite wire_labels_cons, len_cons, len_app, IH.
    change (len (list_byte_of_string EmptyString)) with 0.
    unfold strlen. simpl String.length. lia.
  - destruct (Split rest sep) as [|seg segs] eqn:E.
    + exfalso. exact (Split_not_nil _ _ E).
    + rewrite wire_labels_cons in *. rewrite len_cons, len_app in *.
      rewrite len_list_byte_of_string in *.
      unfold strlen in *. simpl String.length. lia.
Qed.

(** X2: An encoded name takes two bytes more than the name: a length byte for
    each label in place of the dots, one more for the first label, and the
    zero byte that ends it. *)
Theorem EncodeDomainName_length (domain : string) (enc : list byte) :
  EncodeDomainName domain = Ok enc ->
  len enc = strlen domain + 2
  /\ exists labels, enc = labels ++ [x00] /\ labels = wire_labels (Split domain ".").
Proof.
  intros E.
  assert (Hall : Forall (fun segment => strlen segment <= 63) (Split domain ".")).
  { destruct (segments_short_or_long (Split domain ".")) as [Hall|Hex]; [exact Hall|].
    unfold EncodeDomainName in E.
    pose proof (EncodeDomainName_segments_long _ [] Hex) as Herr.
    destruct (EncodeDomainName_segments (Split domain ".") []); discriminate. }
  rewrite EncodeDomainName_short in E by exact Hall. injection E as <-.
  split.
  - rewrite len_app, len_wire_labels_Split. change (len [x00]) with 1. lia.
  - eexists. split; reflexivity.
Qed.

Lemma EncodeDomainName_length_witness :
  len example_com_wire = strlen "example.com" + 2
  /\ exists labels,
       example_com_wire = labels ++ [x00]
       /\ labels = wire_labels (Split "example.com" ".").
Proof.
  apply (EncodeDomainName_length "example.com" example_com_wire). reflexivity.
Defined.

(** ** Header round trip *)

Lemma byte_to_Z_of_Z (z : Z) : byte_to_Z (byte_of_Z z) = z mod 256.
Proof.
  pose proof (Z.mod_pos_bound z 256 ltac:(lia)) as Hm.
  rewrite <- (byte_to_of_Z (z mod 256)) by lia.
  unfold byte_of_Z. rewrite Z.mod_mod by lia. reflexivity.
Qed.

Lemma PutUint16_value (v : Z) :
  is_uint16 v ->
  byte_to_Z (byte_of_Z (Z.shiftr v 8)) * 256 + byte_to_Z (byte_of_Z v) = v.
Proof.
  unfold is_uint16. intros Hv.
  rewrite !byte_to_Z_of_Z, Z.shiftr_div_pow2 by lia. change (2 ^ 8) with 256.
  assert (Hq : 0 <= v / 256 < 256).
  { split; [apply Z.div_pos; lia|apply Z.div_lt_upper_bound; lia]. }
  rewrite (Z.mod_small (v / 256)) by lia.
  pose proof (Z.div_mod v 256 ltac:(lia)). lia.
Qed.

Lemma UnpackHeader_Header_Pack (h : Header) (rest : list byte) :
  Header_wf h ->
  UnpackHeader (wire_header h.(ID) h.(Flags) h.(QDCOUNT) h.(ANCOUNT) h.(NSCOUNT) h.(ARCOUNT)
                ++ rest) = Ok h.
Proof.
  intros (Hid & Hfl & Hqd & Han & Hns & Har).
  unfold wire_header, PutUint16. cbn [app].
  rewrite UnpackHeader_fields, !PutUint16_value by assumption.
  destruct h; reflexivity.
Qed.

(** X4: [Header.Pack] and [UnpackHeader] are inverse of each other: a header
    whose fields fit 16 bits packs into 12 bytes that unpack to it,
    whatever follows them; and a header that was unpacked packs into the
    first 12 bytes it came from. *)
Theorem Header_Pack_UnpackHeader_inverse :
  (forall h rest,
     Header_wf h ->
     exists packed,
       Header_Pack h = Ok packed /\ len packed = 12
       /\ UnpackHeader (packed ++ rest) = Ok h)
  /\ (forall data h,
        UnpackHeader data = Ok h ->
        Header_wf h /\ Header_Pack h = Ok (firstn 12 data)).
Proof.
  split.
  - intros h rest Hwf. eexists. split; [reflexivity|]. split; [reflexivity|].
    exact (UnpackHeader_Header_Pack h rest Hwf).
  - intros data h E.
    destruct (UnpackHeader_Ok_inv _ _ E)
      as (b0 & b1 & b2 & b3 & b4 & b5 & b6 & b7 & b8 & b9 & b10 & b11 & rest & ->).
    rewrite UnpackHeader_fields in E. injection E as <-.
    pose proof (byte_to_Z_range b0). pose proof (byte_to_Z_range b1).
    pose proof (byte_to_Z_range b2). pose proof (byte_to_Z_range b3).
    pose proof (byte_to_Z_range b4). pose proof (byte_to_Z_range b5).
    pose proof (byte_to_Z_range b6). pose proof (byte_to_Z_range b7).
    pose proof (byte_to_Z_range b8). pose proof (byte_to_Z_range b9).
    pose proof (byte_to_Z_range b10). pose proof (byte_to_Z_range b11).
    split; [unfold Header_wf, is_uint16; cbn [ID Flags QDCOUNT ANCOUNT NSCOUNT ARCOUNT]; lia|].
    unfold Header_Pack, PutUint16. cbn [ID Flags QDCOUNT ANCOUNT NSCOUNT ARCOUNT app firstn].
    assert (Hhi : forall hi lo, 0 <= hi < 256 -> 0 <= lo < 256 ->
                   Z.shiftr (hi * 256 + lo) 8 = hi).
    { intros hi lo Hhi Hlo. rewrite Z.shiftr_div_pow2 by lia. change (2 ^ 8) with 256.
      rewrite Z.div_add_l by lia. rewrite Z.div_small by lia. lia. }
    assert (Hlo : forall hi lo, 0 <= hi < 256 -> 0 <= lo < 256 ->
                   byte_of_Z (hi * 256 + lo) = byte_of_Z lo).
    { intros hi lo Hh Hl. unfold byte_of_Z.
      rewrite Z.add_comm, Z.mod_add by lia. reflexivity. }
    rewrite !Hhi, !Hlo, !byte_of_to_Z by assumption. reflexivity.
Qed.

(** ** Question round trip *)

Lemma Question_Pack_wf (q : Question) :
  Question_wf q -> Question_Pack q = Ok (Question_wire q).
Proof.
  intros (Hname & _ & _). unfold Question_Pack.
  rewrite EncodeDomainName_short.
  - cbn [bind]. unfold Question_wire. rewrite <- !app_assoc. reflexivity.
  - eapply Forall_impl; [|exact Hname]. simpl. intros; lia.
Qed.

Lemma len_Question_wire (q : Question) : len (Question_wire q) = strlen q.(QName) + 6.
Proof.
  unfold Question_wire. rewrite !len_app, len_wire_labels_Split.
  unfold PutUint16, len. simpl List.length. lia.
Qed.

Lemma parseQuestion_wire (q : Question) (pre post : list byte) (fuel : nat) :
  Question_wf q ->
  (List.length (Split q.(QName) ".") < fuel)%nat ->
  parseQuestion fuel (pre ++ Question_wire q ++ post) (len pre)
  = Ok (q, len (Question_wire q)).
Proof.
  intros (Hname & Htype & Hclass) Hfuel.
  pose proof (len_Question_wire q) as Hlen.
  pose proof (len_nonneg pre) as Hpre. pose proof (len_nonneg post) as Hpost.
  unfold parseQuestion, DecodeDomainName.
  set (segments := Split q.(QName) ".") in *.
  set (t0 := byte_of_Z (Z.shiftr q.(QType) 8)). set (t1 := byte_of_Z q.(QType)).
  set (c0 := byte_of_Z (Z.shiftr q.(QClass) 8)). set (c1 := byte_of_Z q.(QClass)).
  assert (Emsg : pre ++ Question_wire q ++ post
                 = pre ++ wire_labels segments ++ x00 :: (t0 :: t1 :: c0 :: c1 :: post)).
  { unfold Question_wire, PutUint16. fold segments. fold t0 t1 c0 c1.
    rewrite <- !app_assoc. reflexivity. }
  rewrite Emsg.
  rewrite (DecodeDomainName_loop_labels segments fuel pre _ (len pre) [] 0 Hname Hfuel).
  cbn [bind app].
  assert (Hwire : len (wire_labels segments) = strlen q.(QName) + 1)
    by apply len_wire_labels_Split.
  set (nameLen := len pre + len (wire_labels segments) + 1 - len pre).
  assert (Hoff : len pre + nameLen = len (pre ++ wire_labels segments ++ [x00])).
  { subst nameLen. rewrite !len_app. change (len [x00]) with 1. lia. }
  zcase.
  { exfalso. rewrite !len_app, !len_cons in *. subst nameLen. lia. }
  assert (Et : u16_at (pre ++ wire_labels segments ++ x00 :: t0 :: t1 :: c0 :: c1 :: post)
                 (len pre + nameLen) = Ok q.(QType)).
  { rewrite Hoff.
    replace (pre ++ wire_labels segments ++ x00 :: t0 :: t1 :: c0 :: c1 :: post)
      with ((pre ++ wire_labels segments ++ [x00]) ++ t0 :: t1 :: c0 :: c1 :: post)
      by (rewrite <- !app_assoc; reflexivity).
    rewrite u16_at_app. subst t0 t1. rewrite PutUint16_value by exact Htype. reflexivity. }
  assert (Ec : u16_at (pre ++ wire_labels segments ++ x00 :: t0 :: t1 :: c0 :: c1 :: post)
                 (len pre + nameLen + 2) = Ok q.(QClass)).
  { replace (len pre + nameLen + 2)
      with (len ((pre ++ wire_labels segments ++ [x00]) ++ [t0; t1]))
      by (rewrite len_app, <- Hoff; reflexivity).
    replace (pre ++ wire_labels segments ++ x00 :: t0 :: t1 :: c0 :: c1 :: post)
      with (((pre ++ wire_labels segments ++ [x00]) ++ [t0; t1]) ++ c0 :: c1 :: post)
      by (rewrite <- !app_assoc; reflexivity).
    rewrite u16_at_app. subst c0 c1. rewrite PutUint16_value by exact Hclass. reflexivity. }
  rewrite Et. cbn [bind]. rewrite Ec. cbn [bind].
  subst segments. rewrite (Join_Split q.(QName) ".").
  replace (nameLen + 4) with (len (Question_wire q)) by (subst nameLen; lia).
  destruct q; reflexivity.
Qed.

(** X5: A question whose labels have 1 to 63 bytes packs into the name's
    length plus 6 bytes, and [parseQuestion] reads it back, with that byte
    count, wherever the packed bytes lie in a message. *)
Theorem Question_Pack_parseQuestion_roundtrip (q : Question) (pre post : list byte)
    (fuel : nat) :
  Question_wf q ->
  (List.length (Split q.(QName) ".") < fuel)%nat ->
  exists packed,
    Question_Pack q = Ok packed
    /\ len packed = strlen q.(QName) + 6
    /\ parseQuestion fuel (pre ++ packed ++ post) (len pre) = Ok (q, len packed).
Proof.
  intros Hwf Hfuel. exists (Question_wire q).
  split; [exact (Question_Pack_wf q Hwf)|].
  split; [exact (len_Question_wire q)|].
  exact (parseQuestion_wire q pre post fuel Hwf Hfuel).
Qed.

Lemma example_question_wf : Question_wf (mkQuestion "example.com" TypeA 1).
Proof.
  split; [|split; unfold is_uint16, TypeA; simpl; lia].
  repeat constructor; unfold strlen; simpl; lia.
Qed.

Lemma Question_Pack_parseQuestion_roundtrip_witness :
  exists packed,
    Question_Pack (mkQuestion "example.com" TypeA 1) = Ok packed
    /\ len packed = strlen "example.com" + 6
    /\ parseQuestion 3 (wire_header 0x1234 0x0100 1 0 0 0 ++ packed ++ [])
         (len (wire_header 0x1234 0x0100 1 0 0 0))
       = Ok (mkQuestion "example.com" TypeA 1, len packed).
Proof.
  apply (Question_Pack_parseQuestion_roundtrip (mkQuestion "example.com" TypeA 1)
           (wire_header 0x1234 0x0100 1 0 0 0) [] 3).
  - exact example_question_wf.
  - simpl. lia.
Defined.

(** The question loop of [parseResponse] on questions packed back to
    back. *)
Lemma parseResponse_questions_wire (questions : list Question) :
  forall fuel pre post i msg,
    Forall Question_wf questions ->
    Forall (fun q => (List.length (Split q.(QName) ".") < fuel)%nat) questions ->
    parseResponse_questions fuel (pre ++ List.concat (map Question_wire questions) ++ post)
      (List.length questions) i msg (len pre)
    = Ok (mkDNSMessage msg.(MsgHeader) (msg.(Questions) ++ questions) msg.(Answers)
            msg.(Authority) msg.(Additional),
          len pre + len (List.concat (map Question_wire questions))).
Proof.
  induction questions as [|q rest IH]; intros fuel pre post i msg Hwf Hfuel.
  - cbn [List.length parseResponse_questions map List.concat].
    rewrite app_nil_r. change (len (@nil byte)) with 0. rewrite Z.add_0_r.
    destruct msg; reflexivity.
  - inversion Hwf as [|? ? Hq Hrest]; subst. inversion Hfuel as [|? ? Hfq Hfrest]; subst.
    cbn [List.length parseResponse_questions map List.concat].
    rewrite <- app_assoc.
    rewrite (parseQuestion_wire q pre _ fuel Hq Hfq). cbn [wrap bind].
    rewrite <- len_app, app_assoc.
    rewrite (IH fuel (pre ++ Question_wire q) post (i + 1) _ Hrest Hfrest).
    cbn [MsgHeader Questions Answers Authority Additional].
    rewrite <- app_assoc, !len_app. cbn [app].
    f_equal. f_equal. lia.
Qed.

(** X6: [parseResponse] reads back, in order, any number of well-formed
    questions that follow the header back to back (the header declaring
    them and no answer), whatever bytes come after them. *)
Theorem parseResponse_reads_packed_questions (h : Header) (questions : list Question)
    (post : list byte) (fuel : nat) :
  Header_wf h ->
  Z.land h.(Flags) 0x000F <> 2 ->
  Z.land h.(Flags) 0x000F <> 3 ->
  h.(QDCOUNT) = len questions ->
  h.(ANCOUNT) = 0 ->
  Forall Question_wf questions ->
  Forall (fun q => (List.length (Split q.(QName) ".") < fuel)%nat) questions ->
  parseResponse fuel
    (wire_header h.(ID) h.(Flags) h.(QDCOUNT) h.(ANCOUNT) h.(NSCOUNT) h.(ARCOUNT)
     ++ List.concat (map Question_wire questions) ++ post)
  = Ok (mkDNSMessage h questions [] [] []).
Proof.
  intros Hh Hc2 Hc3 Hqd Han Hwf Hfuel.
  unfold parseResponse.
  rewrite (UnpackHeader_Header_Pack h _ Hh). cbn [bind]. cbv zeta.
  destruct (Z.eqb_spec (Z.land (Flags h) 15) 2) as [?|_]; [contradiction|].
  destruct (Z.eqb_spec (Z.land (Flags h) 15) 3) as [?|_]; [contradiction|].
  rewrite Hqd at 2. unfold len at 1. rewrite Nat2Z.id.
  change 12 with (len (wire_header h.(ID) h.(Flags) h.(QDCOUNT) h.(ANCOUNT)
                         h.(NSCOUNT) h.(ARCOUNT))) at 1.
  rewrite (parseResponse_questions_wire questions fuel _ post 0 _ Hwf Hfuel).
  cbn [bind]. rewrite Han at 2. reflexivity.
Qed.

Lemma parseResponse_reads_packed_questions_witness :
  parseResponse 4
    (wire_header 0x1234 0x8180 3 0 5 9
     ++ List.concat (map Question_wire
                       [mkQuestion "example.com" TypeA 1;
                        mkQuestion "www.example.org" TypeAAAA 1;
                        mkQuestion "a.b" TypeMX 3])
     ++ [xc0; x0c; xff])
  = Ok (mkDNSMessage (mkHeader 0x1234 0x8180 3 0 5 9)
          [mkQuestion "example.com" TypeA 1;
           mkQuestion "www.example.org" TypeAAAA 1;
           mkQuestion "a.b" TypeMX 3] [] [] []).
Proof.
  apply (parseResponse_reads_packed_questions
           (mkHeader 0x1234 0x8180 3 0 5 9)
           [mkQuestion "example.com" TypeA 1;
            mkQuestion "www.example.org" TypeAAAA 1;
            mkQuestion "a.b" TypeMX 3]
           [xc0; x0c; xff] 4).
  - unfold Header_wf, is_uint16. vm_compute. repeat split; discriminate.
  - simpl. lia.
  - simpl. lia.
  - reflexivity.
  - reflexivity.
  - repeat constructor; unfold strlen, is_uint16, TypeA, TypeAAAA, TypeMX; simpl; lia.
  - repeat constructor; simpl; lia.
Defined.

(** ** Safety of the parsers *)

Lemma u16_at_Ok_or_Panic (message : list byte) (off : Z) :
  (exists v, u16_at message off = Ok v) \/ u16_at message off = Panic.
Proof.
  unfold u16_at. destruct (slice message off (off + 2)) as [bs|]; cbn [must bind];
    [|right; reflexivity].
  destruct (Uint16 bs) as [v|]; cbn [must]; [left; eexists; reflexivity|right; reflexivity].
Qed.

Lemma parseQuestion_Ok_bounds fuel message offset q n :
  parseQuestion fuel message offset = Ok (q, n) ->
  0 <= offset /\ 5 <= n /\ offset + n <= len message.
Proof.
  unfold parseQuestion.
  destruct (DecodeDomainName fuel message offset) as [[name nameLen]| | |] eqn:Ename;
    cbn [bind]; try discriminate.
  destruct (DecodeDomainName_consumed _ _ _ _ _ Ename) as (Hoff & Hpos & Hend).
  zcase; [discriminate|].
  destruct (u16_at message (offset + nameLen)) as [t| | |]; cbn [bind]; try discriminate.
  destruct (u16_at message (offset + nameLen + 2)) as [c| | |]; cbn [bind]; try discriminate.
  intros E. injection E as _ <-. lia.
Qed.

Lemma parseQuestion_no_panic fuel message offset :
  0 <= offset -> parseQuestion fuel message offset <> Panic.
Proof.
  intros Hoff. unfold parseQuestion.
  destruct (DecodeDomainName fuel message offset) as [[name nameLen]| | |] eqn:Ename;
    cbn [bind]; try discriminate.
  - destruct (DecodeDomainName_consumed _ _ _ _ _ Ename) as (_ & Hpos & Hend).
    zcase; [discriminate|].
    destruct (u16_at_in_range message (offset + nameLen)) as (t & -> & _); [lia|lia|].
    destruct (u16_at_in_range message (offset + nameLen + 2)) as (c & -> & _); [lia|lia|].
    discriminate.
  - exfalso. exact (DecodeDomainName_no_panic _ _ _ Hoff Ename).
Qed.

(** X8: [parseQuestion] keeps inside the message: from a non-negative offset it
    never indexes out of range, and a question it returns took at least 5
    bytes that all lie in the message. *)
Theorem parseQuestion_bounds fuel message offset :
  (0 <= offset -> parseQuestion fuel message offset <> Panic)
  /\ (forall q n,
        parseQuestion fuel message offset = Ok (q, n) ->
        0 <= offset /\ 5 <= n /\ offset + n <= len message).
Proof.
  split.
  - apply parseQuestion_no_panic.
  - intros q n. apply parseQuestion_Ok_bounds.
Qed.

Lemma ParseResourceRecord_Ok_bounds fuel message offset rr k :
  ParseResourceRecord fuel message offset = Ok (rr, k) ->
  0 <= offset /\ offset + 11 <= k /\ k <= len message.
Proof.
  intros E.
  destruct (DecodeDomainName fuel message offset) as [[name nameLen]| | |] eqn:Ename;
    try (unfold ParseResourceRecord in E; rewrite Ename in E; discriminate E).
  destruct (DecodeDomainName_consumed _ _ _ _ _ Ename) as (Hoff & Hpos & Hend).
  destruct (ParseResourceRecord_after_name _ _ _ _ _ Ename) as [Hshort Hlong].
  destruct (Z.lt_ge_cases (len message - (offset + nameLen)) 10) as [Hlt|Hge].
  { rewrite (Hshort Hlt) in E. discriminate E. }
  destruct (Hlong Hge) as (t & c & ttl & l & _ & _ & _ & El & Hover & Hfit).
  destruct (u16_at_in_range message (offset + nameLen + 8)) as (l' & El' & Hl'); [lia|lia|].
  assert (l' = l) by congruence. subst l'.
  destruct (Z.lt_ge_cases (len message - (offset + nameLen + 10)) l) as [Hlt|Hge'].
  { rewrite (Hover Hlt) in E. discriminate E. }
  destruct (Hfit Hge') as (rdata & _ & _ & E').
  rewrite E' in E. injection E as _ <-. lia.
Qed.

Lemma ParseResourceRecord_no_panic fuel message offset :
  0 <= offset -> ParseResourceRecord fuel message offset <> Panic.
Proof.
  intros Hoff.
  destruct (DecodeDomainName fuel message offset) as [[name nameLen]|e| |] eqn:Ename.
  - destruct (ParseResourceRecord_after_name _ _ _ _ _ Ename) as [Hshort Hlong].
    destruct (Z.lt_ge_cases (len message - (offset + nameLen)) 10) as [Hlt|Hge].
    + rewrite Hshort by exact Hlt. discriminate.
    + destruct (Hlong Hge) as (t & c & ttl & l & _ & _ & _ & _ & Hover & Hfit).
      destruct (Z.lt_ge_cases (len message - (offset + nameLen + 10)) l) as [Hlt|Hge'].
      * rewrite Hover by exact Hlt. discriminate.
      * destruct (Hfit Hge') as (rdata & _ & _ & ->). discriminate.
  - unfold ParseResourceRecord. rewrite Ename. discriminate.
  - exfalso. exact (DecodeDomainName_no_panic _ _ _ Hoff Ename).
  - unfold ParseResourceRecord. rewrite Ename. discriminate.
Qed.

Lemma parseResponse_questions_no_panic fuel response n :
  forall i msg offset,
    0 <= offset -> parseResponse_questions fuel response n i msg offset <> Panic.
Proof.
  induction n as [|n IH]; intros i msg offset Hoff; [discriminate|].
  cbn [parseResponse_questions].
  pose proof (parseQuestion_no_panic fuel response offset Hoff) as Hq.
  destruct (parseQuestion fuel response offset) as [[q k]| | |] eqn:Eq;
    cbn [wrap bind]; try discriminate; [|congruence].
  apply parseQuestion_Ok_bounds in Eq. apply IH. lia.
Qed.

Lemma parseResponse_questions_offset fuel response n :
  forall i msg offset msg' offset',
    0 <= offset ->
    parseResponse_questions fuel response n i msg offset = Ok (msg', offset') ->
    0 <= offset'.
Proof.
  induction n as [|n IH]; intros i msg offset msg' offset' Hoff E.
  - injection E as _ <-. exact Hoff.
  - cbn [parseResponse_questions] in E.
    destruct (parseQuestion fuel response offset) as [[q k]| | |] eqn:Eq;
      try discriminate E.
    cbn [wrap bind] in E. apply parseQuestion_Ok_bounds in Eq.
    apply IH in E; [exact E|lia].
Qed.

Lemma parseResponse_answers_no_panic fuel response n :
  forall i msg offset,
    0 <= offset -> parseResponse_answers fuel response n i msg offset <> Panic.
Proof.
  induction n as [|n IH]; intros i msg offset Hoff; [discriminate|].
  cbn [parseResponse_answers].
  pose proof (ParseResourceRecord_no_panic fuel response offset Hoff) as Hrr.
  destruct (ParseResourceRecord fuel response offset) as [[rr k]| | |] eqn:Er;
    cbn [wrap bind]; try discriminate; [|congruence].
  apply ParseResourceRecord_Ok_bounds in Er. apply IH. lia.
Qed.

Lemma UnpackHeader_Ok_or_short (data : list byte) :
  (exists h, UnpackHeader data = Ok h) \/ UnpackHeader data = Err ErrHeaderTooShort.
Proof.
  destruct (Z.lt_ge_cases (len data) 12) as [Hlt|Hge].
  - right. unfold UnpackHeader. zcase; [reflexivity|lia].
  - left.
    destruct data as [|b0 [|b1 [|b2 [|b3 [|b4 [|b5 [|b6 [|b7 [|b8 [|b9 [|b10 [|b11 rest]]]]]]]]]]]];
      try (unfold len in *; simpl List.length in *; lia).
    rewrite UnpackHeader_fields. eexists. reflexivity.
Qed.

Lemma parseResponse_no_panic fuel response : parseResponse fuel response <> Panic.
Proof.
  unfold parseResponse.
  destruct (UnpackHeader_Ok_or_short response) as [[h ->]| ->]; [|discriminate].
  cbn [bind]. cbv zeta.
  destruct (Z.land (Flags h) 15 =? 2); [discriminate|].
  destruct (Z.land (Flags h) 15 =? 3); [discriminate|].
  pose proof (parseResponse_questions_no_panic fuel response (Z.to_nat (QDCOUNT h)) 0
                (mkDNSMessage h [] [] [] []) 12 ltac:(lia)) as Hq.
  destruct (parseResponse_questions fuel response _ _ _ _) as [[m1 o1]| | |] eqn:Eq;
    cbn [bind]; try discriminate; [|congruence].
  apply parseResponse_questions_offset in Eq; [|lia].
  pose proof (parseResponse_answers_no_panic fuel response (Z.to_nat (ANCOUNT h)) 0 m1 o1 Eq)
    as Ha.
  destruct (parseResponse_answers fuel response _ _ _ _) as [[m2 o2]| | |];
    cbn [bind]; try discriminate. congruence.
Qed.

Lemma EncodeDomainName_Ok_or_Err (domain : string) :
  (exists enc, EncodeDomainName domain = Ok enc)
  \/ (exists e, EncodeDomainName domain = Err e).
Proof.
  destruct (segments_short_or_long (Split domain ".")) as [Hall|Hex].
  - left. eexists. apply EncodeDomainName_short. exact Hall.
  - right. unfold EncodeDomainName.
    pose proof (EncodeDomainName_segments_long _ [] Hex) as E.
    destruct (EncodeDomainName_segments (Split domain ".") []); try discriminate E.
    eexists. reflexivity.
Qed.

(** [buildQuery] by cases on the random bytes and on the encoding of the
    name. *)
Lemma buildQuery_cases w r domainName recordType :
  buildQuery w r domainName recordType
  = match w.(rand_Read) with
    | Ok (b0, b1) =>
        match EncodeDomainName domainName with
        | Ok encodedName =>
            Ok (wire_header (byte_to_Z b0 * 256 + byte_to_Z b1) 0x0100 1 0 0 0
                ++ encodedName ++ PutUint16 recordType ++ PutUint16 1,
                byte_to_Z b0 * 256 + byte_to_Z b1)
        | Err e => Err e
        | Panic => Panic
        | OutOfFuel => OutOfFuel
        end
    | Err e => Err (ErrRandomID e)
    | Panic => Panic
    | OutOfFuel => OutOfFuel
    end.
Proof.
  unfold buildQuery, Header_Pack, Question_Pack.
  cbn [QName QType QClass ID Flags QDCOUNT ANCOUNT NSCOUNT ARCOUNT].
  destruct (rand_Read w) as [[b0 b1]| | |]; cbn [wrap bind]; try reflexivity.
  rewrite Uint16_pair. cbn [must bind].
  pose proof (byte_to_Z_range b0). pose proof (byte_to_Z_range b1).
  rewrite lor_shiftl_8 by lia.
  destruct (EncodeDomainName domainName); reflexivity.
Qed.

(** X12: No response makes [parseResponse] index or slice out of range, and
    [Resolve] panics only if a call to the outside (random source or
    network) does. *)
Theorem parseResponse_never_panics :
  (forall fuel response, parseResponse fuel response <> Panic)
  /\ (forall w fuel r domainName recordType,
        w.(rand_Read) <> Panic ->
        (forall addr, w.(net_Dial) addr <> Panic) ->
        (forall query, w.(conn_Write) query <> Panic) ->
        (forall query, w.(conn_Read) query <> Panic) ->
        Resolve w fuel r domainName recordType <> Panic).
Proof.
  split; [exact parseResponse_no_panic|].
  intros w fuel r domainName recordType Hrand Hdial Hwrite Hread.
  unfold Resolve. rewrite buildQuery_cases.
  destruct (rand_Read w) as [[b0 b1]| | |]; cbn [wrap bind]; try discriminate; [|congruence].
  destruct (EncodeDomainName_Ok_or_Err domainName) as [[enc ->]|[e ->]];
    cbn [wrap bind]; [|discriminate].
  unfold sendQuery.
  specialize (Hdial (ServerAddr r)).
  destruct (net_Dial w (ServerAddr r)) as [[]| | |]; cbn [wrap bind]; try discriminate;
    [|congruence].
  match goal with
  | |- context [conn_Write w ?q] =>
      specialize (Hwrite q); specialize (Hread q);
      destruct (conn_Write w q) as [[]| | |]; cbn [wrap bind]; try discriminate;
      [|congruence];
      destruct (conn_Read w q) as [datagram| | |]; cbn [wrap bind]; try discriminate;
      [|congruence]
  end.
  pose proof (parseResponse_no_panic fuel (firstn 512 datagram)) as Hp.
  destruct (parseResponse fuel (firstn 512 datagram)) as [msg| | |];
    cbn [wrap bind]; try discriminate; [|congruence].
  destruct (negb _); discriminate.
Qed.

(** ** Queries *)

Lemma uint16_of_bytes (b0 b1 : byte) : is_uint16 (byte_to_Z b0 * 256 + byte_to_Z b1).
Proof.
  pose proof (byte_to_Z_range b0). pose proof (byte_to_Z_range b1).
  unfold is_uint16. lia.
Qed.

(** The header bytes of a query: the random id's two bytes come back as
    they were read, then the RD flag and one question. *)
Lemma wire_header_random_id (b0 b1 : byte) :
  wire_header (byte_to_Z b0 * 256 + byte_to_Z b1) 0x0100 1 0 0 0
  = [b0; b1; x01; x00; x00; x01; x00; x00; x00; x00; x00; x00].
Proof.
  pose proof (byte_to_Z_range b0) as H0. pose proof (byte_to_Z_range b1) as H1.
  unfold wire_header. unfold PutUint16 at 1.
  rewrite Z.shiftr_div_pow2 by lia. change (2 ^ 8) with 256.
  replace ((byte_to_Z b0 * 256 + byte_to_Z b1) / 256) with (byte_to_Z b0)
    by (apply Z.div_unique with (r := byte_to_Z b1); lia).
  rewrite byte_of_to_Z.
  replace (byte_of_Z (byte_to_Z b0 * 256 + byte_to_Z b1)) with b1; [reflexivity|].
  rewrite <- (byte_of_to_Z b1) at 1. unfold byte_of_Z.
  rewrite Z.add_comm, Z.mod_add by lia. reflexivity.
Qed.

(** X7: A query built for a name whose labels have 1 to 63 bytes is what
    [Header.Pack] gives for the header with the random id, the RD flag
    alone and one question (its twelve bytes), followed by what
    [Question.Pack] gives for the question asked (the labels with their
    length bytes, the root label, the type and the class 1): the name's
    length plus 18 bytes in all. It parses back to a message with that
    header and that one question. *)
Theorem buildQuery_parses_back w r domainName recordType b0 b1 fuel :
  w.(rand_Read) = Ok (b0, b1) ->
  Question_wf (mkQuestion domainName recordType 1) ->
  (List.length (Split domainName ".") < fuel)%nat ->
  exists headerBytes questionBytes,
    Header_Pack (mkHeader (byte_to_Z b0 * 256 + byte_to_Z b1) 0x0100 1 0 0 0)
    = Ok headerBytes
    /\ headerBytes = [b0; b1; x01; x00; x00; x01; x00; x00; x00; x00; x00; x00]
    /\ Question_Pack (mkQuestion domainName recordType 1) = Ok questionBytes
    /\ questionBytes
       = wire_labels (Split domainName ".") ++ [x00]
         ++ PutUint16 recordType ++ [x00; x01]
    /\ buildQuery w r domainName recordType
       = Ok (headerBytes ++ questionBytes, byte_to_Z b0 * 256 + byte_to_Z b1)
    /\ len (headerBytes ++ questionBytes) = strlen domainName + 18
    /\ parseResponse fuel (headerBytes ++ questionBytes)
       = Ok (mkDNSMessage (mkHeader (byte_to_Z b0 * 256 + byte_to_Z b1) 0x0100 1 0 0 0)
               [mkQuestion domainName recordType 1] [] [] []).
Proof.
  intros Hrand Hwf Hfuel.
  set (id := byte_to_Z b0 * 256 + byte_to_Z b1).
  set (q := mkQuestion domainName recordType 1) in *.
  exists (wire_header id 0x0100 1 0 0 0), (Question_wire q).
  assert (Hname : Forall (fun segment => strlen segment <= 63) (Split domainName ".")).
  { destruct Hwf as (Hn & _). eapply Forall_impl; [|exact Hn]. simpl. intros; lia. }
  split; [reflexivity|].
  split; [exact (wire_header_random_id b0 b1)|].
  split; [exact (Question_Pack_wf q Hwf)|].
  split; [reflexivity|].
  split; [|split].
  - rewrite buildQuery_cases, Hrand, (EncodeDomainName_short _ Hname).
    unfold Question_wire. subst q. cbn [QName QType QClass].
    rewrite <- !app_assoc. reflexivity.
  - rewrite len_app, len_Question_wire. subst q. cbn [QName].
    change (len (wire_header id 256 1 0 0 0)) with 12. lia.
  - unfold parseResponse.
    assert (Hh : Header_wf (mkHeader id 0x0100 1 0 0 0)).
    { unfold Header_wf. cbn [ID Flags QDCOUNT ANCOUNT NSCOUNT ARCOUNT].
      split; [apply uint16_of_bytes|]. unfold is_uint16. lia. }
    rewrite (UnpackHeader_Header_Pack (mkHeader id 0x0100 1 0 0 0) _ Hh).
    cbn [bind Flags QDCOUNT ANCOUNT]. cbv zeta.
    change (Z.land 256 15 =? 2) with false. change (Z.land 256 15 =? 3) with false.
    cbv iota.
    change (Z.to_nat 1) with (List.length [q]).
    change 12 with (len (wire_header id 0x0100 1 0 0 0)) at 1.
    replace (wire_header id 256 1 0 0 0 ++ Question_wire q)
      with (wire_header id 256 1 0 0 0 ++ List.concat (map Question_wire [q]) ++ [])
      by (cbn [map List.concat]; rewrite !app_nil_r; reflexivity).
    rewrite (parseResponse_questions_wire [q] fuel _ [] 0 _).
    + reflexivity.
    + constructor; [exact Hwf|constructor].
    + constructor; [exact Hfuel|constructor].
Qed.

Lemma buildQuery_parses_back_witness :
  exists headerBytes questionBytes,
    Header_Pack (mkHeader (byte_to_Z x12 * 256 + byte_to_Z x34) 0x0100 1 0 0 0)
    = Ok headerBytes
    /\ headerBytes = [x12; x34; x01; x00; x00; x01; x00; x00; x00; x00; x00; x00]
    /\ Question_Pack (mkQuestion "www.example.org" TypeAAAA 1) = Ok questionBytes
    /\ questionBytes
       = wire_labels (Split "www.example.org" ".") ++ [x00]
         ++ PutUint16 TypeAAAA ++ [x00; x01]
    /\ buildQuery (world_of x12 x34 []) (NewResolver "8.8.8.8:53") "www.example.org" TypeAAAA
       = Ok (headerBytes ++ questionBytes, byte_to_Z x12 * 256 + byte_to_Z x34)
    /\ len (headerBytes ++ questionBytes) = strlen "www.example.org" + 18
    /\ parseResponse 4 (headerBytes ++ questionBytes)
       = Ok (mkDNSMessage (mkHeader (byte_to_Z x12 * 256 + byte_to_Z x34) 0x0100 1 0 0 0)
               [mkQuestion "www.example.org" TypeAAAA 1] [] [] []).
Proof.
  apply (buildQuery_parses_back (world_of x12 x34 []) (NewResolver "8.8.8.8:53")
           "www.example.org" TypeAAAA x12 x34 4).
  - reflexivity.
  - repeat constructor; unfold strlen, is_uint16, TypeAAAA; simpl; lia.
  - simpl. lia.
Defined.

(** ** Outcomes of a resolution *)

Lemma parseResponse_questions_Err fuel response n :
  forall i msg offset e,
    parseResponse_questions fuel response n i msg offset = Err e ->
    exists j e', e = ErrParseQuestion j e'.
Proof.
  induction n as [|n IH]; intros i msg offset e E; [discriminate|].
  cbn [parseResponse_questions] in E.
  destruct (parseQuestion fuel response offset) as [[q k]|e0| |]; cbn [wrap bind] in E;
    try discriminate E.
  - exact (IH _ _ _ _ E).
  - injection E as <-. eauto.
Qed.

Lemma parseResponse_answers_Err fuel response n :
  forall i msg offset e,
    parseResponse_answers fuel response n i msg offset = Err e ->
    exists j e', e = ErrParseAnswer j e'.
Proof.
  induction n as [|n IH]; intros i msg offset e E; [discriminate|].
  cbn [parseResponse_answers] in E.
  destruct (ParseResourceRecord fuel response offset) as [[rr k]|e0| |]; cbn [wrap bind] in E;
    try discriminate E.
  - exact (IH _ _ _ _ E).
  - injection E as <-. eauto.
Qed.

(** The errors of [parseResponse], by cases. *)
Lemma parseResponse_Err_inv fuel response e :
  parseResponse fuel response = Err e ->
  (e = ErrHeaderTooShort /\ len response < 12)
  \/ (exists h, UnpackHeader response = Ok h
                /\ ((e = ErrServerFailed /\ Z.land h.(Flags) 0x000F = 2)
                    \/ (e = ErrNameNotFound /\ Z.land h.(Flags) 0x000F = 3)
                    \/ (Z.land h.(Flags) 0x000F <> 2 /\ Z.land h.(Flags) 0x000F <> 3
                        /\ ((exists j e', e = ErrParseQuestion j e')
                            \/ (exists j e', e = ErrParseAnswer j e'))))).
Proof.
  unfold parseResponse.
  destruct (UnpackHeader_Ok_or_short response) as [[h Eh]|Eh]; rewrite Eh; cbn [bind].
  - cbv zeta. intros E. right. exists h. split; [reflexivity|]. revert E.
    zcase; [intros E; injection E as <-; left; split; [reflexivity|assumption]|].
    zcase; [intros E; injection E as <-; right; left; split; [reflexivity|assumption]|].
    intros E. right. right. split; [assumption|]. split; [assumption|].
    destruct (parseResponse_questions fuel response _ _ _ _) as [[m1 o1]|e1| |] eqn:Eq;
      cbn [bind] in E; try discriminate E.
    + destruct (parseResponse_answers fuel response _ _ _ _) as [[m2 o2]|e2| |] eqn:Ea;
        cbn [bind] in E; try discriminate E.
      injection E as <-. right. exact (parseResponse_answers_Err _ _ _ _ _ _ _ Ea).
    + injection E as <-. left. exact (parseResponse_questions_Err _ _ _ _ _ _ _ Eq).
  - intros E. injection E as <-. left. split; [reflexivity|].
    destruct (Z.lt_ge_cases (len response) 12) as [Hlt|Hge]; [exact Hlt|].
    exfalso. unfold UnpackHeader in Eh. revert Eh. zcase; [lia|].
    destruct response as [|b0 [|b1 [|b2 [|b3 [|b4 [|b5 [|b6 [|b7 [|b8 [|b9 [|b10 [|b11 rest]]]]]]]]]]]];
      try (unfold len in *; simpl List.length in *; lia).
    pose proof (UnpackHeader_fields b0 b1 b2 b3 b4 b5 b6 b7 b8 b9 b10 b11 rest) as E.
    unfold UnpackHeader in E. revert E. zcase; [lia|]. intros ->. discriminate.
Qed.

(** X14: [Resolve] fails with the wrapped name-not-found error exactly when the
    query was built and sent and the header of the response carries
    response code 3, and with the wrapped server-failure error exactly when
    it carries response code 2: no other failure gives these errors. *)
Theorem Resolve_sentinel_errors_iff w fuel r domainName recordType :
  (Resolve w fuel r domainName recordType = Err (ErrParseResponse ErrNameNotFound)
   <-> exists query queryID response h,
         buildQuery w r domainName recordType = Ok (query, queryID)
         /\ sendQuery w r query = Ok response
         /\ UnpackHeader response = Ok h
         /\ Z.land h.(Flags) 0x000F = 3)
  /\ (Resolve w fuel r domainName recordType = Err (ErrParseResponse ErrServerFailed)
      <-> exists query queryID response h,
            buildQuery w r domainName recordType = Ok (query, queryID)
            /\ sendQuery w r query = Ok response
            /\ UnpackHeader response = Ok h
            /\ Z.land h.(Flags) 0x000F = 2).
Proof.
  split; split.
  - unfold Resolve. intros E.
    destruct (buildQuery w r domainName recordType) as [[query queryID]| | |] eqn:Eq;
      cbn [wrap bind] in E; try discriminate E.
    destruct (sendQuery w r query) as [response| | |] eqn:Es; cbn [wrap bind] in E;
      try discriminate E.
    destruct (parseResponse fuel response) as [msg|e| |] eqn:Ep; cbn [wrap bind] in E;
      try discriminate E.
    { destruct (negb _); discriminate E. }
    injection E as ->.
    destruct (parseResponse_Err_inv _ _ _ Ep)
      as [[Habs _]|(h & Eh & [[Habs _]|[[_ Hc]|(_ & _ & [(j & e' & Habs)|(j & e' & Habs)])]])];
      try discriminate Habs.
    exists query, queryID, response, h. repeat split; try assumption; reflexivity.
  - intros (query & queryID & response & h & Eq & Es & Eh & Hc).
    unfold Resolve. rewrite Eq. cbn [wrap bind]. rewrite Es. cbn [wrap bind].
    rewrite (parseResponse_rcode_3 _ _ _ Eh Hc). reflexivity.
  - unfold Resolve. intros E.
    destruct (buildQuery w r domainName recordType) as [[query queryID]| | |] eqn:Eq;
      cbn [wrap bind] in E; try discriminate E.
    destruct (sendQuery w r query) as [response| | |] eqn:Es; cbn [wrap bind] in E;
      try discriminate E.
    destruct (parseResponse fuel response) as [msg|e| |] eqn:Ep; cbn [wrap bind] in E;
      try discriminate E.
    { destruct (negb _); discriminate E. }
    injection E as ->.
    destruct (parseResponse_Err_inv _ _ _ Ep)
      as [[Habs _]|(h & Eh & [[_ Hc]|[[Habs _]|(_ & _ & [(j & e' & Habs)|(j & e' & Habs)])]])];
      try discriminate Habs.
    exists query, queryID, response, h. repeat split; try assumption; reflexivity.
  - intros (query & queryID & response & h & Eq & Es & Eh & Hc).
    unfold Resolve. rewrite Eq. cbn [wrap bind]. rewrite Es. cbn [wrap bind].
    rewrite (parseResponse_rcode_2 _ _ _ Eh Hc). reflexivity.
Qed.

Lemma parseResponse_Ok_rcode fuel response msg :
  parseResponse fuel response = Ok msg ->
  Z.land msg.(MsgHeader).(Flags) 0x000F <> 2 /\ Z.land msg.(MsgHeader).(Flags) 0x000F <> 3.
Proof.
  intros E. destruct (parseResponse_Ok_inv _ _ _ E) as (Eh & _).
  unfold parseResponse in E. rewrite Eh in E. cbn [bind] in E. cbv zeta in E.
  revert E. zcase; [discriminate|]. zcase; [discriminate|]. intros _. split; assumption.
Qed.

Lemma sendQuery_Ok_len w r query response :
  sendQuery w r query = Ok response ->
  len response <= 512
  /\ exists datagram, w.(conn_Read) query = Ok datagram /\ response = firstn 512 datagram.
Proof.
  unfold sendQuery.
  destruct (net_Dial w (ServerAddr r)) as [[]| | |]; cbn [wrap bind]; try discriminate.
  destruct (conn_Write w query) as [[]| | |]; cbn [wrap bind]; try discriminate.
  destruct (conn_Read w query) as [datagram| | |]; cbn [wrap bind]; try discriminate.
  intros E. assert (Er : response = firstn 512 datagram) by congruence.
  split.
  - rewrite Er. unfold len. rewrite length_firstn. lia.
  - exists datagram. split; [reflexivity|exact Er].
Qed.

(** X15: A message that [Resolve] returns was parsed from at most the first 512
    bytes of the datagram, carries the id made of the two random bytes of
    the query, has a response code other than 2 and 3, and answers a name
    that could be encoded. *)
Theorem Resolve_Ok_inv w fuel r domainName recordType msg :
  Resolve w fuel r domainName recordType = Ok msg ->
  exists b0 b1 query datagram,
    w.(rand_Read) = Ok (b0, b1)
    /\ buildQuery w r domainName recordType = Ok (query, byte_to_Z b0 * 256 + byte_to_Z b1)
    /\ w.(conn_Read) query = Ok datagram
    /\ parseResponse fuel (firstn 512 datagram) = Ok msg
    /\ msg.(MsgHeader).(ID) = byte_to_Z b0 * 256 + byte_to_Z b1
    /\ Z.land msg.(MsgHeader).(Flags) 0x000F <> 2
    /\ Z.land msg.(MsgHeader).(Flags) 0x000F <> 3
    /\ Forall (fun segment => strlen segment <= 63) (Split domainName ".").
Proof.
  unfold Resolve. intros E.
  pose proof (buildQuery_cases w r domainName recordType) as Hb.
  destruct (rand_Read w) as [[b0 b1]| | |] eqn:Hrand;
    try (rewrite Hb in E; discriminate E).
  destruct (EncodeDomainName domainName) as [enc| | |] eqn:Henc;
    try (rewrite Hb in E; discriminate E).
  rewrite Hb in E. cbn [wrap bind] in E.
  destruct (sendQuery w r _) as [response| | |] eqn:Es; cbn [wrap bind] in E;
    try discriminate E.
  destruct (sendQuery_Ok_len _ _ _ _ Es) as (_ & datagram & Hread & ->).
  destruct (parseResponse fuel (firstn 512 datagram)) as [m| | |] eqn:Ep;
    cbn [wrap bind] in E; try discriminate E.
  revert E. destruct (Z.eqb_spec (ID (MsgHeader m)) (byte_to_Z b0 * 256 + byte_to_Z b1))
    as [Hid|Hid]; cbn [negb]; [|discriminate].
  intros E. injection E as <-.
  destruct (parseResponse_Ok_rcode _ _ _ Ep) as [Hc2 Hc3].
  eexists b0, b1, _, datagram.
  split; [reflexivity|]. split; [exact Hb|]. split; [exact Hread|].
  split; [exact Ep|]. split; [exact Hid|]. split; [exact Hc2|]. split; [exact Hc3|].
  destruct (segments_short_or_long (Split domainName ".")) as [Hall|Hex]; [exact Hall|].
  exfalso. unfold EncodeDomainName in Henc.
  pose proof (EncodeDomainName_segments_long _ [] Hex) as Herr.
  destruct (EncodeDomainName_segments (Split domainName ".") []); discriminate.
Qed.

Lemma Resolve_Ok_inv_witness :
  exists b0 b1 query datagram,
    (world_of x00 x05 (response_one_answer 0x0005 0x8180)).(rand_Read) = Ok (b0, b1)
    /\ buildQuery (world_of x00 x05 (response_one_answer 0x0005 0x8180))
         (NewResolver "8.8.8.8:53") "example.com" TypeA
       = Ok (query, byte_to_Z b0 * 256 + byte_to_Z b1)
    /\ (world_of x00 x05 (response_one_answer 0x0005 0x8180)).(conn_Read) query = Ok datagram
    /\ parseResponse 4 (firstn 512 datagram)
       = Ok (mkDNSMessage (mkHeader 5 0x8180 1 1 0 0)
               [mkQuestion "example.com" TypeA 1]
               [mkResourceRecord "example.com" TypeA 1 3600 4 [x5d; xb8; xd8; x22]]
               [] [])
    /\ 5 = byte_to_Z b0 * 256 + byte_to_Z b1
    /\ Z.land 0x8180 0x000F <> 2
    /\ Z.land 0x8180 0x000F <> 3
    /\ Forall (fun segment => strlen segment <= 63) (Split "example.com" ".").
Proof.
  apply (Resolve_Ok_inv (world_of x00 x05 (response_one_answer 0x0005 0x8180)) 4
           (NewResolver "8.8.8.8:53") "example.com" TypeA
           (mkDNSMessage (mkHeader 5 0x8180 1 1 0 0)
              [mkQuestion "example.com" TypeA 1]
              [mkResourceRecord "example.com" TypeA 1 3600 4 [x5d; xb8; xd8; x22]]
              [] [])).
  vm_compute. reflexivity.
Defined.

(** X16: [Resolve] fails while it builds the query, whatever the network would
    do: with the wrapped error of the random source when that fails, and
    with the error naming a segment of more than 63 bytes when the name has
    one. *)
Theorem Resolve_fails_building_query w fuel r domainName recordType :
  (forall e, w.(rand_Read) = Err e ->
     Resolve w fuel r domainName recordType = Err (ErrBuildQuery (ErrRandomID e)))
  /\ (forall b0 b1,
        w.(rand_Read) = Ok (b0, b1) ->
        Exists (fun segment => 63 < strlen segment) (Split domainName ".") ->
        exists segment,
          In segment (Split domainName ".") /\ 63 < strlen segment
          /\ Resolve w fuel r domainName recordType
             = Err (ErrBuildQuery (ErrSegmentTooLong segment))).
Proof.
  split.
  - intros e Hrand. unfold Resolve. rewrite buildQuery_cases, Hrand. reflexivity.
  - intros b0 b1 Hrand Hex. unfold Resolve. rewrite buildQuery_cases, Hrand.
    unfold EncodeDomainName.
    pose proof (EncodeDomainName_segments_long _ [] Hex) as Herr.
    destruct (EncodeDomainName_segments (Split domainName ".") []) as [|e| |] eqn:Es;
      try discriminate Herr.
    destruct (EncodeDomainName_segments_Err_inv _ _ _ Es) as (segment & -> & Hin & Hlong).
    exists segment. split; [exact Hin|]. split; [exact Hlong|]. reflexivity.
Qed.

(** ** Record type names *)

Lemma Sprintf_d_inj (a b : Z) : 0 <= a -> 0 <= b -> Sprintf_d a = Sprintf_d b -> a = b.
Proof.
  unfold Sprintf_d. intros Ha Hb E.
  assert (Hnonnil : forall n, N.to_uint n <> Decimal.Nil).
  { intros [|p]; [discriminate|apply DecimalPos.Unsigned.to_uint_nonnil]. }
  apply (f_equal DecimalString.NilZero.uint_of_string) in E.
  rewrite !DecimalString.NilZero.usu in E by apply Hnonnil.
  injection E as E. apply DecimalN.Unsigned.to_uint_inj in E. lia.
Qed.

(** X17: [RecordType.String] gives different names to different record types:
    no unknown type prints as one of the six known names or as another
    unknown type. *)
Theorem RecordType_String_injective (a b : RecordType) :
  0 <= a -> 0 <= b -> RecordType_String a = RecordType_String b -> a = b.
Proof.
  intros Ha Hb. unfold RecordType_String.
  repeat match goal with
         | |- context [if ?x =? ?y then _ else _] => destruct (Z.eqb_spec x y)
         end;
    subst; intros E; try reflexivity; try discriminate E.
  simpl in E. injection E as E. exact (Sprintf_d_inj a b Ha Hb E).
Qed.

Lemma RecordType_String_injective_witness :
  0 <= 257 /\ 0 <= 257
  /\ RecordType_String 257 = RecordType_String 257 /\ (257 : RecordType) = 257.
Proof.
  assert (H0 : 0 <= 257) by lia.
  assert (E : RecordType_String 257 = RecordType_String 257) by reflexivity.
  repeat (split; [assumption|]).
  exact (RecordType_String_injective 257 257 H0 H0 E).
Defined.

(** X18: The type switch of the command line tool is the inverse of
    [RecordType.String]: a string it accepts is the name of the type it
    gives, and the name of a type is accepted, and gives the type back,
    exactly for the six supported types. *)
Theorem main_recordType_inverse :
  (forall s t, main_recordType s = Some t -> RecordType_String t = s)
  /\ (forall t,
        main_recordType (RecordType_String t) = Some t
        <-> In t [TypeA; TypeAAAA; TypeCNAME; TypeMX; TypeTXT; TypeNS]).
Proof.
  split.
  - intros s t. unfold main_recordType.
    repeat match goal with
           | |- context [String.eqb ?x ?y] => destruct (String.eqb_spec x y)
           end;
      intros E; try discriminate E; injection E as <-; subst; reflexivity.
  - intros t. split.
    + unfold RecordType_String.
      repeat match goal with
             | |- context [if ?x =? ?y then _ else _] => destruct (Z.eqb_spec x y)
             end;
        subst; intros E; simpl; try tauto.
      discriminate E.
    + intros Hin. simpl in Hin.
      destruct Hin as [<-|[<-|[<-|[<-|[<-|[<-|[]]]]]]]; reflexivity.
Qed.

(** ** Name decoding: bounds, long labels, termination *)

(** X9: [DecodeDomainName] never reads outside the message: a name it returns
    started at a non-negative offset and its consumed bytes, at least one,
    end at or before the end of the message; from a non-negative offset no
    index or slice is out of range; a negative offset makes the first index
    expression panic. *)
Theorem DecodeDomainName_stays_in_message fuel fullMessage offset :
  (forall name n,
     DecodeDomainName fuel fullMessage offset = Ok (name, n) ->
     0 <= offset /\ 0 < n /\ offset + n <= len fullMessage)
  /\ (0 <= offset -> DecodeDomainName fuel fullMessage offset <> Panic)
  /\ (offset < 0 -> DecodeDomainName (S fuel) fullMessage offset = Panic).
Proof.
  split; [|split].
  - intros name n. apply DecodeDomainName_consumed.
  - apply DecodeDomainName_no_panic.
  - apply DecodeDomainName_negative_offset.
Qed.

Lemma land_192_below (l : Z) : 0 <= l < 192 -> Z.land l 192 <> 192.
Proof.
  intros Hl E.
  assert (H7 : Z.testbit l 7 = true).
  { apply (f_equal (fun x => Z.testbit x 7)) in E. rewrite Z.land_spec in E.
    change (Z.testbit 192 7) with true in E. rewrite andb_true_r in E. exact E. }
  assert (H6 : Z.testbit l 6 = true).
  { apply (f_equal (fun x => Z.testbit x 6)) in E. rewrite Z.land_spec in E.
    change (Z.testbit 192 6) with true in E. rewrite andb_true_r in E. exact E. }
  apply Z.testbit_true in H7; [|lia]. apply Z.testbit_true in H6; [|lia].
  change (2 ^ 7) with 128 in H7. change (2 ^ 6) with 64 in H6.
  assert (Hq7 : l / 128 = 0 \/ l / 128 = 1).
  { assert (0 <= l / 128 < 2); [|lia].
    split; [apply Z.div_pos; lia|apply Z.div_lt_upper_bound; lia]. }
  destruct Hq7 as [Hq|Hq]; rewrite Hq in H7; [discriminate H7|].
  assert (Hl128 : 128 <= l).
  { pose proof (Z.div_mod l 128 ltac:(lia)). pose proof (Z.mod_pos_bound l 128 ltac:(lia)). lia. }
  assert (Hq6 : l / 64 = 2).
  { apply Z.le_antisymm.
    - assert (l / 64 < 3); [apply Z.div_lt_upper_bound; lia|lia].
    - apply Z.div_le_lower_bound; lia. }
  rewrite Hq6 in H6. discriminate H6.
Qed.

(** One iteration of the loop on a label: any length byte from 1 to 191 is
    taken as the length of a label. *)
Lemma DecodeDomainName_loop_label fuel pre label rest startOffset labels bytesRead jumped :
  1 <= len label <= 191 ->
  DecodeDomainName_loop (S fuel) (pre ++ byte_of_Z (len label) :: label ++ rest)
    startOffset labels (len pre) bytesRead jumped
  = DecodeDomainName_loop fuel (pre ++ byte_of_Z (len label) :: label ++ rest)
      startOffset (labels ++ [string_of_list_byte label])
      (len pre + 1 + len label) bytesRead jumped.
Proof.
  intros Hl. pose proof (len_nonneg pre) as Hpre. pose proof (len_nonneg rest) as Hrest.
  loop_step.
  zcase; [rewrite len_app, len_cons, len_app in *; lia|].
  rewrite index_app_r, Z.sub_diag by lia.
  cbn [index Z.ltb Z.compare Z.to_nat nth_error must bind].
  rewrite byte_to_of_Z by lia.
  zcase; [lia|].
  zcase; [exfalso; apply (land_192_below (len label)); [lia|assumption]|].
  zcase; [rewrite len_app, len_cons, len_app in *; lia|].
  replace (pre ++ byte_of_Z (len label) :: label ++ rest)
    with ((pre ++ [byte_of_Z (len label)]) ++ label ++ rest) at 1
    by (rewrite <- app_assoc; reflexivity).
  replace (len pre + 1) with (len (pre ++ [byte_of_Z (len label)]))
    by (rewrite len_app; reflexivity).
  rewrite slice_app_mid. cbn [must bind].
  rewrite len_app. change (len [byte_of_Z (len label)]) with 1. reflexivity.
Qed.

(** X10: The decoder takes a label of up to 191 bytes, three times what the
    encoder allows: length bytes whose top two bits are 01 or 10 are read
    as plain lengths. *)
Theorem DecodeDomainName_accepts_long_label fuel pre label post :
  1 <= len label <= 191 ->
  DecodeDomainName (2 + fuel) (pre ++ byte_of_Z (len label) :: label ++ x00 :: post) (len pre)
  = Ok (string_of_list_byte label, len label + 2).
Proof.
  intros Hl. unfold DecodeDomainName. cbn [Nat.add].
  rewrite DecodeDomainName_loop_label by exact Hl.
  pose proof (len_nonneg pre) as Hpre. pose proof (len_nonneg post) as Hpost.
  loop_step.
  zcase; [rewrite len_app, len_cons, len_app, len_cons in *; lia|].
  replace (pre ++ byte_of_Z (len label) :: label ++ x00 :: post)
    with ((pre ++ byte_of_Z (len label) :: label) ++ x00 :: post)
    by (rewrite <- app_assoc; reflexivity).
  replace (len pre + 1 + len label) with (len (pre ++ byte_of_Z (len label) :: label))
    by (rewrite len_app, len_cons; lia).
  rewrite index_app_r, Z.sub_diag by lia.
  cbn [index Z.ltb Z.compare Z.to_nat nth_error must bind].
  change (byte_to_Z x00) with 0. cbn [Z.eqb negb app Join].
  f_equal. f_equal. rewrite !len_app, !len_cons. lia.
Qed.

Lemma DecodeDomainName_accepts_long_label_witness :
  DecodeDomainName (2 + 0) ([] ++ byte_of_Z (len (repeat x61 100)) :: repeat x61 100 ++ x00 :: [])
    (len (@nil byte))
  = Ok (string_of_list_byte (repeat x61 100), len (repeat x61 100) + 2).
Proof.
  apply (DecodeDomainName_accepts_long_label 0 [] (repeat x61 100) []).
  vm_compute. split; discriminate.
Defined.

(** X11: From an offset whose chain of pointer jumps is well founded,
    [DecodeDomainName] returns: some fuel gives a result (a name, an error
    or a panic), and every larger fuel gives the same one. *)
Theorem DecodeDomainName_returns_on_well_founded_jumps fullMessage offset :
  Acc (fun t s => jumps_to fullMessage s t) offset ->
  exists fuel r,
    r <> OutOfFuel
    /\ forall fuel', (fuel <= fuel')%nat -> DecodeDomainName fuel' fullMessage offset = r.
Proof.
  intros Hacc. destruct (DecodeDomainName_terminates _ _ Hacc) as [fuel Hfuel].
  exists fuel, (DecodeDomainName fuel fullMessage offset). split; [exact Hfuel|].
  intros fuel' Hle. exact (DecodeDomainName_fuel_mono _ _ _ _ _ eq_refl Hfuel Hle).
Qed.

Lemma DecodeDomainName_returns_on_well_founded_jumps_witness :
  exists fuel r,
    r <> OutOfFuel
    /\ forall fuel', (fuel <= fuel')%nat ->
         DecodeDomainName fuel' (response_one_answer 0x1234 0x8180) 29 = r.
Proof.
  apply (DecodeDomainName_returns_on_well_founded_jumps (response_one_answer 0x1234 0x8180) 29).
  exact response_one_answer_jumps_well_founded.
Defined.

(** ** Status and flags of the command line tool *)

(** X19: For a message that [parseResponse] returned, the status shown is never
    NXDOMAIN: it is NOERROR for response code 0 and ERROR for every other
    code. *)
Theorem getStatus_of_parsed_message fuel response msg :
  parseResponse fuel response = Ok msg ->
  getStatus msg.(MsgHeader).(Flags) <> "NXDOMAIN"%string
  /\ (getStatus msg.(MsgHeader).(Flags) = "NOERROR"%string
      <-> Z.land msg.(MsgHeader).(Flags) 0x000F = 0)
  /\ (getStatus msg.(MsgHeader).(Flags) = "ERROR"%string
      <-> Z.land msg.(MsgHeader).(Flags) 0x000F <> 0).
Proof.
  intros E. destruct (parseResponse_Ok_rcode _ _ _ E) as [_ Hc3].
  unfold getStatus.
  destruct (Z.eqb_spec (Z.land (Flags (MsgHeader msg)) 15) 0) as [H0|H0].
  - split; [discriminate|]. split; split; intros H; try reflexivity; try assumption;
      try discriminate H; contradiction.
  - destruct (Z.eqb_spec (Z.land (Flags (MsgHeader msg)) 15) 3) as [H3|H3]; [contradiction|].
    split; [discriminate|]. split; split; intros H; try reflexivity; try assumption;
      try discriminate H; contradiction.
Qed.

Lemma getStatus_of_parsed_message_witness :
  getStatus 0x8185 <> "NXDOMAIN"%string
  /\ (getStatus 0x8185 = "NOERROR"%string <-> Z.land 0x8185 0x000F = 0)
  /\ (getStatus 0x8185 = "ERROR"%string <-> Z.land 0x8185 0x000F <> 0).
Proof.
  apply (getStatus_of_parsed_message 0 (wire_header 0x1234 0x8185 0 0 0 0)
           (mkDNSMessage (mkHeader 0x1234 0x8185 0 0 0 0) [] [] [] [])).
  reflexivity.
Defined.

Lemma land_mask_bit (flags mask bit : Z) :
  Z.land mask bit = bit -> Z.land (Z.land flags mask) bit = Z.land flags bit.
Proof. intros E. rewrite <- Z.land_assoc, E. reflexivity. Qed.

(** X20: [getFlags] looks at the four bits QR, AA, RD and RA only: flags that
    differ in other bits (opcode, TC, Z, response code) give the same
    text, and the text is empty exactly when none of the four is set. *)
Theorem getFlags_four_bits (flags : Z) :
  getFlags (Z.land flags 0x8580) = getFlags flags
  /\ (getFlags flags = EmptyString <-> Z.land flags 0x8580 = 0).
Proof.
  split.
  - unfold getFlags.
    rewrite !land_mask_bit by reflexivity. reflexivity.
  - assert (Hsplit : Z.land flags 0x8580
                     = Z.lor (Z.lor (Z.lor (Z.land flags 0x8000) (Z.land flags 0x0400))
                                (Z.land flags 0x0100)) (Z.land flags 0x0080)).
    { rewrite <- !Z.land_lor_distr_r. reflexivity. }
    split.
    + unfold getFlags. intros E. rewrite Hsplit.
      destruct (Z.eqb_spec (Z.land flags 32768) 0) as [->|_];
        destruct (Z.eqb_spec (Z.land flags 1024) 0) as [->|_];
        destruct (Z.eqb_spec (Z.land flags 256) 0) as [->|_];
        destruct (Z.eqb_spec (Z.land flags 128) 0) as [->|_];
        try discriminate E.
      reflexivity.
    + intros E. unfold getFlags.
      rewrite <- (land_mask_bit flags 0x8580 0x8000), <- (land_mask_bit flags 0x8580 0x0400),
        <- (land_mask_bit flags 0x8580 0x0100), <- (land_mask_bit flags 0x8580 0x0080)
        by reflexivity.
      rewrite E. reflexivity.
Qed.

(** ** The formatter never panics *)

Lemma bytes_Index_from_range (s sep : list byte) :
  forall i, bytes_Index_from s sep i = -1 \/ i <= bytes_Index_from s sep i.
Proof.
  induction s as [|c s IH]; intros i; cbn [bytes_Index_from].
  - destruct (HasPrefix [] sep); [right; lia|left; reflexivity].
  - destruct (HasPrefix (c :: s) sep); [right; lia|].
    destruct (IH (i + 1)) as [E|Hle]; [left; exact E|right; lia].
Qed.

Lemma bytes_Index_nil (sep : list byte) :
  sep <> [] -> bytes_Index [] sep = -1.
Proof. destruct sep; [congruence|reflexivity]. Qed.

Lemma fold_u16_Ok (data : list byte) (offs : list Z) :
  Forall (fun i => 0 <= i /\ i + 2 <= len data) offs ->
  forall acc,
  exists parts,
    fold_left
      (fun (acc : outcome (list string)) (i : Z) =>
         parts <- acc ;;
         v <- u16_at data i ;;
         Ok (parts ++ [Sprintf_x v]))
      offs (Ok acc) = Ok parts.
Proof.
  induction 1 as [|i offs [Hi0 Hi1] _ IH]; intros acc; [eexists; reflexivity|].
  cbn [fold_left bind].
  destruct (u16_at_in_range data i Hi0 Hi1) as (v & -> & _). cbn [bind].
  apply IH.
Qed.

Lemma RDataString_no_panic Sprintf_q fuel rr fullMessage :
  RDataString Sprintf_q fuel rr fullMessage <> Panic.
Proof.
  unfold RDataString. cbv zeta.
  zcase.
  { zcase; [|discriminate].
    destruct (index_in_range (RData rr) 0) as [b0 ->]; [lia|].
    destruct (index_in_range (RData rr) 1) as [b1 ->]; [lia|].
    destruct (index_in_range (RData rr) 2) as [b2 ->]; [lia|].
    destruct (index_in_range (RData rr) 3) as [b3 ->]; [lia|].
    discriminate. }
  zcase.
  { zcase; [|discriminate].
    destruct (fold_u16_Ok (RData rr) [0; 2; 4; 6; 8; 10; 12; 14]) with (acc := @nil string)
      as [parts ->]; [repeat constructor; lia|].
    discriminate. }
  destruct ((RRType rr =? TypeCNAME) || (RRType rr =? TypeNS)).
  { zcase; [discriminate|].
    pose proof (bytes_Index_from_range fullMessage (RData rr) 0) as Hidx.
    fold (bytes_Index fullMessage (RData rr)) in Hidx.
    pose proof (DecodeDomainName_no_panic fuel fullMessage
                  (bytes_Index fullMessage (RData rr))) as Hd.
    destruct (DecodeDomainName fuel fullMessage _) as [[name k]| | |]; try discriminate.
    exfalso. apply Hd; [lia|reflexivity]. }
  zcase.
  { zcase; [|discriminate].
    destruct (u16_at_in_range (RData rr) 0) as (p & -> & _); [lia|lia|]. cbn [bind].
    zcase; [discriminate|].
    pose proof (bytes_Index_from_range fullMessage (RData rr) 0) as Hidx.
    fold (bytes_Index fullMessage (RData rr)) in Hidx.
    pose proof (DecodeDomainName_no_panic fuel fullMessage
                  (bytes_Index fullMessage (RData rr) + 2)) as Hd.
    destruct (DecodeDomainName fuel fullMessage _) as [[name k]| | |]; try discriminate.
    exfalso. apply Hd; [lia|reflexivity]. }
  zcase; discriminate.
Qed.

Lemma RDataString_plain_types Sprintf_q fuel rr fullMessage :
  rr.(RRType) <> TypeCNAME -> rr.(RRType) <> TypeNS -> rr.(RRType) <> TypeMX ->
  exists text, RDataString Sprintf_q fuel rr fullMessage = Ok text.
Proof.
  intros Hc Hn Hm. unfold RDataString. cbv zeta.
  zcase.
  { zcase; [|eexists; reflexivity].
    destruct (index_in_range (RData rr) 0) as [b0 ->]; [lia|].
    destruct (index_in_range (RData rr) 1) as [b1 ->]; [lia|].
    destruct (index_in_range (RData rr) 2) as [b2 ->]; [lia|].
    destruct (index_in_range (RData rr) 3) as [b3 ->]; [lia|].
    eexists. reflexivity. }
  zcase.
  { zcase; [|eexists; reflexivity].
    destruct (fold_u16_Ok (RData rr) [0; 2; 4; 6; 8; 10; 12; 14]) with (acc := @nil string)
      as [parts ->]; [repeat constructor; lia|].
    eexists. reflexivity. }
  destruct (Z.eqb_spec (RRType rr) TypeCNAME) as [?|_]; [contradiction|].
  destruct (Z.eqb_spec (RRType rr) TypeNS) as [?|_]; [contradiction|].
  destruct (Z.eqb_spec (RRType rr) TypeMX) as [?|_]; [contradiction|].
  cbn [orb]. zcase; eexists; reflexivity.
Qed.

(** X21: [RDataString] never indexes or slices out of range, whatever the
    record and the message, and for every type other than CNAME, NS and
    MX it returns a string without decoding any name. *)
Theorem RDataString_never_panics Sprintf_q fuel rr fullMessage :
  RDataString Sprintf_q fuel rr fullMessage <> Panic
  /\ (rr.(RRType) <> TypeCNAME -> rr.(RRType) <> TypeNS -> rr.(RRType) <> TypeMX ->
      exists text, RDataString Sprintf_q fuel rr fullMessage = Ok text).
Proof.
  split; [apply RDataString_no_panic|apply RDataString_plain_types].
Qed.

(** ** Formatting without the message *)

Lemma RDataString_name_types_nil Sprintf_q fuel rr :
  ((rr.(RRType) = TypeCNAME \/ rr.(RRType) = TypeNS) -> rr.(RData) <> [] ->
   RDataString Sprintf_q fuel rr [] = Ok "invalid CNAME/NS data"%string)
  /\ (rr.(RRType) = TypeMX -> 2 < len rr.(RData) ->
      RDataString Sprintf_q fuel rr [] = Ok "invalid MX data"%string)
  /\ ((rr.(RRType) = TypeCNAME \/ rr.(RRType) = TypeNS) -> rr.(RData) = [] ->
      RDataString Sprintf_q (S fuel) rr [] = Ok (placeholder [])).
Proof.
  split; [|split].
  - intros Htype Hdata. unfold RDataString. cbv zeta.
    rewrite (bytes_Index_nil _ Hdata).
    destruct Htype as [-> | ->]; reflexivity.
  - intros Htype Hlen. unfold RDataString. cbv zeta. rewrite Htype.
    cbn [Z.eqb TypeMX TypeA TypeAAAA TypeCNAME TypeNS Pos.eqb orb].
    zcase; [|lia].
    destruct (u16_at_in_range (RData rr) 0) as (p & -> & _); [lia|lia|]. cbn [bind].
    rewrite bytes_Index_nil; [reflexivity|].
    intros E. rewrite E in Hlen. change (len (@nil byte)) with 0 in Hlen. lia.
  - intros Htype Hdata. unfold RDataString. cbv zeta. rewrite Hdata.
    destruct Htype as [-> | ->]; reflexivity.
Qed.

(** X22: Given an empty message, as [printResponse] gives it, [RDataString]
    cannot find the data of a record and shows "invalid CNAME/NS data" for
    every CNAME or NS record with data and "invalid MX data" for every MX
    record with more than two bytes of data, whatever the name in the
    data; a CNAME or NS record without data gets the placeholder. *)
Theorem RDataString_without_message Sprintf_q fuel rr :
  ((rr.(RRType) = TypeCNAME \/ rr.(RRType) = TypeNS) -> rr.(RData) <> [] ->
   RDataString Sprintf_q fuel rr [] = Ok "invalid CNAME/NS data"%string)
  /\ (rr.(RRType) = TypeMX -> 2 < len rr.(RData) ->
      RDataString Sprintf_q fuel rr [] = Ok "invalid MX data"%string)
  /\ ((rr.(RRType) = TypeCNAME \/ rr.(RRType) = TypeNS) -> rr.(RData) = [] ->
      RDataString Sprintf_q (S fuel) rr [] = Ok (placeholder [])).
Proof. apply RDataString_name_types_nil. Qed.

Lemma RDataString_nil_Ok Sprintf_q fuel rr :
  exists text, RDataString Sprintf_q (S fuel) rr [] = Ok text.
Proof.
  destruct (RDataString_name_types_nil Sprintf_q fuel rr) as (Hname & _ & Hempty).
  destruct (RDataString_name_types_nil Sprintf_q (S fuel) rr) as (Hname' & Hmx & _).
  destruct (Z.eq_dec (RRType rr) TypeCNAME) as [Hc|Hc].
  { destruct (RData rr) as [|b data] eqn:Hd.
    - eexists. apply Hempty; [left; exact Hc|reflexivity].
    - eexists. apply Hname'; [left; exact Hc|discriminate]. }
  destruct (Z.eq_dec (RRType rr) TypeNS) as [Hn|Hn].
  { destruct (RData rr) as [|b data] eqn:Hd.
    - eexists. apply Hempty; [right; exact Hn|reflexivity].
    - eexists. apply Hname'; [right; exact Hn|discriminate]. }
  destruct (Z.eq_dec (RRType rr) TypeMX) as [Hm|Hm].
  { destruct (Z.lt_ge_cases 2 (len (RData rr))) as [Hlt|Hge].
    - eexists. apply Hmx; assumption.
    - eexists. unfold RDataString. cbv zeta. rewrite Hm.
      cbn [Z.eqb TypeMX TypeA TypeAAAA TypeCNAME TypeNS Pos.eqb orb].
      zcase; [lia|reflexivity]. }
  apply RDataString_plain_types; assumption.
Qed.

Lemma printResponse_answers_Ok Sprintf_q fuel answers :
  forall out, exists text,
    printResponse_answers Sprintf_q (S fuel) answers [] out = Ok text.
Proof.
  induction answers as [|a rest IH]; intros out; [eexists; reflexivity|].
  cbn [printResponse_answers].
  destruct (RDataString_nil_Ok Sprintf_q fuel a) as [rdata ->]. cbn [bind].
  apply IH.
Qed.

(** X23: [printResponse] always writes its text and returns: as it passes an
    empty message to [RDataString], no name is ever decoded while
    printing, so no record can make it loop or panic. *)
Theorem printResponse_completes Sprintf_q fuel msg :
  exists text, printResponse Sprintf_q (S fuel) msg = Ok text.
Proof.
  unfold printResponse. cbv zeta.
  destruct (len (Answers msg) >? 0); [|eexists; reflexivity].
  match goal with
  | |- context [printResponse_answers _ _ _ _ ?out] =>
      destruct (printResponse_answers_Ok Sprintf_q fuel (Answers msg) out) as [text ->]
  end.
  eexists. reflexivity.
Qed.

(** ** Response code on the wire *)

Lemma land_low_nibble (hi lo : Z) : Z.land (hi * 256 + lo) 15 = Z.land lo 15.
Proof.
  change 15 with (Z.ones 4). rewrite !Z.land_ones by lia. change (2 ^ 4) with 16.
  replace (hi * 256 + lo) with (lo + (hi * 16) * 16) by lia.
  apply Z.mod_add. lia.
Qed.

(** X13: [parseResponse] decides on the first twelve bytes before it looks at
    anything else: fewer than twelve bytes give the header error, and a
    fourth byte whose low four bits are 2 or 3 gives the server-failure or
    the name-not-found error, whatever the counts and the bytes that
    follow. *)
Theorem parseResponse_decides_on_header fuel :
  (forall response, len response < 12 -> parseResponse fuel response = Err ErrHeaderTooShort)
  /\ (forall b0 b1 b2 b3 b4 b5 b6 b7 b8 b9 b10 b11 rest,
        (Z.land (byte_to_Z b3) 0x0F = 2 ->
         parseResponse fuel (b0 :: b1 :: b2 :: b3 :: b4 :: b5 :: b6 :: b7 :: b8 :: b9
                                :: b10 :: b11 :: rest) = Err ErrServerFailed)
        /\ (Z.land (byte_to_Z b3) 0x0F = 3 ->
            parseResponse fuel (b0 :: b1 :: b2 :: b3 :: b4 :: b5 :: b6 :: b7 :: b8 :: b9
                                   :: b10 :: b11 :: rest) = Err ErrNameNotFound)).
Proof.
  split.
  - intros response Hlen. unfold parseResponse, UnpackHeader.
    zcase; [reflexivity|lia].
  - intros. split; intros Hc.
    + apply (parseResponse_rcode_2 _ _ _ (UnpackHeader_fields _ _ _ _ _ _ _ _ _ _ _ _ _)).
      cbn [Flags]. rewrite land_low_nibble. exact Hc.
    + apply (parseResponse_rcode_3 _ _ _ (UnpackHeader_fields _ _ _ _ _ _ _ _ _ _ _ _ _)).
      cbn [Flags]. rewrite land_low_nibble. exact Hc.
Qed.

(** ** Names in record data *)

Lemma index_app_mid (pre mid rest : list byte) (k : Z) :
  0 <= k < len mid -> index (pre ++ mid ++ rest) (len pre + k) = index mid k.
Proof.
  intros Hk. pose proof (len_nonneg pre).
  rewrite index_app_r by lia. replace (len pre + k - len pre) with k by lia.
  unfold index. destruct (Z.ltb_spec k 0); [lia|].
  apply nth_error_app1. unfold len in Hk. lia.
Qed.

Lemma slice_ext (s : list byte) (a1 a2 l : Z) :
  0 <= a1 -> 0 <= a2 -> 0 <= l -> a1 + l <= len s -> a2 + l <= len s ->
  (forall k, 0 <= k < l -> index s (a2 + k) = index s (a1 + k)) ->
  slice s a2 (a2 + l) = slice s a1 (a1 + l).
Proof.
  intros H1 H2 Hl Hb1 Hb2 Hidx.
  rewrite !slice_in_range by lia. f_equal.
  replace (a2 + l - a2) with l by lia. replace (a1 + l - a1) with l by lia.
  apply nth_error_ext. intros n.
  rewrite !nth_error_firstn, !nth_error_skipn.
  destruct (Nat.ltb_spec n (Z.to_nat l)) as [Hn|Hn]; [|reflexivity].
  specialize (Hidx (Z.of_nat n) ltac:(lia)). unfold index in Hidx.
  destruct (Z.ltb_spec (a2 + Z.of_nat n) 0); [lia|].
  destruct (Z.ltb_spec (a1 + Z.of_nat n) 0); [lia|].
  replace (Z.to_nat a2 + n)%nat with (Z.to_nat (a2 + Z.of_nat n)) by lia.
  replace (Z.to_nat a1 + n)%nat with (Z.to_nat (a1 + Z.of_nat n)) by lia.
  exact Hidx.
Qed.

(** The loop gives the same name and count from another offset where the
    message holds the same bytes as those it consumed. *)
Lemma DecodeDomainName_loop_shift fuel :
  forall msg s1 s2 labels off1 off2 bytesRead name n,
    s1 <= off1 ->
    off2 - s2 = off1 - s1 ->
    (forall k, off1 <= k < s1 + n -> index msg (k - off1 + off2) = index msg k) ->
    DecodeDomainName_loop fuel msg s1 labels off1 bytesRead false = Ok (name, n) ->
    DecodeDomainName_loop fuel msg s2 labels off2 bytesRead false = Ok (name, n).
Proof.
  induction fuel as [|fuel IH]; intros msg s1 s2 ls off1 off2 br name n Hs Hd Hidx E;
    [discriminate E|].
  destruct (DecodeDomainName_loop_consumed _ _ _ _ _ _ _ _ Hs E) as (H0 & Hlt & Hend).
  revert E. rewrite (DecodeDomainName_loop_step fuel msg s1 ls off1 br false).
  zcase; [discriminate|].
  destruct (index msg off1) as [b|] eqn:Hb1; cbn [must bind]; [|discriminate].
  assert (Hb2 : index msg off2 = Some b).
  { rewrite <- Hb1. replace off2 with (off1 - off1 + off2) at 1 by lia. apply Hidx. lia. }
  pose proof (index_Some_nonneg _ _ _ Hb2) as Hr2.
  pose proof (byte_to_Z_range b) as Hrange.
  zcase.
  { cbn [negb]. intros E. injection E as <- <-.
    loop_step. zcase; [lia|]. rewrite Hb2. cbn [must bind].
    zcase; [|contradiction]. cbn [negb]. f_equal. f_equal. lia. }
  zcase.
  - zcase; [discriminate|].
    destruct (slice msg (off1 + 1 - 1) (off1 + 1 + 1)) as [bs|] eqn:Hbs; cbn [must bind];
      [|discriminate].
    destruct (Uint16 bs) as [u|] eqn:Hu; cbn [must bind]; [|discriminate].
    destruct (DecodeDomainName_loop fuel msg _ [] _ 0 false) as [[pn cnt]| | |] eqn:Erec;
      cbn [wrap bind negb]; try discriminate.
    intros E. injection E as <- <-.
    assert (Hnext : index msg (off2 + 1) = index msg (off1 + 1)).
    { replace (off2 + 1) with (off1 + 1 - off1 + off2) by lia. apply Hidx. lia. }
    destruct (index_in_range msg (off1 + 1)) as [b' Hb']; [lia|].
    rewrite Hb' in Hnext. apply index_Some_nonneg in Hnext.
    replace (off1 + 1 - 1) with off1 in Hbs by lia.
    replace (off1 + 1 + 1) with (off1 + 2) in Hbs by lia.
    assert (Hbs2 : slice msg off2 (off2 + 2) = Some bs).
    { rewrite <- Hbs. apply slice_ext; try lia.
      intros j Hj. replace (off2 + j) with (off1 + j - off1 + off2) by lia.
      apply Hidx. lia. }
    loop_step. zcase; [lia|]. rewrite Hb2. cbn [must bind].
    zcase; [contradiction|]. zcase; [|contradiction]. zcase; [lia|].
    replace (off2 + 1 - 1) with off2 by lia. replace (off2 + 1 + 1) with (off2 + 2) by lia.
    rewrite Hbs2. cbn [must bind]. rewrite Hu. cbn [must bind]. rewrite Erec.
    cbn [wrap bind negb]. f_equal. f_equal. lia.
  - zcase; [discriminate|].
    destruct (slice msg (off1 + 1) (off1 + 1 + byte_to_Z b)) as [bs|] eqn:Hbs;
      cbn [must bind]; [|discriminate].
    intros E.
    assert (Hs' : s1 <= off1 + 1 + byte_to_Z b) by lia.
    destruct (DecodeDomainName_loop_consumed _ _ _ _ _ _ _ _ Hs' E) as (_ & Hlt' & _).
    assert (Hnext : index msg (off2 + 1 + byte_to_Z b) = index msg (off1 + 1 + byte_to_Z b)).
    { replace (off2 + 1 + byte_to_Z b) with (off1 + 1 + byte_to_Z b - off1 + off2) by lia.
      apply Hidx. lia. }
    destruct (index_in_range msg (off1 + 1 + byte_to_Z b)) as [b' Hb']; [lia|].
    rewrite Hb' in Hnext. apply index_Some_nonneg in Hnext.
    assert (Hbs2 : slice msg (off2 + 1) (off2 + 1 + byte_to_Z b) = Some bs).
    { rewrite <- Hbs. apply slice_ext; try lia.
      intros k Hk. replace (off2 + 1 + k) with (off1 + 1 + k - off1 + off2) by lia.
      apply Hidx. lia. }
    loop_step. zcase; [lia|]. rewrite Hb2. cbn [must bind].
    zcase; [contradiction|]. zcase; [contradiction|]. zcase; [lia|].
    rewrite Hbs2. cbn [must bind].
    apply (IH msg s1 s2 _ (off1 + 1 + byte_to_Z b)); [lia|lia| |exact E].
    intros k Hk.
    replace (k - (off1 + 1 + byte_to_Z b) + (off2 + 1 + byte_to_Z b)) with (k - off1 + off2)
      by lia.
    apply Hidx. lia.
Qed.

Lemma HasPrefix_app (sep rest : list byte) : HasPrefix (sep ++ rest) sep = true.
Proof.
  induction sep as [|c sep IH]; [destruct rest; reflexivity|].
  cbn [app HasPrefix]. rewrite (Byte.byte_dec_lb eq_refl). exact IH.
Qed.

Lemma HasPrefix_inv (sep : list byte) :
  forall s, HasPrefix s sep = true -> exists rest, s = sep ++ rest.
Proof.
  induction sep as [|c sep IH]; intros s H; [exists s; reflexivity|].
  destruct s as [|c' s]; [discriminate H|].
  cbn [HasPrefix] in H. apply andb_true_iff in H. destruct H as [Hc Hs].
  apply Byte.byte_dec_bl in Hc. subst c'.
  destruct (IH s Hs) as [rest ->]. exists rest. reflexivity.
Qed.

(** [bytes.Index] finds an occurrence, the first one, when there is one. *)
Lemma bytes_Index_from_app (sep rest : list byte) :
  forall pre i,
  exists pre' rest',
    pre ++ sep ++ rest = pre' ++ sep ++ rest'
    /\ bytes_Index_from (pre ++ sep ++ rest) sep i = i + len pre'.
Proof.
  induction pre as [|c pre IH]; intros i.
  - exists [], rest. split; [reflexivity|]. cbn [app].
    pose proof (HasPrefix_app sep rest) as Hp.
    destruct (sep ++ rest); cbn [bytes_Index_from]; rewrite Hp;
      change (len (@nil byte)) with 0; lia.
  - cbn [app bytes_Index_from].
    destruct (HasPrefix (c :: pre ++ sep ++ rest) sep) eqn:Hp.
    + destruct (HasPrefix_inv _ _ Hp) as [rest' E].
      exists [], rest'. split; [exact E|]. change (len (@nil byte)) with 0. lia.
    + destruct (IH (i + 1)) as (pre' & rest' & E & Hi).
      exists (c :: pre'), rest'. split; [cbn [app]; rewrite E; reflexivity|].
      rewrite Hi, len_cons. lia.
Qed.

(** X24: Looking the data up by content is harmless when the data holds a whole
    encoded name: if the data of a CNAME or NS record lies in the message
    and the name decoded where it lies ends within the data, [RDataString]
    returns that name, even when the same bytes occur earlier in the
    message. *)
Theorem RDataString_name_found_by_content Sprintf_q fuel rr pre rest name n :
  rr.(RRType) = TypeCNAME \/ rr.(RRType) = TypeNS ->
  DecodeDomainName fuel (pre ++ rr.(RData) ++ rest) (len pre) = Ok (name, n) ->
  n <= len rr.(RData) ->
  RDataString Sprintf_q fuel rr (pre ++ rr.(RData) ++ rest) = Ok name.
Proof.
  intros Htype Ed Hn.
  destruct (bytes_Index_from_app rr.(RData) rest pre 0) as (pre' & rest' & Emsg & Eidx).
  pose proof (len_nonneg pre) as Hpre. pose proof (len_nonneg pre') as Hpre'.
  destruct (DecodeDomainName_consumed _ _ _ _ _ Ed) as (_ & Hpos & _).
  assert (Ed' : DecodeDomainName fuel (pre ++ rr.(RData) ++ rest) (len pre') = Ok (name, n)).
  { unfold DecodeDomainName in *.
    apply (DecodeDomainName_loop_shift fuel _ (len pre) (len pre') [] (len pre) (len pre') 0);
      [lia|lia| |exact Ed].
    intros k Hk.
    replace k with (len pre + (k - len pre)) at 2 by lia.
    rewrite index_app_mid by lia.
    rewrite Emsg. replace (k - len pre + len pre') with (len pre' + (k - len pre)) by lia.
    apply index_app_mid. lia. }
  unfold RDataString. cbv zeta. unfold bytes_Index. rewrite Eidx.
  replace (0 + len pre') with (len pre') by lia.
  destruct (Z.eqb_spec (len pre') (-1)) as [Habs|_]; [lia|].
  rewrite Ed'. destruct Htype as [-> | ->]; reflexivity.
Qed.

Lemma RDataString_name_found_by_content_witness :
  RDataString plain_quote 4
    (mkResourceRecord "www.example.com" TypeCNAME 1 300 2 [xc0; x0c])
    ((wire_header 0x1234 0x8180 1 1 0 0 ++ wire_question
      ++ [xc0; x0c; x00; x05; x00; x01; x00; x00; x01; x2c; x00; x02])
     ++ [xc0; x0c] ++ [])
  = Ok "example.com"%string.
Proof.
  apply (RDataString_name_found_by_content plain_quote 4
           (mkResourceRecord "www.example.com" TypeCNAME 1 300 2 [xc0; x0c])
           (wire_header 0x1234 0x8180 1 1 0 0 ++ wire_question
            ++ [xc0; x0c; x00; x05; x00; x01; x00; x00; x01; x2c; x00; x02])
           [] "example.com"%string 2).
  - left. reflexivity.
  - vm_compute. reflexivity.
  - vm_compute. discriminate.
Defined.

(** X25: The same for an MX record: with more than two bytes of data lying in
    the message and an exchange name that ends within the data,
    [RDataString] returns the preference and that name. *)
Theorem RDataString_MX_found_by_content Sprintf_q fuel rr pre rest name n preference :
  rr.(RRType) = TypeMX ->
  2 < len rr.(RData) ->
  u16_at rr.(RData) 0 = Ok preference ->
  DecodeDomainName fuel (pre ++ rr.(RData) ++ rest) (len pre + 2) = Ok (name, n) ->
  n + 2 <= len rr.(RData) ->
  RDataString Sprintf_q fuel rr (pre ++ rr.(RData) ++ rest)
  = Ok (Sprintf_d preference ++ " " ++ name)%string.
Proof.
  intros Htype Hlen Epref Ed Hn.
  destruct (bytes_Index_from_app rr.(RData) rest pre 0) as (pre' & rest' & Emsg & Eidx).
  pose proof (len_nonneg pre) as Hpre. pose proof (len_nonneg pre') as Hpre'.
  destruct (DecodeDomainName_consumed _ _ _ _ _ Ed) as (_ & Hpos & _).
  assert (Ed' : DecodeDomainName fuel (pre ++ rr.(RData) ++ rest) (len pre' + 2)
                = Ok (name, n)).
  { unfold DecodeDomainName in *.
    apply (DecodeDomainName_loop_shift fuel _ (len pre + 2) (len pre' + 2) []
             (len pre + 2) (len pre' + 2) 0); [lia|lia| |exact Ed].
    intros k Hk.
    replace k with (len pre + (k - len pre)) at 2 by lia.
    rewrite index_app_mid by lia.
    rewrite Emsg.
    replace (k - (len pre + 2) + (len pre' + 2)) with (len pre' + (k - len pre)) by lia.
    apply index_app_mid. lia. }
  unfold RDataString. cbv zeta. rewrite Htype.
  cbn [Z.eqb TypeMX TypeA TypeAAAA TypeCNAME TypeNS Pos.eqb orb].
  zcase; [|lia]. rewrite Epref. cbn [bind].
  unfold bytes_Index. rewrite Eidx. replace (0 + len pre') with (len pre') by lia.
  destruct (Z.eqb_spec (len pre') (-1)) as [Habs|_]; [lia|].
  rewrite Ed'. reflexivity.
Qed.

Lemma RDataString_MX_found_by_content_witness :
  RDataString plain_quote 4
    (mkResourceRecord "example.com" TypeMX 1 300 4 [x00; x0a; xc0; x0c])
    ((wire_header 0x1234 0x8180 1 1 0 0 ++ wire_question
      ++ [xc0; x0c; x00; x0f; x00; x01; x00; x00; x01; x2c; x00; x04])
     ++ [x00; x0a; xc0; x0c] ++ [])
  = Ok (Sprintf_d 10 ++ " " ++ "example.com")%string.
Proof.
  apply (RDataString_MX_found_by_content plain_quote 4
           (mkResourceRecord "example.com" TypeMX 1 300 4 [x00; x0a; xc0; x0c])
           (wire_header 0x1234 0x8180 1 1 0 0 ++ wire_question
            ++ [xc0; x0c; x00; x0f; x00; x01; x00; x00; x01; x2c; x00; x04])
           [] "example.com"%string 2 10).
  - reflexivity.
  - vm_compute. reflexivity.
  - vm_compute. reflexivity.
  - vm_compute. reflexivity.
  - vm_compute. discriminate.
Defined.

(** ** Witnesses of the statements above *)

Lemma Resolve_fails_building_query_witness :
  exists segment,
    In segment (Split "aaaaaaaaaaaaaaaaaaaaaaaaaaaaaaaaaaaaaaaaaaaaaaaaaaaaaaaaaaaaaaaa.com" ".")
    /\ 63 < strlen segment
    /\ Resolve (world_of x00 x04 []) 0 (NewResolver "8.8.8.8:53")
         "aaaaaaaaaaaaaaaaaaaaaaaaaaaaaaaaaaaaaaaaaaaaaaaaaaaaaaaaaaaaaaaa.com" TypeA
       = Err (ErrBuildQuery (ErrSegmentTooLong segment)).
Proof.
  destruct (Resolve_fails_building_query (world_of x00 x04 []) 0 (NewResolver "8.8.8.8:53")
              "aaaaaaaaaaaaaaaaaaaaaaaaaaaaaaaaaaaaaaaaaaaaaaaaaaaaaaaaaaaaaaaa.com" TypeA)
    as [_ H].
  apply (H x00 x04).
  - reflexivity.
  - apply Exists_cons_hd. unfold strlen. simpl. lia.
Defined.

Lemma RDataString_without_message_witness :
  RDataString plain_quote 0
    (mkResourceRecord "www.example.com" TypeCNAME 1 300 2 [xc0; x0c]) []
  = Ok "invalid CNAME/NS data"%string
  /\ RDataString plain_quote 0
       (mkResourceRecord "example.com" TypeMX 1 300 4 [x00; x0a; xc0; x0c]) []
     = Ok "invalid MX data"%string.
Proof.
  split.
  - destruct (RDataString_without_message plain_quote 0
                (mkResourceRecord "www.example.com" TypeCNAME 1 300 2 [xc0; x0c]))
      as (H & _ & _).
    apply H; [left; reflexivity|discriminate].
  - destruct (RDataString_without_message plain_quote 0
                (mkResourceRecord "example.com" TypeMX 1 300 4 [x00; x0a; xc0; x0c]))
      as (_ & H & _).
    apply H; [reflexivity|vm_compute; reflexivity].
Defined.

Lemma parseResponse_decides_on_header_witness :
  parseResponse 0 (wire_header 0x1234 0x8183 1 1 0 0 ++ [xff; xff]) = Err ErrNameNotFound.
Proof.
  destruct (parseResponse_decides_on_header 0) as [_ H].
  destruct (H x12 x34 x81 x83 x00 x01 x00 x01 x00 x00 x00 x00 [xff; xff]) as [_ H3].
  apply H3. reflexivity.
Defined.

(** ** Which names round-trip *)

Lemma segments_nonempty_or_empty (segments : list string) :
  Forall (fun segment => 1 <= strlen segment) segments
  \/ Exists (fun segment => strlen segment = 0) segments.
Proof.
  induction segments as [|segment rest [IH|IH]].
  - left. constructor.
  - destruct segment as [|c segment].
    + right. apply Exists_cons_hd. reflexivity.
    + left. constructor; [unfold strlen; simpl String.length; lia|exact IH].
  - right. apply Exists_cons_tl. exact IH.
Qed.

(** X3: Among the names that can be encoded, those that decode back to
    themselves are exactly the empty name and the names without an empty
    segment: a leading, trailing or doubled dot is lost. *)
Theorem EncodeDomainName_roundtrip_iff (name : string) :
  Forall (fun segment => strlen segment <= 63) (Split name ".") ->
  exists enc,
    EncodeDomainName name = Ok enc
    /\ ((exists fuel n, DecodeDomainName fuel enc 0 = Ok (name, n))
        <-> (Forall (fun segment => 1 <= strlen segment) (Split name ".")
             \/ name = EmptyString)).
Proof.
  intros Hall. exists (wire_labels (Split name ".") ++ [x00]).
  split; [exact (EncodeDomainName_short name Hall)|]. split.
  - intros (fuel & n & E).
    destruct (segments_nonempty_or_empty (Split name ".")) as [Hne|Hex]; [left; exact Hne|].
    destruct name as [|c name]; [right; reflexivity|]. exfalso.
    destruct (roundtrip_fails_on_empty_segment (String c name) Hall Hex ltac:(discriminate))
      as (enc & Eenc & Hnever).
    rewrite (EncodeDomainName_short _ Hall) in Eenc.
    assert (Eq : enc = wire_labels (Split (String c name) ".") ++ [x00]) by congruence.
    subst enc. exact (Hnever fuel n E).
  - intros [Hne| ->].
    + assert (Hwf : Forall (fun segment => 1 <= strlen segment <= 63) (Split name ".")).
      { apply Forall_forall. intros segment Hin.
        rewrite Forall_forall in Hall, Hne. split; [apply Hne|apply Hall]; exact Hin. }
      exists (S (List.length (Split name "."))). eexists. unfold DecodeDomainName.
      pose proof (DecodeDomainName_loop_labels (Split name ".")
                    (S (List.length (Split name "."))) [] [] 0 [] 0 Hwf
                    (Nat.lt_succ_diag_r _)) as E.
      cbn [app] in E. change (len (@nil byte)) with 0 in E.
      rewrite E, (Join_Split name "."). reflexivity.
    + exists 1%nat, 1. reflexivity.
Qed.

Lemma EncodeDomainName_roundtrip_iff_witness :
  exists enc,
    EncodeDomainName "a..b" = Ok enc
    /\ ((exists fuel n, DecodeDomainName fuel enc 0 = Ok ("a..b"%string, n))
        <-> (Forall (fun segment => 1 <= strlen segment) (Split "a..b" ".")
             \/ "a..b"%string = EmptyString)).
Proof.
  apply (EncodeDomainName_roundtrip_iff "a..b").
  repeat constructor; unfold strlen; simpl; lia.
Defined.
